(** * astro-feedback: the vote ledger, the submission handler and the
    feedback listing, embedded from the TypeScript sources.

    Sources embedded here:
    - db/config.ts                           (tables, primary keys, unique indexes)
    - src/lib/schemas.ts   (unnamed/part_003) (zod schemas)
    - src/lib/utils.ts                       (verifyApiKey, getClientInfo, getPublicFeedback,
                                              logAnalyticsEvent)
    - src/pages/api/feedback/index.ts        (POST submit, GET list)
    - src/pages/api/feedback/[id]/vote.ts (unnamed/part_002) (POST cast, DELETE remove)

    Conventions of the embedding:
    - JavaScript numbers that hold identifiers, counters, limits and
      millisecond timestamps are integers of [Z]; [NaN] is [None].
    - A table is the list of its rows in storage order.
    - A handler is a computation over the database and a fault schedule:
      every [await db...] statement consults the schedule and may throw,
      exactly as a storage failure would; an uncaught exception reaches the
      handler's [catch] block, which answers 500. *)

From Stdlib Require Import ZArith List String Ascii Bool Lia.
From Stdlib Require Import Sorting.Sorted.
Import ListNotations.

Local Open Scope string_scope.
Local Open Scope list_scope.
Local Open Scope Z_scope.

(* ------------------------------------------------------------------ *)
(** ** JavaScript primitives used by the handlers *)

(** [x || y] on a nullable string: [null], [undefined] and the empty string
    are falsy. *)
Definition truthy (x : option string) : option string :=
  match x with
  | Some s => if (s =? "")%string then None else Some s
  | None => None
  end.

Definition or_else (x : option string) (y : string) : string :=
  match truthy x with
  | Some s => s
  | None => y
  end.

(** [x || d] on a number: [NaN] and [0] are falsy. *)
Definition num_or (x : option Z) (d : Z) : Z :=
  match x with
  | Some z => if z =? 0 then d else z
  | None => d
  end.

(** [!x] on a number. *)
Definition falsy_num (x : option Z) : bool :=
  match x with
  | Some z => z =? 0
  | None => true
  end.

(** White space skipped by [parseInt].  A character of a [string] is one
    code unit, below 256; of StrWhiteSpaceChar these are TAB, LF, VT, FF,
    CR, SP and NBSP (U+00A0). *)
Definition isWhiteSpace (c : ascii) : bool :=
  let n := nat_of_ascii c in
  ((n =? 32) || ((9 <=? n) && (n <=? 13)) || (n =? 160))%nat.

Fixpoint trimStart (s : string) : string :=
  match s with
  | EmptyString => EmptyString
  | String c s' => if isWhiteSpace c then trimStart s' else s
  end.

(** Value of a digit in radixes up to 36. *)
Definition digitValue (c : ascii) : option Z :=
  let n := nat_of_ascii c in
  if ((48 <=? n) && (n <=? 57))%nat then Some (Z.of_nat n - 48)
  else if ((97 <=? n) && (n <=? 122))%nat then Some (Z.of_nat n - 87)
  else if ((65 <=? n) && (n <=? 90))%nat then Some (Z.of_nat n - 55)
  else None.

(** The longest prefix of radix-[R] digits, as a number; [acc] is [None]
    until a digit has been read. *)
Fixpoint parseDigits (R : Z) (s : string) (acc : option Z) : option Z :=
  match s with
  | EmptyString => acc
  | String c s' =>
      match digitValue c with
      | Some v =>
          if v <? R
          then parseDigits R s' (Some (R * match acc with Some a => a | None => 0 end + v))
          else acc
      | None => acc
      end
  end.

Definition stripHexPrefix (s : string) : option string :=
  match s with
  | String "0" (String "x" t) => Some t
  | String "0" (String "X" t) => Some t
  | _ => None
  end.

(** [parseInt(string, radix)] of ECMAScript; [radix = None] is a call with
    one argument.  [None] is [NaN]; [-0] is [Some 0]. *)
Definition parseInt (s : string) (radix : option Z) : option Z :=
  let S0 := trimStart s in
  let '(sign, S1) :=
    match S0 with
    | String "-" t => (-1, t)
    | String "+" t => (1, t)
    | _ => (1, S0)
    end in
  let R0 := match radix with Some r => r | None => 0 end in
  if negb (R0 =? 0) && ((R0 <? 2) || (36 <? R0)) then None
  else
    let stripPrefix := (R0 =? 0) || (R0 =? 16) in
    let R1 := if R0 =? 0 then 10 else R0 in
    let '(R, S2) :=
      match (if stripPrefix then stripHexPrefix S1 else None) with
      | Some t => (16, t)
      | None => (R1, S1)
      end in
    match parseDigits R S2 None with
    | Some n => Some (sign * n)
    | None => None
    end.

(** [Math.floor(a / b)] and [Math.ceil(a / b)] on integers, [b > 0]. *)
Definition Math_floor_div (a b : Z) : Z := a / b.
Definition Math_ceil_div (a b : Z) : Z := - ((- a) / b).

(* ------------------------------------------------------------------ *)
(** ** Enumerations of db/config.ts, stored as text *)

Inductive VoteType := up | down.

Inductive FeedbackType :=
  bug | feature | improvement | question | compliment | complaint | other.

Inductive FeedbackStatus :=
  new | in_review | in_progress | resolved | closed | spam.

Inductive Priority := low | medium | high | urgent.

Definition VoteType_eqb (a b : VoteType) : bool :=
  match a, b with
  | up, up | down, down => true
  | _, _ => false
  end.

Definition FeedbackType_eqb (a b : FeedbackType) : bool :=
  match a, b with
  | bug, bug | feature, feature | improvement, improvement
  | question, question | compliment, compliment | complaint, complaint
  | other, other => true
  | _, _ => false
  end.

Definition FeedbackStatus_eqb (a b : FeedbackStatus) : bool :=
  match a, b with
  | new, new | in_review, in_review | in_progress, in_progress
  | resolved, resolved | closed, closed | spam, spam => true
  | _, _ => false
  end.

(** The text a priority is stored as (the column is [column.text]). *)
Definition Priority_text (p : Priority) : string :=
  match p with
  | low => "low"
  | medium => "medium"
  | high => "high"
  | urgent => "urgent"
  end.

(** Position of a priority in the declared enum
    [['low', 'medium', 'high', 'urgent']]. *)
Definition Priority_rank (p : Priority) : Z :=
  match p with
  | low => 0
  | medium => 1
  | high => 2
  | urgent => 3
  end.

(** [z.enum(['up', 'down'])]. *)
Definition parse_VoteType (s : string) : option VoteType :=
  if (s =? "up")%string then Some up
  else if (s =? "down")%string then Some down
  else None.

(** [z.enum(['bug', 'feature', ...])]. *)
Definition parse_FeedbackType (s : string) : option FeedbackType :=
  if (s =? "bug")%string then Some bug
  else if (s =? "feature")%string then Some feature
  else if (s =? "improvement")%string then Some improvement
  else if (s =? "question")%string then Some question
  else if (s =? "compliment")%string then Some compliment
  else if (s =? "complaint")%string then Some complaint
  else if (s =? "other")%string then Some other
  else None.

(** [z.enum(['new', 'in_review', ...])]. *)
Definition parse_FeedbackStatus (s : string) : option FeedbackStatus :=
  if (s =? "new")%string then Some new
  else if (s =? "in_review")%string then Some in_review
  else if (s =? "in_progress")%string then Some in_progress
  else if (s =? "resolved")%string then Some resolved
  else if (s =? "closed")%string then Some closed
  else if (s =? "spam")%string then Some spam
  else None.

(** Sort keys of the listing, [z.enum(['newest', 'oldest', 'priority', 'upvotes'])]. *)
Inductive SortKey := SortNewest | SortOldest | SortPriority | SortUpvotes.

Definition parse_SortKey (s : string) : option SortKey :=
  if (s =? "newest")%string then Some SortNewest
  else if (s =? "oldest")%string then Some SortOldest
  else if (s =? "priority")%string then Some SortPriority
  else if (s =? "upvotes")%string then Some SortUpvotes
  else None.

(* ------------------------------------------------------------------ *)
(** ** Tables of db/config.ts

    Dates are milliseconds since the epoch: the instant a date column
    holds.  What the storage makes of a raw comparison between such a
    column and a bound [Date] is a parameter of the submission handler.
    Columns declared
    [optional: true] are options.  The free-form JSON columns that no
    handler reads back ([metadata], [eventData]) are kept as the values the
    handlers write. *)

Record RateLimit := {
  maxSubmissions : Z;
  windowMinutes : Z
}.

(** The part of the settings blob the handlers read. *)
Record Settings := {
  rateLimit : option RateLimit
}.

Module Websites.
Record row := {
  id : Z;
  name : string;
  domain : string;
  apiKey : string;
  isActive : bool;
  settings : option Settings
}.
End Websites.

Module FeedbackCategories.
Record row := {
  id : Z;
  websiteId : Z;
  name : string;
  slug : string;
  color : option string;
  isActive : bool;
  sortOrder : Z
}.
End FeedbackCategories.

Module Feedback.
Record row := {
  id : Z;
  websiteId : Z;
  categoryId : option Z;
  type : FeedbackType;
  status : FeedbackStatus;
  priority : Priority;
  title : string;
  description : string;
  email : option string;
  name : option string;
  userAgent : option string;
  url : option string;
  ipAddress : option string;
  metadata : option string;
  isPublic : bool;
  upvotes : Z;
  downvotes : Z;
  createdAt : Z;
  updatedAt : Z
}.

(** [.set({ upvotes, updatedAt })], [.set({ downvotes, updatedAt })] and
    [.set({ upvotes, downvotes, updatedAt })]. *)
Definition set_counts (u d t : Z) (r : row) : row :=
  {| id := id r; websiteId := websiteId r; categoryId := categoryId r;
     type := type r; status := status r; priority := priority r;
     title := title r; description := description r; email := email r;
     name := name r; userAgent := userAgent r; url := url r;
     ipAddress := ipAddress r; metadata := metadata r;
     isPublic := isPublic r; upvotes := u; downvotes := d;
     createdAt := createdAt r; updatedAt := t |}.
End Feedback.

Module FeedbackVotes.
Record row := {
  id : Z;
  feedbackId : Z;
  voterEmail : option string;
  voterIp : string;
  voteType : VoteType;
  createdAt : Z
}.

(** [.set({ voteType })]. *)
Definition set_voteType (t : VoteType) (r : row) : row :=
  {| id := id r; feedbackId := feedbackId r; voterEmail := voterEmail r;
     voterIp := voterIp r; voteType := t; createdAt := createdAt r |}.
End FeedbackVotes.

(** The [eventData] object written by the submission handler. *)
Record SubmittedEvent := {
  ev_feedbackId : Z;
  ev_type : FeedbackType;
  hasEmail : bool;
  hasCategory : bool
}.

Module AnalyticsEvents.
Record row := {
  id : Z;
  websiteId : Z;
  eventType : string;
  eventData : option SubmittedEvent;
  userAgent : option string;
  ipAddress : option string;
  createdAt : Z
}.
End AnalyticsEvents.

Record DB := {
  websites : list Websites.row;
  categories : list FeedbackCategories.row;
  feedback : list Feedback.row;
  votes : list FeedbackVotes.row;
  events : list AnalyticsEvents.row
}.

Definition with_feedback (l : list Feedback.row) (d : DB) : DB :=
  {| websites := websites d; categories := categories d; feedback := l;
     votes := votes d; events := events d |}.

Definition with_votes (l : list FeedbackVotes.row) (d : DB) : DB :=
  {| websites := websites d; categories := categories d; feedback := feedback d;
     votes := l; events := events d |}.

Definition with_events (l : list AnalyticsEvents.row) (d : DB) : DB :=
  {| websites := websites d; categories := categories d; feedback := feedback d;
     votes := votes d; events := l |}.

(** The key a [column.number({ primaryKey: true })] receives when the insert
    gives none: one more than the largest key in the table. *)
Definition next_id (ids : list Z) : Z := 1 + fold_right Z.max 0 ids.

Definition option_string_eqb (a : option string) (b : string) : bool :=
  match a with
  | Some s => (s =? b)%string
  | None => false
  end.

Definition option_Z_eqb (a : option Z) (b : Z) : bool :=
  match a with
  | Some z => z =? b
  | None => false
  end.

(* ------------------------------------------------------------------ *)
(** ** Handlers as computations: database state, storage faults, exceptions *)

(** What a statement or a handler body yields: a value, or an exception on
    its way to the enclosing [catch]. *)
Inductive Outcome (A : Type) :=
| Ok (a : A)
| Thrown.
Arguments Ok {A} a.
Arguments Thrown {A}.

(** A fault schedule: one flag per storage statement, in execution order;
    [true] makes that statement throw without effect.  Past its end the
    storage engine does not fail. *)
Definition Faults := list bool.

Definition M (A : Type) := DB -> Faults -> Outcome A * DB * Faults.

Definition ret {A} (a : A) : M A := fun d fs => (Ok a, d, fs).

Definition bind {A B} (m : M A) (k : A -> M B) : M B :=
  fun d fs =>
    match m d fs with
    | (Ok a, d', fs') => k a d' fs'
    | (Thrown, d', fs') => (Thrown, d', fs')
    end.

Notation "x <- m ;; k" := (bind m (fun x => k))
  (at level 61, m at next level, right associativity).
Notation "m ;;; k" := (bind m (fun _ => k))
  (at level 61, right associativity).

Definition throw {A} : M A := fun d fs => (Thrown, d, fs).

(** One awaited storage statement: [q] is what it does when the storage
    engine does not fail (it may still throw on a constraint). *)
Definition stmt {A} (q : DB -> Outcome A * DB) : M A :=
  fun d fs =>
    match fs with
    | true :: fs' => (Thrown, d, fs')
    | false :: fs' => let '(o, d') := q d in (o, d', fs')
    | [] => let '(o, d') := q d in (o, d', [])
    end.

(** A [select]. *)
Definition query {A} (q : DB -> A) : M A := stmt (fun d => (Ok (q d), d)).

(** An [update] or [delete], which no constraint of the schema can reject
    in these handlers. *)
Definition exec (f : DB -> DB) : M unit := stmt (fun d => (Ok tt, f d)).

(** [try { body } catch (error) { return handler }]. *)
Definition try_catch {A} (body : M A) (handler : A) : M A :=
  fun d fs =>
    match body d fs with
    | (Ok a, d', fs') => (Ok a, d', fs')
    | (Thrown, d', fs') => (Ok handler, d', fs')
    end.

(** [try { body } catch (error) { console.error(...) }]. *)
Definition try_log (body : M unit) : M unit := try_catch body tt.

(* ------------------------------------------------------------------ *)
(** ** Requests and responses *)

(** The headers the handlers read with [request.headers.get]. *)
Record Headers := {
  x_api_key : option string;
  x_forwarded_for : option string;
  x_real_ip : option string;
  user_agent : option string;
  x_voter_email : option string
}.

(** One row of the listing: the columns the handler selects, with the
    left-joined category name. *)
Record Item := {
  it_id : Z;
  it_websiteId : Z;
  it_categoryId : option Z;
  it_type : FeedbackType;
  it_status : FeedbackStatus;
  it_priority : Priority;
  it_title : string;
  it_description : string;
  it_email : option string;
  it_name : option string;
  it_url : option string;
  it_isPublic : bool;
  it_upvotes : Z;
  it_downvotes : Z;
  it_createdAt : Z;
  it_updatedAt : Z;
  it_categoryName : option string
}.

Record Pagination := {
  total : Z;
  page : Z;
  limit : Z;
  totalPages : Z
}.

(** JSON bodies of the responses.  The zod issue list sent as [details]
    with a 400 is not modelled. *)
Inductive Body :=
| ErrorBody (error : string)
| VoteData (upvotes downvotes : Z)
| SubmitData (id : Z) (status : FeedbackStatus) (createdAt : Z)
| ListData (data : list Item) (pagination : Pagination).

Record Response := {
  status : Z;
  body : Body
}.

Definition error_response (code : Z) (msg : string) : Response :=
  {| status := code; body := ErrorBody msg |}.

(* ------------------------------------------------------------------ *)
(** ** Constraints the schema declares on the tables the handlers insert into *)

(** Unique indexes of FeedbackVotes: [(feedbackId, voterIp)] and
    [(feedbackId, voterEmail)]; a NULL email collides with nothing. *)
Definition vote_collides (v w : FeedbackVotes.row) : bool :=
  (FeedbackVotes.feedbackId v =? FeedbackVotes.feedbackId w)
  && ((FeedbackVotes.voterIp v =? FeedbackVotes.voterIp w)%string
      || match FeedbackVotes.voterEmail v with
         | Some e => option_string_eqb (FeedbackVotes.voterEmail w) e
         | None => false
         end).

(** [db.insert(FeedbackVotes).values({ feedbackId, voteType, voterEmail, voterIp })]:
    the key and [createdAt] take their defaults; the insert is rejected by
    a unique index or by the reference to Feedback. *)
Definition insert_vote (fid : Z) (vt : VoteType) (em : option string)
    (ip : string) (now : Z) (d : DB) : Outcome unit * DB :=
  let v := {| FeedbackVotes.id := next_id (map FeedbackVotes.id (votes d));
              FeedbackVotes.feedbackId := fid;
              FeedbackVotes.voterEmail := em;
              FeedbackVotes.voterIp := ip;
              FeedbackVotes.voteType := vt;
              FeedbackVotes.createdAt := now |} in
  if existsb (vote_collides v) (votes d)
     || negb (existsb (fun f => Feedback.id f =? fid) (feedback d))
  then (Thrown, d)
  else (Ok tt, with_votes (votes d ++ [v]) d).

(** [db.update(FeedbackVotes).set({ voteType }).where(eq(FeedbackVotes.id, id))]. *)
Definition update_vote_type (vid : Z) (vt : VoteType) (d : DB) : DB :=
  with_votes
    (map (fun v => if FeedbackVotes.id v =? vid
                   then FeedbackVotes.set_voteType vt v else v) (votes d)) d.

(** [db.delete(FeedbackVotes).where(eq(FeedbackVotes.id, id))]. *)
Definition delete_vote (vid : Z) (d : DB) : DB :=
  with_votes (filter (fun v => negb (FeedbackVotes.id v =? vid)) (votes d)) d.

(** [db.update(Feedback).set({ upvotes, downvotes, updatedAt }).where(eq(Feedback.id, id))];
    a counter the [set] leaves out keeps the row's value. *)
Definition update_feedback_counts (fid : Z) (u d' : option Z) (now : Z)
    (d : DB) : DB :=
  with_feedback
    (map (fun f =>
            if Feedback.id f =? fid
            then Feedback.set_counts
                   match u with Some x => x | None => Feedback.upvotes f end
                   match d' with Some x => x | None => Feedback.downvotes f end
                   now f
            else f) (feedback d)) d.

(** The references a Feedback row declares: its website, and its category
    when it has one. *)
Definition feedback_references_ok (f : Feedback.row) (d : DB) : bool :=
  existsb (fun w => Websites.id w =? Feedback.websiteId f) (websites d)
  && match Feedback.categoryId f with
     | Some c => existsb (fun k => FeedbackCategories.id k =? c) (categories d)
     | None => true
     end.

(** [db.insert(Feedback).values({...}).returning()]: the key takes its
    default and the row comes back as [feedback[0]]. *)
Definition insert_feedback (f : Z -> Feedback.row) (d : DB)
  : Outcome Feedback.row * DB :=
  let r := f (next_id (map Feedback.id (feedback d))) in
  if feedback_references_ok r d
  then (Ok r, with_feedback (feedback d ++ [r]) d)
  else (Thrown, d).

(** [db.insert(AnalyticsEvents).values({ websiteId, eventType, eventData,
    userAgent, ipAddress })]. *)
Definition insert_event (websiteId : Z) (eventType : string)
    (eventData : option SubmittedEvent) (userAgent ipAddress : string)
    (now : Z) (d : DB) : Outcome unit * DB :=
  let e := {| AnalyticsEvents.id := next_id (map AnalyticsEvents.id (events d));
              AnalyticsEvents.websiteId := websiteId;
              AnalyticsEvents.eventType := eventType;
              AnalyticsEvents.eventData := eventData;
              AnalyticsEvents.userAgent := Some userAgent;
              AnalyticsEvents.ipAddress := Some ipAddress;
              AnalyticsEvents.createdAt := now |} in
  if existsb (fun w => Websites.id w =? websiteId) (websites d)
  then (Ok tt, with_events (events d ++ [e]) d)
  else (Thrown, d).

(** [and(...conditions)]. *)
Definition and_all {A} (conditions : list (A -> bool)) (x : A) : bool :=
  forallb (fun c => c x) conditions.

(** [ORDER BY]: [le a b] says that [a] may come before [b].  Rows the
    order does not separate keep their storage order. *)
Fixpoint insert_sorted {A} (le : A -> A -> bool) (x : A) (l : list A) : list A :=
  match l with
  | [] => [x]
  | y :: l' => if le x y then x :: l else y :: insert_sorted le x l'
  end.

Definition order_by {A} (le : A -> A -> bool) (l : list A) : list A :=
  fold_right (insert_sorted le) [] l.

(** [asc(column)] and [desc(column)] on a number or date column. *)
Definition asc {A} (col : A -> Z) (a b : A) : bool := col a <=? col b.
Definition desc {A} (col : A -> Z) (a b : A) : bool := col b <=? col a.

(** [desc(column)] on a text column: byte-wise comparison of the stored text. *)
Definition desc_text {A} (col : A -> string) (a b : A) : bool :=
  String.leb (col b) (col a).

(** [.limit(n)]: a negative limit returns every row. *)
Definition sql_limit {A} (n : Z) (l : list A) : list A :=
  if n <? 0 then l else firstn (Z.to_nat n) l.

(** [.offset(n)]. *)
Definition sql_offset {A} (n : Z) (l : list A) : list A :=
  skipn (Z.to_nat n) l.

(** The category joined to a feedback row,
    [.leftJoin(FeedbackCategories, eq(Feedback.categoryId, FeedbackCategories.id))];
    [id] is the primary key of FeedbackCategories, so at most one row joins. *)
Definition joined_category (d : DB) (f : Feedback.row)
  : option FeedbackCategories.row :=
  match Feedback.categoryId f with
  | Some c => find (fun k => FeedbackCategories.id k =? c) (categories d)
  | None => None
  end.

(** The category of a website with the given slug. *)
Definition select_category (websiteId : Z) (slug : string) (d : DB)
  : option FeedbackCategories.row :=
  find (fun k => (FeedbackCategories.websiteId k =? websiteId)
                 && (FeedbackCategories.slug k =? slug)%string) (categories d).

(* ------------------------------------------------------------------ *)
(** ** src/lib/utils.ts *)

(** [verifyApiKey(websiteId, apiKey)]: the website with that id and key,
    unless it is inactive. *)
Definition verifyApiKey (websiteId : Z) (key : string) : M (option Websites.row) :=
  website <- query (fun d =>
      find (fun w => (Websites.id w =? websiteId)
                     && (Websites.apiKey w =? key)%string) (websites d)) ;;
  match website with
  | None => ret None
  | Some w => if negb (Websites.isActive w) then ret None else ret (Some w)
  end.

(** [getClientInfo(request)]. *)
Definition getClientInfo (h : Headers) : string * string :=
  (match truthy (x_forwarded_for h) with
   | Some ip => ip
   | None => or_else (x_real_ip h) "unknown"
   end,
   or_else (user_agent h) "unknown").

(* ------------------------------------------------------------------ *)
(** ** The handlers

    zod's [.email()] and [.url()] string checks belong to the library, not
    to this repository: the handlers are parameterised by them, and by the
    storage's comparison of a date column with a bound [Date]. *)

(** A parsed JSON body of the vote route, before validation. *)
Record VoteJson := {
  js_voteType : string;
  js_voterEmail : option string
}.

(** [z.infer<typeof voteSchema>]. *)
Record Vote := {
  vd_voteType : VoteType;
  vd_voterEmail : option string
}.

(** A request to /api/feedback/[id]/vote: the [id] path parameter, the
    headers and what [request.json()] yields ([None]: it throws). *)
Record VoteRequest := {
  params_id : string;
  vr_headers : Headers;
  vr_json : option VoteJson
}.

(** A parsed JSON body of the submission route, before validation. *)
Record SubmissionJson := {
  js_websiteId : Z;
  js_categoryId : option Z;
  js_type : string;
  js_title : string;
  js_description : string;
  js_email : option string;
  js_name : option string;
  js_url : option string;
  js_metadata : option string
}.

(** [z.infer<typeof feedbackSubmissionSchema>]. *)
Record FeedbackSubmission := {
  fs_websiteId : Z;
  fs_categoryId : option Z;
  fs_type : FeedbackType;
  fs_title : string;
  fs_description : string;
  fs_email : option string;
  fs_name : option string;
  fs_url : option string;
  fs_metadata : option string
}.

Record SubmitRequest := {
  sr_headers : Headers;
  sr_json : option SubmissionJson
}.

(** What [url.searchParams.get] returns for the parameters the listing reads. *)
Record SearchParams := {
  sp_websiteId : option string;
  sp_status : option string;
  sp_type : option string;
  sp_category : option string;
  sp_limit : option string;
  sp_offset : option string;
  sp_sort : option string;
  sp_public : option string
}.

Record ListRequest := {
  lr_headers : Headers;
  searchParams : SearchParams
}.

(** [z.infer<typeof feedbackQuerySchema>]. *)
Record FeedbackQuery := {
  fq_status : option FeedbackStatus;
  fq_type : option FeedbackType;
  fq_category : option string;
  fq_limit : Z;
  fq_offset : Z;
  fq_sort : SortKey;
  fq_public : option bool
}.

(** [await request.json()]. *)
Definition request_json {A} (j : option A) : M A :=
  match j with
  | Some b => ret b
  | None => throw
  end.

(** The row of Feedback with the given key, [.where(eq(Feedback.id, id)).get()]. *)
Definition select_feedback (fid : Z) (d : DB) : option Feedback.row :=
  find (fun f => Feedback.id f =? fid) (feedback d).

(** The condition of the existing-vote lookup: the item, and the email when
    one is given, else the caller's address. *)
Definition vote_conditions (fid : Z) (em : option string) (ip : string)
    (v : FeedbackVotes.row) : bool :=
  (FeedbackVotes.feedbackId v =? fid)
  && match truthy em with
     | Some e => option_string_eqb (FeedbackVotes.voterEmail v) e
     | None => (FeedbackVotes.voterIp v =? ip)%string
     end.

(** The [{ upvotes, downvotes }] answer read back after the mutation. *)
Definition counts_response (fid : Z) : M Response :=
  updatedFeedback <- query (select_feedback fid) ;;
  ret {| status := 200;
         body := VoteData
                   (num_or (option_map Feedback.upvotes updatedFeedback) 0)
                   (num_or (option_map Feedback.downvotes updatedFeedback) 0) |}.

Section Handlers.

Variable zod_email : string -> bool.
Variable zod_url : string -> bool.

(** What the storage answers to the raw fragment
    [sql`${Feedback.createdAt} > ${windowStart}`] for a row created at the
    first instant and a [Date] of the second instant.  The fragment goes
    around the date mapping of the column (the column-aware [gte] is what
    the statistics route uses), so the comparison is the storage's own, on
    the stored form of a [column.date] and on the form the driver gives a
    [Date]; neither is fixed by this repository: the handlers are
    parameterised by it. *)
Variable sql_date_gt : Z -> Z -> bool.

(** [voteSchema.safeParse(body)]. *)
Definition voteSchema (b : VoteJson) : option Vote :=
  match parse_VoteType (js_voteType b) with
  | None => None
  | Some vt =>
      match js_voterEmail b with
      | None => Some {| vd_voteType := vt; vd_voterEmail := None |}
      | Some e =>
          if zod_email e
          then Some {| vd_voteType := vt; vd_voterEmail := Some e |}
          else None
      end
  end.

(** [POST] of /api/feedback/[id]/vote. *)
Definition vote_POST (req : VoteRequest) (now : Z) : M Response :=
  try_catch
    (match parseInt (params_id req) None with
     | None => ret (error_response 400 "Invalid feedback ID")
     | Some feedbackId =>
     if feedbackId =? 0 then ret (error_response 400 "Invalid feedback ID") else
     body <- request_json (vr_json req) ;;
     match voteSchema body with
     | None => ret (error_response 400 "Invalid request data")
     | Some voteData =>
     match truthy (x_api_key (vr_headers req)) with
     | None => ret (error_response 401 "API key required")
     | Some key =>
     feedback <- query (select_feedback feedbackId) ;;
     match feedback with
     | None => ret (error_response 404 "Feedback not found")
     | Some feedback =>
     website <- verifyApiKey (Feedback.websiteId feedback) key ;;
     match website with
     | None => ret (error_response 403 "Invalid API key")
     | Some _ =>
     let ipAddress := fst (getClientInfo (vr_headers req)) in
     existingVote <- query (fun d =>
         find (vote_conditions feedbackId (vd_voterEmail voteData) ipAddress)
              (votes d)) ;;
     match existingVote with
     | Some existingVote =>
         if negb (VoteType_eqb (FeedbackVotes.voteType existingVote)
                               (vd_voteType voteData))
         then
           exec (update_vote_type (FeedbackVotes.id existingVote)
                                  (vd_voteType voteData)) ;;;
           let upvoteChange :=
             if VoteType_eqb (vd_voteType voteData) up then 1 else -1 in
           let downvoteChange :=
             if VoteType_eqb (vd_voteType voteData) down then 1 else -1 in
           exec (update_feedback_counts feedbackId
                   (Some (Feedback.upvotes feedback + upvoteChange))
                   (Some (Feedback.downvotes feedback + downvoteChange)) now)
         else ret tt
     | None =>
         stmt (insert_vote feedbackId (vd_voteType voteData)
                 (truthy (vd_voterEmail voteData)) ipAddress now) ;;;
         if VoteType_eqb (vd_voteType voteData) up
         then exec (update_feedback_counts feedbackId
                      (Some (Feedback.upvotes feedback + 1)) None now)
         else exec (update_feedback_counts feedbackId
                      None (Some (Feedback.downvotes feedback + 1)) now)
     end ;;;
     counts_response feedbackId
     end end end end end)
    (error_response 500 "Internal server error").

(** [DELETE] of /api/feedback/[id]/vote. *)
Definition vote_DELETE (req : VoteRequest) (now : Z) : M Response :=
  try_catch
    (match parseInt (params_id req) None with
     | None => ret (error_response 400 "Invalid feedback ID")
     | Some feedbackId =>
     if feedbackId =? 0 then ret (error_response 400 "Invalid feedback ID") else
     match truthy (x_api_key (vr_headers req)) with
     | None => ret (error_response 401 "API key required")
     | Some key =>
     feedback <- query (select_feedback feedbackId) ;;
     match feedback with
     | None => ret (error_response 404 "Feedback not found")
     | Some feedback =>
     website <- verifyApiKey (Feedback.websiteId feedback) key ;;
     match website with
     | None => ret (error_response 403 "Invalid API key")
     | Some _ =>
     let ipAddress := fst (getClientInfo (vr_headers req)) in
     let email := x_voter_email (vr_headers req) in
     existingVote <- query (fun d =>
         find (vote_conditions feedbackId email ipAddress) (votes d)) ;;
     match existingVote with
     | None => ret (error_response 404 "Vote not found")
     | Some existingVote =>
         exec (delete_vote (FeedbackVotes.id existingVote)) ;;;
         (if VoteType_eqb (FeedbackVotes.voteType existingVote) up
          then exec (update_feedback_counts feedbackId
                       (Some (Feedback.upvotes feedback - 1)) None now)
          else exec (update_feedback_counts feedbackId
                       None (Some (Feedback.downvotes feedback - 1)) now)) ;;;
         counts_response feedbackId
     end end end end end)
    (error_response 500 "Internal server error").

(** [feedbackSubmissionSchema.safeParse(body)]; [metadata] is a record of
    anything and passes as it is. *)
Definition feedbackSubmissionSchema (b : SubmissionJson) : option FeedbackSubmission :=
  match parse_FeedbackType (js_type b) with
  | None => None
  | Some ty =>
      if (0 <? js_websiteId b)
         && match js_categoryId b with Some c => 0 <? c | None => true end
         && (1 <=? Z.of_nat (String.length (js_title b)))
         && (Z.of_nat (String.length (js_title b)) <=? 200)
         && (1 <=? Z.of_nat (String.length (js_description b)))
         && (Z.of_nat (String.length (js_description b)) <=? 5000)
         && match js_email b with Some e => zod_email e | None => true end
         && match js_name b with
            | Some n => (1 <=? Z.of_nat (String.length n))
                        && (Z.of_nat (String.length n) <=? 100)
            | None => true
            end
         && match js_url b with Some u => zod_url u | None => true end
      then Some {| fs_websiteId := js_websiteId b;
                   fs_categoryId := js_categoryId b;
                   fs_type := ty;
                   fs_title := js_title b;
                   fs_description := js_description b;
                   fs_email := js_email b;
                   fs_name := js_name b;
                   fs_url := js_url b;
                   fs_metadata := js_metadata b |}
      else None
  end.

(** The rows the rate-limit count query counts. *)
Definition recent_submission (websiteId : Z) (ipAddress : string)
    (windowStart : Z) (f : Feedback.row) : bool :=
  (Feedback.websiteId f =? websiteId)
  && option_string_eqb (Feedback.ipAddress f) ipAddress
  && sql_date_gt (Feedback.createdAt f) windowStart.

(** [POST] of /api/feedback. *)
Definition feedback_POST (req : SubmitRequest) (now : Z) : M Response :=
  try_catch
    (body <- request_json (sr_json req) ;;
     match feedbackSubmissionSchema body with
     | None => ret (error_response 400 "Invalid request data")
     | Some data =>
     match truthy (x_api_key (sr_headers req)) with
     | None => ret (error_response 401 "API key required")
     | Some key =>
     website <- verifyApiKey (fs_websiteId data) key ;;
     match website with
     | None => ret (error_response 403 "Invalid API key or inactive website")
     | Some website =>
     let ipAddress := fst (getClientInfo (sr_headers req)) in
     let userAgent := snd (getClientInfo (sr_headers req)) in
     let settings := Websites.settings website in
     limited <-
       match match settings with Some s => rateLimit s | None => None end with
       | Some rl =>
           let windowStart := now - windowMinutes rl * 60 * 1000 in
           recentSubmissions <- query (fun d =>
               Z.of_nat (List.length (filter
                 (recent_submission (fs_websiteId data) ipAddress windowStart)
                 (feedback d)))) ;;
           ret (maxSubmissions rl <=? recentSubmissions)
       | None => ret false
       end ;;
     if limited
     then ret (error_response 429 "Rate limit exceeded. Please try again later.")
     else
     feedback <- stmt (insert_feedback (fun id =>
         {| Feedback.id := id;
            Feedback.websiteId := fs_websiteId data;
            Feedback.categoryId :=
              match fs_categoryId data with
              | Some c => if c =? 0 then None else Some c
              | None => None
              end;
            Feedback.type := fs_type data;
            Feedback.status := new;
            Feedback.priority := medium;
            Feedback.title := fs_title data;
            Feedback.description := fs_description data;
            Feedback.email := truthy (fs_email data);
            Feedback.name := truthy (fs_name data);
            Feedback.userAgent := Some userAgent;
            Feedback.url := truthy (fs_url data);
            Feedback.ipAddress := Some ipAddress;
            Feedback.metadata := fs_metadata data;
            Feedback.isPublic := false;
            Feedback.upvotes := 0;
            Feedback.downvotes := 0;
            Feedback.createdAt := now;
            Feedback.updatedAt := now |})) ;;
     stmt (insert_event (fs_websiteId data) "feedback_submitted"
             (Some {| ev_feedbackId := Feedback.id feedback;
                      ev_type := fs_type data;
                      hasEmail := match truthy (fs_email data) with
                                  | Some _ => true
                                  | None => false
                                  end;
                      hasCategory := negb (falsy_num (fs_categoryId data)) |})
             userAgent ipAddress now) ;;;
     ret {| status := 201;
            body := SubmitData (Feedback.id feedback) (Feedback.status feedback)
                      (Feedback.createdAt feedback) |}
     end end end)
    (error_response 500 "Internal server error").

End Handlers.

(** The object handed to [feedbackQuerySchema.safeParse]: the handler has
    already replaced a missing [limit], [offset] and [sort] by a default. *)
Record QueryInput := {
  qi_status : option string;
  qi_type : option string;
  qi_category : option string;
  qi_limit : string;
  qi_offset : string;
  qi_sort : string;
  qi_public : option string
}.

(** An optional [z.enum]. *)
Definition optional_enum {A} (parse : string -> option A) (x : option string)
  : option (option A) :=
  match x with
  | None => Some None
  | Some s =>
      match parse s with
      | Some a => Some (Some a)
      | None => None
      end
  end.

(** [feedbackQuerySchema.safeParse(input)]. *)
Definition feedbackQuerySchema (i : QueryInput) : option FeedbackQuery :=
  match optional_enum parse_FeedbackStatus (qi_status i),
        optional_enum parse_FeedbackType (qi_type i),
        parse_SortKey (qi_sort i) with
  | Some st, Some ty, Some so =>
      let limit := num_or (parseInt (qi_limit i) None) 10 in
      let offset := num_or (parseInt (qi_offset i) None) 0 in
      if (1 <=? limit) && (limit <=? 100) && (0 <=? offset)
      then Some {| fq_status := st;
                   fq_type := ty;
                   fq_category := qi_category i;
                   fq_limit := limit;
                   fq_offset := offset;
                   fq_sort := so;
                   fq_public :=
                     option_map (fun val => (val =? "true")%string) (qi_public i) |}
      else None
  | _, _, _ => None
  end.

(** The columns the listing selects from a feedback row and its joined
    category. *)
Definition to_item (d : DB) (f : Feedback.row) : Item :=
  {| it_id := Feedback.id f;
     it_websiteId := Feedback.websiteId f;
     it_categoryId := Feedback.categoryId f;
     it_type := Feedback.type f;
     it_status := Feedback.status f;
     it_priority := Feedback.priority f;
     it_title := Feedback.title f;
     it_description := Feedback.description f;
     it_email := Feedback.email f;
     it_name := Feedback.name f;
     it_url := Feedback.url f;
     it_isPublic := Feedback.isPublic f;
     it_upvotes := Feedback.upvotes f;
     it_downvotes := Feedback.downvotes f;
     it_createdAt := Feedback.createdAt f;
     it_updatedAt := Feedback.updatedAt f;
     it_categoryName := option_map FeedbackCategories.name (joined_category d f) |}.

(** The [switch (query.sort)] of the listing. *)
Definition list_orderBy (sort : SortKey) : Feedback.row -> Feedback.row -> bool :=
  match sort with
  | SortOldest => asc Feedback.createdAt
  | SortPriority => desc_text (fun f => Priority_text (Feedback.priority f))
  | SortUpvotes => desc Feedback.upvotes
  | SortNewest => desc Feedback.createdAt
  end.

(** The conditions the listing starts from, before the category is resolved. *)
Definition list_conditions (websiteId : Z) (q : FeedbackQuery)
  : list (Feedback.row -> bool) :=
  [fun f => Feedback.websiteId f =? websiteId]
  ++ match fq_status q with
     | Some s => [fun f => FeedbackStatus_eqb (Feedback.status f) s]
     | None => []
     end
  ++ match fq_type q with
     | Some t => [fun f => FeedbackType_eqb (Feedback.type f) t]
     | None => []
     end
  ++ match fq_public q with
     | Some true => [fun f => Bool.eqb (Feedback.isPublic f) true]
     | _ => []
     end.

(** [GET] of /api/feedback. *)
Definition feedback_GET (req : ListRequest) : M Response :=
  try_catch
    (let sp := searchParams req in
     match parseInt (or_else (sp_websiteId sp) "0") (Some 10) with
     | None => ret (error_response 400 "Website ID required")
     | Some websiteId =>
     if websiteId =? 0 then ret (error_response 400 "Website ID required") else
     match truthy (x_api_key (lr_headers req)) with
     | None => ret (error_response 401 "API key required")
     | Some key =>
     website <- verifyApiKey websiteId key ;;
     match website with
     | None => ret (error_response 403 "Invalid API key or inactive website")
     | Some _ =>
     match feedbackQuerySchema
             {| qi_status := truthy (sp_status sp);
                qi_type := truthy (sp_type sp);
                qi_category := truthy (sp_category sp);
                qi_limit := or_else (sp_limit sp) "10";
                qi_offset := or_else (sp_offset sp) "0";
                qi_sort := or_else (sp_sort sp) "newest";
                qi_public := truthy (sp_public sp) |} with
     | None => ret (error_response 400 "Invalid query parameters")
     | Some query_ =>
     conditions <-
       match truthy (fq_category query_) with
       | Some slug =>
           categoryRecord <- query (select_category websiteId slug) ;;
           match categoryRecord with
           | Some c =>
               ret (list_conditions websiteId query_
                    ++ [fun f => option_Z_eqb (Feedback.categoryId f)
                                   (FeedbackCategories.id c)])
           | None => ret (list_conditions websiteId query_)
           end
       | None => ret (list_conditions websiteId query_)
       end ;;
     let orderBy := list_orderBy (fq_sort query_) in
     total <- query (fun d =>
         Z.of_nat (List.length (filter (and_all conditions) (feedback d)))) ;;
     feedback <- query (fun d =>
         map (to_item d)
           (sql_limit (fq_limit query_)
              (sql_offset (fq_offset query_)
                 (order_by orderBy
                    (filter (and_all conditions) (feedback d)))))) ;;
     let totalPages := Math_ceil_div total (fq_limit query_) in
     let currentPage := Math_floor_div (fq_offset query_) (fq_limit query_) + 1 in
     ret {| status := 200;
            body := ListData feedback
                      {| total := total;
                         page := currentPage;
                         limit := fq_limit query_;
                         totalPages := totalPages |} |}
     end end end end)
    (error_response 500 "Internal server error").

(* ------------------------------------------------------------------ *)
(** ** The rest of src/lib/utils.ts that touches the tables *)

(** [logAnalyticsEvent(websiteId, eventType, eventData, request)]: the
    insert sits in its own [try]/[catch], which only logs. *)
Definition logAnalyticsEvent (websiteId : Z) (eventType : string)
    (eventData : option SubmittedEvent) (h : Headers) (now : Z) : M unit :=
  let ipAddress := fst (getClientInfo h) in
  let userAgent := snd (getClientInfo h) in
  try_log (stmt (insert_event websiteId eventType eventData userAgent ipAddress now)).

(** The [sort] option of [getPublicFeedback]. *)
Inductive PublicSort := PublicNewest | PublicOldest | PublicUpvotes.

(** The [options] argument of [getPublicFeedback]; a missing property is
    [None]. *)
Record PublicOptions := {
  po_limit : option Z;
  po_offset : option Z;
  po_type : option string;
  po_category : option string;
  po_sort : option PublicSort
}.

(** One row of [getPublicFeedback]. *)
Record PublicItem := {
  pi_id : Z;
  pi_type : FeedbackType;
  pi_status : FeedbackStatus;
  pi_title : string;
  pi_description : string;
  pi_upvotes : Z;
  pi_downvotes : Z;
  pi_createdAt : Z;
  pi_categoryName : option string;
  pi_categoryColor : option string
}.

Definition to_public_item (d : DB) (f : Feedback.row) : PublicItem :=
  {| pi_id := Feedback.id f;
     pi_type := Feedback.type f;
     pi_status := Feedback.status f;
     pi_title := Feedback.title f;
     pi_description := Feedback.description f;
     pi_upvotes := Feedback.upvotes f;
     pi_downvotes := Feedback.downvotes f;
     pi_createdAt := Feedback.createdAt f;
     pi_categoryName := option_map FeedbackCategories.name (joined_category d f);
     pi_categoryColor :=
       match joined_category d f with
       | Some k => FeedbackCategories.color k
       | None => None
       end |}.

(** The [switch (sort)] of [getPublicFeedback]. *)
Definition public_orderBy (sort : PublicSort) : Feedback.row -> Feedback.row -> bool :=
  match sort with
  | PublicOldest => desc Feedback.createdAt
  | PublicUpvotes => desc Feedback.upvotes
  | PublicNewest => desc Feedback.createdAt
  end.

(** [eq(Feedback.type, type)] for a [type] given as text: the column holds
    the text of an enum member, so another text matches no row. *)
Definition type_is (t : string) (f : Feedback.row) : bool :=
  match parse_FeedbackType t with
  | Some ty => FeedbackType_eqb (Feedback.type f) ty
  | None => false
  end.

(** [getPublicFeedback(websiteId, options)]. *)
Definition getPublicFeedback (websiteId : Z) (options : PublicOptions)
  : M (list PublicItem) :=
  let limit := match po_limit options with Some l => l | None => 10 end in
  let offset := match po_offset options with Some o => o | None => 0 end in
  let sort := match po_sort options with Some s => s | None => PublicNewest end in
  let conditions :=
    [fun f => Feedback.websiteId f =? websiteId;
     fun f => Bool.eqb (Feedback.isPublic f) true]
    ++ match truthy (po_type options) with
       | Some t => [type_is t]
       | None => []
       end in
  conditions <-
    match truthy (po_category options) with
    | Some category =>
        categoryRecord <- query (select_category websiteId category) ;;
        match categoryRecord with
        | Some c =>
            ret (conditions
                 ++ [fun f => option_Z_eqb (Feedback.categoryId f)
                                (FeedbackCategories.id c)])
        | None => ret conditions
        end
    | None => ret conditions
    end ;;
  query (fun d =>
    map (to_public_item d)
      (sql_limit limit
         (sql_offset offset
            (order_by (public_orderBy sort)
               (filter (and_all conditions) (feedback d)))))).

(** [checkRateLimit(websiteId, ipAddress, maxRequests, windowMinutes)]: the
    window start is computed and not used. *)
Definition checkRateLimit (websiteId : Z) (ipAddress : string)
    (maxRequests windowMinutes : Z) (now : Z) : M bool :=
  let _windowStart := now - windowMinutes * 60 * 1000 in
  recentRequests <- query (fun d =>
      filter (fun f => (Feedback.websiteId f =? websiteId)
                       && option_string_eqb (Feedback.ipAddress f) ipAddress)
             (feedback d)) ;;
  ret (Z.of_nat (List.length recentRequests) <? maxRequests).

(* ------------------------------------------------------------------ *)
(** ** Running handlers *)

(** A run in which the storage engine does not fail. *)
Definition run {A} (m : M A) (d : DB) : Outcome A * DB := fst (m d []).

(** A computation is regular when a run that yields a value under some
    fault schedule is the fault-free run: the value and the database are
    the ones a run without storage failures gives. *)
Definition regular {A} (m : M A) : Prop :=
  forall d fs a d' fs', m d fs = (Ok a, d', fs') -> m d [] = (Ok a, d', []).

(** The operations of the vote route. *)
Inductive VoteOp :=
| castVote (req : VoteRequest) (now : Z)
| removeVote (req : VoteRequest) (now : Z).

Definition vote_op (zod_email : string -> bool) (op : VoteOp) : M Response :=
  match op with
  | castVote req now => vote_POST zod_email req now
  | removeVote req now => vote_DELETE req now
  end.

(** A sequence of vote operations, each under its own fault schedule; the
    result is [None] as soon as one of them does not complete, that is,
    answers 500. *)
Fixpoint vote_ops (zod_email : string -> bool) (ops : list (VoteOp * Faults))
    (d : DB) : option DB :=
  match ops with
  | [] => Some d
  | (op, fs) :: ops' =>
      match vote_op zod_email op d fs with
      | (Ok r, d', _) =>
          if status r =? 500 then None else vote_ops zod_email ops' d'
      | (Thrown, _, _) => None
      end
  end.

(** The number of votes of one type on one item. *)
Definition count_votes (fid : Z) (vt : VoteType) (vs : list FeedbackVotes.row) : Z :=
  Z.of_nat (List.length (filter
    (fun v => (FeedbackVotes.feedbackId v =? fid)
              && VoteType_eqb (FeedbackVotes.voteType v) vt) vs)).

(** Every counter agrees with the ledger. *)
Definition counters_match (d : DB) : Prop :=
  forall f, In f (feedback d) ->
    Feedback.upvotes f = count_votes (Feedback.id f) up (votes d)
    /\ Feedback.downvotes f = count_votes (Feedback.id f) down (votes d).

(** The primary key of FeedbackVotes holds and every counter agrees with the
    ledger. *)
Definition ledger_ok (d : DB) : Prop :=
  NoDup (map FeedbackVotes.id (votes d)) /\ counters_match d.

(** The unique indexes of FeedbackVotes hold in a table. *)
Fixpoint votes_unique (vs : list FeedbackVotes.row) : bool :=
  match vs with
  | [] => true
  | v :: vs' => negb (existsb (vote_collides v) vs') && votes_unique vs'
  end.

(* ------------------------------------------------------------------ *)
(** ** Sample data used to exercise the handlers *)

(** A stand-in for zod's [.email()] check: the text holds an [@]. *)
Definition sample_email (s : string) : bool :=
  existsb (fun c => Ascii.eqb c "@"%char) (list_ascii_of_string s).

(** A stand-in for zod's [.url()] check: the text starts with [http]. *)
Definition sample_url (s : string) : bool := String.prefix "http" s.

(** A storage that compares the two instants. *)
Definition chronological (c s : Z) : bool := s <? c.



Definition sample_site (rl : option RateLimit) : Websites.row :=
  {| Websites.id := 1; Websites.name := "Docs"; Websites.domain := "docs.example";
     Websites.apiKey := "key-1"; Websites.isActive := true;
     Websites.settings := Some {| rateLimit := rl |} |}.

Definition sample_feedback (i : Z) (p : Priority) (u : Z) (t : Z) : Feedback.row :=
  {| Feedback.id := i; Feedback.websiteId := 1; Feedback.categoryId := None;
     Feedback.type := bug; Feedback.status := new; Feedback.priority := p;
     Feedback.title := "t"; Feedback.description := "d"; Feedback.email := None;
     Feedback.name := None; Feedback.userAgent := Some "ua"; Feedback.url := None;
     Feedback.ipAddress := Some "203.0.113.7"; Feedback.metadata := None;
     Feedback.isPublic := true; Feedback.upvotes := u; Feedback.downvotes := 0;
     Feedback.createdAt := t; Feedback.updatedAt := t |}.

Definition sample_db (rl : option RateLimit) (fb : list Feedback.row) : DB :=
  {| websites := [sample_site rl]; categories := []; feedback := fb;
     votes := []; events := [] |}.

Definition sample_headers (email : option string) : Headers :=
  {| x_api_key := Some "key-1"; x_forwarded_for := Some "203.0.113.7";
     x_real_ip := None; user_agent := Some "ua"; x_voter_email := email |}.

Definition sample_vote (vt : string) (email : option string) : VoteRequest :=
  {| params_id := "1"; vr_headers := sample_headers email;
     vr_json := Some {| js_voteType := vt; js_voterEmail := email |} |}.

Definition sample_submission : SubmitRequest :=
  {| sr_headers := sample_headers None;
     sr_json := Some {| js_websiteId := 1; js_categoryId := None; js_type := "bug";
                        js_title := "Broken link"; js_description := "The link is dead";
                        js_email := None; js_name := None; js_url := None;
                        js_metadata := None |} |}.

Definition sample_params (limit offset sort : option string) : SearchParams :=
  {| sp_websiteId := Some "1"; sp_status := None; sp_type := None;
     sp_category := None; sp_limit := limit; sp_offset := offset;
     sp_sort := sort; sp_public := None |}.

Definition sample_list (limit offset sort : option string) : ListRequest :=
  {| lr_headers := sample_headers None;
     searchParams := sample_params limit offset sort |}.

(** [n] feedback rows of the sample website, with keys and creation times
    [1 .. n]. *)
Fixpoint sample_rows (n : nat) : list Feedback.row :=
  match n with
  | O => []
  | S k => sample_rows k ++ [sample_feedback (Z.of_nat n) medium 0 (Z.of_nat n)]
  end.

(* ------------------------------------------------------------------ *)
(** * Properties *)

(** ** Runs under a fault schedule and fault-free runs *)

Lemma regular_ret {A} (a : A) : regular (ret a).
Proof. intros d fs a' d' fs' H. unfold ret in *. inversion H; subst. reflexivity. Qed.

Lemma regular_throw {A} : regular (@throw A).
Proof. intros d fs a' d' fs' H. unfold throw in H. discriminate. Qed.

Lemma regular_stmt {A} (q : DB -> Outcome A * DB) : regular (stmt q).
Proof.
  intros d fs a d' fs' H. unfold stmt in *.
  destruct fs as [|[|] fs0]; try discriminate;
    destruct (q d) as [o d0]; inversion H; subst; reflexivity.
Qed.

Lemma regular_query {A} (q : DB -> A) : regular (query q).
Proof. apply regular_stmt. Qed.

Lemma regular_exec (f : DB -> DB) : regular (exec f).
Proof. apply regular_stmt. Qed.

Lemma regular_bind {A B} (m : M A) (k : A -> M B) :
  regular m -> (forall a, regular (k a)) -> regular (bind m k).
Proof.
  intros Hm Hk d fs b d' fs' H. unfold bind in *.
  destruct (m d fs) as [[[a|] d1] fs1] eqn:E; try discriminate.
  rewrite (Hm _ _ _ _ _ E). eapply Hk; eassumption.
Qed.

(** What a [try]/[catch] answers under faults is the handler's answer or
    the answer of the fault-free run. *)
Lemma try_catch_completed {A} (body : M A) (h : A) d fs r d' fs' :
  regular body ->
  try_catch body h d fs = (Ok r, d', fs') ->
  r = h \/ try_catch body h d [] = (Ok r, d', []).
Proof.
  intros Hb H. unfold try_catch in *.
  destruct (body d fs) as [[[a|] d1] fs1] eqn:E.
  - right. inversion H; subst. rewrite (Hb _ _ _ _ _ E). reflexivity.
  - left. congruence.
Qed.

Ltac regular_step :=
  first
    [ apply regular_ret
    | apply regular_throw
    | apply regular_stmt
    | apply regular_query
    | apply regular_exec
    | apply regular_bind; [ | intros ]
    | match goal with
      | |- regular (match ?x with _ => _ end) => destruct x
      | |- regular (if ?x then _ else _) => destruct x
      end ].

Ltac regular_tac := repeat regular_step.

Lemma regular_verifyApiKey websiteId key : regular (verifyApiKey websiteId key).
Proof. unfold verifyApiKey. regular_tac. Qed.

Lemma regular_counts_response fid : regular (counts_response fid).
Proof. unfold counts_response. regular_tac. Qed.

Lemma regular_request_json {A} (j : option A) : regular (request_json j).
Proof. unfold request_json. regular_tac. Qed.

(** ** Counting rows *)

Definition cnt {A} (p : A -> bool) (l : list A) : Z :=
  Z.of_nat (List.length (filter p l)).

Lemma cnt_nonneg {A} (p : A -> bool) l : 0 <= cnt p l.
Proof. unfold cnt. lia. Qed.

Lemma cnt_nil {A} (p : A -> bool) : cnt p [] = 0.
Proof. reflexivity. Qed.

Lemma cnt_cons {A} (p : A -> bool) x l :
  cnt p (x :: l) = (if p x then 1 else 0) + cnt p l.
Proof.
  unfold cnt. cbn [filter]. destruct (p x); cbn [List.length];
    rewrite ?Nat2Z.inj_succ; lia.
Qed.

Lemma cnt_app {A} (p : A -> bool) l1 l2 : cnt p (l1 ++ l2) = cnt p l1 + cnt p l2.
Proof. unfold cnt. rewrite filter_app, length_app. lia. Qed.

Lemma vote_id_unique (vs : list FeedbackVotes.row) ev v :
  NoDup (map FeedbackVotes.id vs) -> In ev vs -> In v vs ->
  FeedbackVotes.id v = FeedbackVotes.id ev -> v = ev.
Proof.
  induction vs as [|x vs IH]; simpl; intros Hnd Hev Hv Hid; [tauto|].
  inversion Hnd as [|? ? Hnotin Hnd']; subst.
  destruct Hev as [->|Hev], Hv as [->|Hv]; auto.
  - exfalso. apply Hnotin. rewrite <- Hid. now apply in_map.
  - exfalso. apply Hnotin. rewrite Hid. now apply in_map.
Qed.

(** Updating the row with a given key changes a count by what that row
    stops and starts to contribute. *)
Lemma cnt_update (p : FeedbackVotes.row -> bool) g vs ev :
  NoDup (map FeedbackVotes.id vs) -> In ev vs ->
  cnt p (map (fun v => if FeedbackVotes.id v =? FeedbackVotes.id ev then g v else v) vs)
  = cnt p vs - (if p ev then 1 else 0) + (if p (g ev) then 1 else 0).
Proof.
  induction vs as [|x vs IH]; simpl; intros Hnd Hev; [tauto|].
  inversion Hnd as [|? ? Hnotin Hnd']; subst.
  rewrite !cnt_cons.
  destruct (FeedbackVotes.id x =? FeedbackVotes.id ev) eqn:E.
  - apply Z.eqb_eq in E.
    assert (x = ev) by (eapply vote_id_unique with (vs := x :: vs); simpl; eauto).
    subst x.
    assert (Hid : map (fun v => if FeedbackVotes.id v =? FeedbackVotes.id ev then g v else v) vs = vs).
    { rewrite <- (map_id vs) at 2. apply map_ext_in. intros a Ha.
      destruct (FeedbackVotes.id a =? FeedbackVotes.id ev) eqn:E'; auto.
      apply Z.eqb_eq in E'. exfalso. apply Hnotin. rewrite <- E'. now apply in_map. }
    rewrite Hid. lia.
  - destruct Hev as [->|Hev]; [rewrite Z.eqb_refl in E; discriminate|].
    rewrite IH by assumption. lia.
Qed.

Lemma cnt_delete (p : FeedbackVotes.row -> bool) vs ev :
  NoDup (map FeedbackVotes.id vs) -> In ev vs ->
  cnt p (filter (fun v => negb (FeedbackVotes.id v =? FeedbackVotes.id ev)) vs)
  = cnt p vs - (if p ev then 1 else 0).
Proof.
  induction vs as [|x vs IH]; simpl; intros Hnd Hev; [tauto|].
  inversion Hnd as [|? ? Hnotin Hnd']; subst.
  rewrite cnt_cons.
  destruct (FeedbackVotes.id x =? FeedbackVotes.id ev) eqn:E; simpl.
  - apply Z.eqb_eq in E.
    assert (x = ev) by (eapply vote_id_unique with (vs := x :: vs); simpl; eauto).
    subst x.
    assert (Hid : filter (fun v => negb (FeedbackVotes.id v =? FeedbackVotes.id ev)) vs = vs).
    { apply forallb_filter_id. apply forallb_forall. intros a Ha.
      destruct (FeedbackVotes.id a =? FeedbackVotes.id ev) eqn:E'; auto.
      apply Z.eqb_eq in E'. exfalso. apply Hnotin. rewrite <- E'. now apply in_map. }
    rewrite Hid. lia.
  - destruct Hev as [->|Hev]; [rewrite Z.eqb_refl in E; discriminate|].
    rewrite cnt_cons, IH by assumption. lia.
Qed.

Lemma count_votes_cnt fid vt vs :
  count_votes fid vt vs
  = cnt (fun v => (FeedbackVotes.feedbackId v =? fid)
                  && VoteType_eqb (FeedbackVotes.voteType v) vt) vs.
Proof. reflexivity. Qed.

Lemma next_id_fresh ids : ~ In (next_id ids) ids.
Proof.
  assert (H : forall x, In x ids -> x <= fold_right Z.max 0 ids).
  { induction ids as [|y ids IH]; simpl; intros x Hx; [tauto|].
    destruct Hx as [->|Hx]; [lia|]. specialize (IH _ Hx). lia. }
  intros Hin. apply H in Hin. unfold next_id in Hin. lia.
Qed.

Lemma NoDup_snoc {A} (l : list A) x : NoDup l -> ~ In x l -> NoDup (l ++ [x]).
Proof.
  intros Hl Hx. apply NoDup_app; auto; [repeat constructor; auto | ].
  intros a Ha [<-|[]]. auto.
Qed.

Lemma counters_after_update fid u dn now d :
  (forall g, In g (feedback d) -> Feedback.id g <> fid ->
     Feedback.upvotes g = count_votes (Feedback.id g) up (votes d)
     /\ Feedback.downvotes g = count_votes (Feedback.id g) down (votes d)) ->
  (forall g, In g (feedback d) -> Feedback.id g = fid ->
     match u with Some x => x | None => Feedback.upvotes g end
       = count_votes fid up (votes d)
     /\ match dn with Some x => x | None => Feedback.downvotes g end
       = count_votes fid down (votes d)) ->
  counters_match (update_feedback_counts fid u dn now d).
Proof.
  intros Hother Hsame f' Hin. unfold update_feedback_counts in Hin. simpl in Hin.
  apply in_map_iff in Hin. destruct Hin as [g [Hg Hin]].
  unfold update_feedback_counts. cbn [votes with_feedback].
  destruct (Feedback.id g =? fid) eqn:E.
  - apply Z.eqb_eq in E. subst f'. cbn [Feedback.set_counts Feedback.upvotes Feedback.downvotes Feedback.id].
    rewrite E. now apply Hsame.
  - apply Z.eqb_neq in E. subst f'. now apply Hother.
Qed.

Lemma select_feedback_some fid d f :
  select_feedback fid d = Some f -> In f (feedback d) /\ Feedback.id f = fid.
Proof.
  unfold select_feedback. intros H. apply find_some in H.
  destruct H as [H1 H2]. apply Z.eqb_eq in H2. auto.
Qed.

Lemma VoteType_eqb_eq a b : VoteType_eqb a b = true <-> a = b.
Proof. destruct a, b; simpl; split; congruence. Qed.

Lemma ledger_after_insert fid vt em ip now d d1 f :
  ledger_ok d -> select_feedback fid d = Some f ->
  insert_vote fid vt em ip now d = (Ok tt, d1) ->
  ledger_ok
    (update_feedback_counts fid
       (if VoteType_eqb vt up then Some (Feedback.upvotes f + 1) else None)
       (if VoteType_eqb vt up then None else Some (Feedback.downvotes f + 1))
       now d1).
Proof.
  intros [Hnd Hc] Hf Hins. apply select_feedback_some in Hf. destruct Hf as [Hfin Hfid].
  unfold insert_vote in Hins.
  destruct (_ || _); [discriminate|]. inversion Hins; subst d1; clear Hins.
  split.
  - cbn [update_feedback_counts votes with_votes with_feedback].
    rewrite map_app. cbn [map FeedbackVotes.id]. apply NoDup_snoc; auto.
    apply next_id_fresh.
  - apply counters_after_update; cbn [feedback votes with_votes].
    + intros g Hg Hne. destruct (Hc g Hg) as [Hu Hd].
      rewrite !count_votes_cnt, !cnt_app, !cnt_cons in *.
      cbn [FeedbackVotes.feedbackId FeedbackVotes.voteType].
      assert (E : (fid =? Feedback.id g) = false) by (apply Z.eqb_neq; congruence).
      rewrite E. cbn [andb]. rewrite !cnt_nil. lia.
    + intros g Hg Hid. destruct (Hc g Hg) as [Hu Hd]. destruct (Hc f Hfin) as [Hu' Hd'].
      rewrite Hid in *. rewrite Hfid in *.
      rewrite !count_votes_cnt, !cnt_app, !cnt_cons in *.
      cbn [FeedbackVotes.feedbackId FeedbackVotes.voteType].
      rewrite Z.eqb_refl. cbn [andb]. rewrite !cnt_nil.
      destruct vt; cbn [VoteType_eqb]; lia.
Qed.

Lemma existing_vote_some fid em ip vs ev :
  find (vote_conditions fid em ip) vs = Some ev ->
  In ev vs /\ FeedbackVotes.feedbackId ev = fid.
Proof.
  intros H. apply find_some in H. destruct H as [H1 H2].
  unfold vote_conditions in H2. apply andb_prop in H2. destruct H2 as [H2 _].
  apply Z.eqb_eq in H2. auto.
Qed.

Lemma ledger_after_flip fid vt em ip now d f ev :
  ledger_ok d -> select_feedback fid d = Some f ->
  find (vote_conditions fid em ip) (votes d) = Some ev ->
  VoteType_eqb (FeedbackVotes.voteType ev) vt = false ->
  ledger_ok
    (update_feedback_counts fid
       (Some (Feedback.upvotes f + (if VoteType_eqb vt up then 1 else -1)))
       (Some (Feedback.downvotes f + (if VoteType_eqb vt down then 1 else -1)))
       now (update_vote_type (FeedbackVotes.id ev) vt d)).
Proof.
  intros [Hnd Hc] Hf Hev Hne. apply select_feedback_some in Hf. destruct Hf as [Hfin Hfid].
  apply existing_vote_some in Hev. destruct Hev as [Hevin Hevfid].
  split.
  - cbn [update_feedback_counts update_vote_type votes with_votes with_feedback].
    rewrite map_map.
    replace (map _ (votes d)) with (map FeedbackVotes.id (votes d)); auto.
    apply map_ext. intros a. destruct (_ =? _); reflexivity.
  - apply counters_after_update; cbn [update_vote_type feedback votes with_votes].
    + intros g Hg Hgne. destruct (Hc g Hg) as [Hu Hd].
      rewrite !count_votes_cnt in *. rewrite !cnt_update by assumption.
      cbn [FeedbackVotes.set_voteType FeedbackVotes.feedbackId FeedbackVotes.voteType].
      assert (E : (FeedbackVotes.feedbackId ev =? Feedback.id g) = false)
        by (apply Z.eqb_neq; congruence).
      rewrite E. cbn [andb]. lia.
    + intros g Hg Hid. destruct (Hc f Hfin) as [Hu Hd]. rewrite Hfid in *.
      rewrite !count_votes_cnt in *. rewrite !cnt_update by assumption.
      cbn [FeedbackVotes.set_voteType FeedbackVotes.feedbackId FeedbackVotes.voteType].
      rewrite Hevfid, Z.eqb_refl. cbn [andb].
      destruct vt, (FeedbackVotes.voteType ev); cbn [VoteType_eqb] in *;
        try discriminate; lia.
Qed.

Lemma ledger_after_delete fid em ip now d f ev :
  ledger_ok d -> select_feedback fid d = Some f ->
  find (vote_conditions fid em ip) (votes d) = Some ev ->
  ledger_ok
    (update_feedback_counts fid
       (if VoteType_eqb (FeedbackVotes.voteType ev) up
        then Some (Feedback.upvotes f - 1) else None)
       (if VoteType_eqb (FeedbackVotes.voteType ev) up
        then None else Some (Feedback.downvotes f - 1))
       now (delete_vote (FeedbackVotes.id ev) d)).
Proof.
  intros [Hnd Hc] Hf Hev. apply select_feedback_some in Hf. destruct Hf as [Hfin Hfid].
  apply existing_vote_some in Hev. destruct Hev as [Hevin Hevfid].
  split.
  - cbn [update_feedback_counts delete_vote votes with_votes with_feedback].
    clear - Hnd. induction (votes d) as [|v vs IH]; simpl; [constructor|].
    inversion Hnd; subst. destruct (negb _); simpl; auto.
    constructor; auto. intros Hin. apply in_map_iff in Hin.
    destruct Hin as [x [Hx Hin]]. apply filter_In in Hin. destruct Hin as [Hin _].
    apply H1. rewrite <- Hx. now apply in_map.
  - apply counters_after_update; cbn [delete_vote feedback votes with_votes].
    + intros g Hg Hgne. destruct (Hc g Hg) as [Hu Hd].
      rewrite !count_votes_cnt in *. rewrite !cnt_delete by assumption.
      assert (E : (FeedbackVotes.feedbackId ev =? Feedback.id g) = false)
        by (apply Z.eqb_neq; congruence).
      rewrite E. cbn [andb]. lia.
    + intros g Hg Hid. destruct (Hc f Hfin) as [Hu Hd]. destruct (Hc g Hg) as [Hu' Hd'].
      rewrite Hfid, Hid in *.
      rewrite !count_votes_cnt in *. rewrite !cnt_delete by assumption.
      rewrite Hevfid, Z.eqb_refl. cbn [andb].
      destruct (FeedbackVotes.voteType ev); cbn [VoteType_eqb] in *; lia.
Qed.

Ltac run_step H :=
  cbv beta iota zeta delta
    [vote_POST vote_DELETE try_catch bind query exec stmt ret verifyApiKey
     counts_response request_json throw] in H.

Ltac run_done H := run_step H; inversion H; subst; assumption.

Lemma vote_POST_preserves ze req now d o d' fs' :
  ledger_ok d -> vote_POST ze req now d [] = (o, d', fs') -> ledger_ok d'.
Proof.
  intros Hok H. run_step H.
  destruct (parseInt (params_id req) None) as [fid|]; [|run_done H].
  destruct (fid =? 0); [run_done H|].
  destruct (vr_json req) as [b|]; [|run_done H].
  run_step H.
  destruct (voteSchema ze b) as [vd|]; [|run_done H].
  destruct (truthy (x_api_key (vr_headers req))) as [key|]; [|run_done H].
  run_step H.
  destruct (select_feedback fid d) as [f|] eqn:Ef; [|run_done H].
  run_step H.
  destruct (find _ (websites d)) as [w|]; [|run_done H].
  destruct (negb (Websites.isActive w)); [run_done H|].
  run_step H.
  destruct (find _ (votes d)) as [ev|] eqn:Eev.
  - destruct (VoteType_eqb (FeedbackVotes.voteType ev) (vd_voteType vd)) eqn:Et;
      cbn [negb] in H; run_step H.
    + inversion H; subst; assumption.
    + inversion H; subst. eapply ledger_after_flip; eauto.
  - run_step H.
    destruct (insert_vote _ _ _ _ _ d) as [[[]|] d1] eqn:Ei; run_step H.
    + pose proof (ledger_after_insert _ _ _ _ _ _ _ _ Hok Ef Ei) as Hl.
      destruct (VoteType_eqb (vd_voteType vd) up); run_step H;
        inversion H; subst; exact Hl.
    + unfold insert_vote in Ei. destruct (_ || _); inversion Ei; subst.
      inversion H; subst. assumption.
Qed.

Lemma vote_DELETE_preserves req now d o d' fs' :
  ledger_ok d -> vote_DELETE req now d [] = (o, d', fs') -> ledger_ok d'.
Proof.
  intros Hok H. run_step H.
  destruct (parseInt (params_id req) None) as [fid|]; [|run_done H].
  destruct (fid =? 0); [run_done H|].
  destruct (truthy (x_api_key (vr_headers req))) as [key|]; [|run_done H].
  run_step H.
  destruct (select_feedback fid d) as [f|] eqn:Ef; [|run_done H].
  run_step H.
  destruct (find _ (websites d)) as [w|]; [|run_done H].
  destruct (negb (Websites.isActive w)); [run_done H|].
  run_step H.
  destruct (find _ (votes d)) as [ev|] eqn:Eev; [|run_done H].
  run_step H.
  pose proof (ledger_after_delete _ _ _ now _ _ _ Hok Ef Eev) as Hl.
  destruct (VoteType_eqb (FeedbackVotes.voteType ev) up); run_step H;
    inversion H; subst; exact Hl.
Qed.

(** ** C1: the counters agree with the ledger *)

Lemma vote_POST_completed ze req now d fs r d' fs' :
  vote_POST ze req now d fs = (Ok r, d', fs') ->
  r = error_response 500 "Internal server error"
  \/ vote_POST ze req now d [] = (Ok r, d', []).
Proof.
  unfold vote_POST. apply try_catch_completed.
  regular_tac; first [ apply regular_verifyApiKey | apply regular_counts_response
                     | apply regular_request_json ].
Qed.

Lemma vote_DELETE_completed req now d fs r d' fs' :
  vote_DELETE req now d fs = (Ok r, d', fs') ->
  r = error_response 500 "Internal server error"
  \/ vote_DELETE req now d [] = (Ok r, d', []).
Proof.
  unfold vote_DELETE. apply try_catch_completed.
  regular_tac; first [ apply regular_verifyApiKey | apply regular_counts_response
                     | apply regular_request_json ].
Qed.

Lemma vote_op_preserves ze op d fs r d' fs' :
  ledger_ok d -> vote_op ze op d fs = (Ok r, d', fs') ->
  (status r =? 500) = false -> ledger_ok d'.
Proof.
  intros Hok H Hs. destruct op as [req now|req now]; cbn [vote_op] in H.
  - destruct (vote_POST_completed _ _ _ _ _ _ _ _ H) as [->|H'];
      [discriminate | eapply vote_POST_preserves; eauto].
  - destruct (vote_DELETE_completed _ _ _ _ _ _ _ H) as [->|H'];
      [discriminate | eapply vote_DELETE_preserves; eauto].
Qed.

(** C1.  From a database whose counters agree with the vote ledger, after
    any sequence of cast and remove operations that completed (none answered
    500), whatever the storage faults around them, every item's [upvotes]
    is the number of its 'up' votes, its [downvotes] the number of its
    'down' votes, and both are non-negative. *)
Theorem counter_ledger_consistency (zod_email : string -> bool)
    (ops : list (VoteOp * Faults)) (d d' : DB) :
  ledger_ok d ->
  vote_ops zod_email ops d = Some d' ->
  forall f, In f (feedback d') ->
    Feedback.upvotes f = count_votes (Feedback.id f) up (votes d')
    /\ Feedback.downvotes f = count_votes (Feedback.id f) down (votes d')
    /\ 0 <= Feedback.upvotes f /\ 0 <= Feedback.downvotes f.
Proof.
  intros Hok Hrun.
  assert (Hok' : ledger_ok d').
  { revert d Hok Hrun. induction ops as [|[op fs] ops IH]; intros d Hok Hrun.
    - simpl in Hrun. congruence.
    - cbn [vote_ops] in Hrun.
      destruct (vote_op zod_email op d fs) as [[[r|] d1] fs1] eqn:E; [|discriminate].
      destruct (status r =? 500) eqn:Es; [discriminate|].
      eapply IH; [|eassumption]. eapply vote_op_preserves; eauto. }
  intros f Hf. destruct Hok' as [_ Hc]. destruct (Hc f Hf) as [Hu Hd].
  repeat split; auto; rewrite ?Hu, ?Hd, count_votes_cnt; apply cnt_nonneg.
Qed.

(** Two voters cast, one flips, one withdraws; the second cast runs under a
    schedule whose faults come after its last statement. *)
Definition sample_vote_from (ip : string) (vt : string) : VoteRequest :=
  {| params_id := "1";
     vr_headers := {| x_api_key := Some "key-1"; x_forwarded_for := Some ip;
                      x_real_ip := None; user_agent := None;
                      x_voter_email := None |};
     vr_json := Some {| js_voteType := vt; js_voterEmail := None |} |}.

Definition sample_vote_ops : list (VoteOp * Faults) :=
  [ (castVote (sample_vote_from "198.51.100.1" "up") 200, []);
    (castVote (sample_vote_from "198.51.100.2" "up") 210,
       [false; false; false; false; false; false; true]);
    (castVote (sample_vote_from "198.51.100.1" "down") 220, []);
    (removeVote (sample_vote_from "198.51.100.2" "up") 230, []) ].

Definition sample_ledger : DB := sample_db None [sample_feedback 1 medium 0 100].

Lemma sample_ledger_ok : ledger_ok sample_ledger.
Proof.
  split; [constructor|]. intros f [<-|[]]. split; reflexivity.
Qed.

Lemma counter_ledger_consistency_witness :
  ledger_ok sample_ledger
  /\ exists d', vote_ops sample_email sample_vote_ops sample_ledger = Some d'
       /\ Forall (fun f => Feedback.upvotes f = 0 /\ Feedback.downvotes f = 1)
            (feedback d').
Proof.
  split; [exact sample_ledger_ok|].
  eexists. split; [vm_compute; reflexivity|].
  constructor; [|constructor].
  match goal with
  | |- Feedback.upvotes ?f = _ /\ _ =>
      destruct (counter_ledger_consistency sample_email sample_vote_ops
                  sample_ledger _ sample_ledger_ok eq_refl f (or_introl eq_refl))
        as [Hu [Hd _]]
  end.
  split; [exact Hu | exact Hd].
Defined.

(** ** The path of a cast through the handler *)

(** The guards of [POST] in order, up to the lookup of an existing vote:
    the item id, the validated body and the item a request is admitted
    with, if it passes them all. *)
Definition cast_admitted (zod_email : string -> bool) (req : VoteRequest)
    (d : DB) : option (Z * Vote * Feedback.row) :=
  match parseInt (params_id req) None with
  | None => None
  | Some fid =>
      if fid =? 0 then None else
      match vr_json req with
      | None => None
      | Some b =>
          match voteSchema zod_email b with
          | None => None
          | Some vd =>
              match truthy (x_api_key (vr_headers req)) with
              | None => None
              | Some key =>
                  match select_feedback fid d with
                  | None => None
                  | Some f =>
                      match find (fun w => (Websites.id w =? Feedback.websiteId f)
                                           && (Websites.apiKey w =? key)%string)
                                 (websites d) with
                      | None => None
                      | Some w =>
                          if negb (Websites.isActive w) then None
                          else Some (fid, vd, f)
                      end
                  end
              end
          end
      end
  end.

(** What [POST] does once a request is admitted: the lookup, the two
    writes and the read-back. *)
Definition cast_tail (fid : Z) (vd : Vote) (f : Feedback.row) (ip : string)
    (now : Z) : M Response :=
  existingVote <- query (fun d =>
      find (vote_conditions fid (vd_voterEmail vd) ip) (votes d)) ;;
  match existingVote with
  | Some existingVote =>
      if negb (VoteType_eqb (FeedbackVotes.voteType existingVote) (vd_voteType vd))
      then
        exec (update_vote_type (FeedbackVotes.id existingVote) (vd_voteType vd)) ;;;
        exec (update_feedback_counts fid
                (Some (Feedback.upvotes f
                       + (if VoteType_eqb (vd_voteType vd) up then 1 else -1)))
                (Some (Feedback.downvotes f
                       + (if VoteType_eqb (vd_voteType vd) down then 1 else -1)))
                now)
      else ret tt
  | None =>
      stmt (insert_vote fid (vd_voteType vd) (truthy (vd_voterEmail vd)) ip now) ;;;
      if VoteType_eqb (vd_voteType vd) up
      then exec (update_feedback_counts fid
                   (Some (Feedback.upvotes f + 1)) None now)
      else exec (update_feedback_counts fid
                   None (Some (Feedback.downvotes f + 1)) now)
  end ;;;
  counts_response fid.

Definition internal_error : Response :=
  error_response 500 "Internal server error".

(** An admitted cast whose first two reads do not fail is its tail; a
    fault at either read is answered 500. *)
Lemma vote_POST_admitted ze req now d fid vd f :
  cast_admitted ze req d = Some (fid, vd, f) ->
  (forall fs, vote_POST ze req now d (false :: false :: fs)
     = try_catch (cast_tail fid vd f (fst (getClientInfo (vr_headers req))) now)
         internal_error d fs)
  /\ vote_POST ze req now d []
     = try_catch (cast_tail fid vd f (fst (getClientInfo (vr_headers req))) now)
         internal_error d []
  /\ (forall fs, vote_POST ze req now d (true :: fs) = (Ok internal_error, d, fs))
  /\ (forall fs, vote_POST ze req now d (false :: true :: fs)
                 = (Ok internal_error, d, fs)).
Proof.
  intros H. unfold cast_admitted in H. unfold vote_POST, internal_error.
  destruct (parseInt (params_id req) None) as [fid'|]; [|discriminate].
  destruct (fid' =? 0); [discriminate|].
  destruct (vr_json req) as [b|]; [|discriminate].
  cbv beta iota zeta delta [request_json].
  destruct (voteSchema ze b) as [vd'|] eqn:Evd.
  2:{ discriminate. }
  destruct (truthy (x_api_key (vr_headers req))) as [key|]; [|discriminate].
  destruct (select_feedback fid' d) as [f'|] eqn:Ef; [|discriminate].
  destruct (find _ (websites d)) as [w|] eqn:Ew; [|discriminate].
  destruct (negb (Websites.isActive w)) eqn:Ea; [discriminate|].
  inversion H; subst fid' vd' f'; clear H.
  repeat split; try intros fs;
    cbv beta iota zeta delta
      [try_catch bind query stmt ret verifyApiKey cast_tail];
    rewrite ?Evd; cbv beta iota zeta; rewrite ?Ef; cbv beta iota zeta;
    rewrite ?Ew; cbv beta iota zeta; rewrite ?Ea; reflexivity.
Qed.

Lemma vote_POST_200_admitted ze req now d r d1 fs1 :
  vote_POST ze req now d [] = (Ok r, d1, fs1) -> status r = 200 ->
  exists fid vd f, cast_admitted ze req d = Some (fid, vd, f).
Proof.
  intros H Hs. unfold cast_admitted. run_step H.
  destruct (parseInt (params_id req) None) as [fid|];
    [|inversion H; subst; discriminate].
  destruct (fid =? 0); [inversion H; subst; discriminate|].
  destruct (vr_json req) as [b|]; run_step H; [|inversion H; subst; discriminate].
  destruct (voteSchema ze b) as [vd|]; [|inversion H; subst; discriminate].
  destruct (truthy (x_api_key (vr_headers req))) as [key|];
    [|inversion H; subst; discriminate].
  run_step H.
  destruct (select_feedback fid d) as [f|]; run_step H;
    [|inversion H; subst; discriminate].
  destruct (find _ (websites d)) as [w|]; [|inversion H; subst; discriminate].
  destruct (negb (Websites.isActive w)); [inversion H; subst; discriminate|].
  eauto.
Qed.

(** The answer of a vote route when it reads the counters back from [d]. *)
Definition counts_of (fid : Z) (d : DB) : Response :=
  {| status := 200;
     body := VoteData
               (num_or (option_map Feedback.upvotes (select_feedback fid d)) 0)
               (num_or (option_map Feedback.downvotes (select_feedback fid d)) 0) |}.

(** The database after a cast's two writes when the voter had the other
    vote on the item. *)
Definition flipped (fid : Z) (vd : Vote) (f : Feedback.row)
    (ev : FeedbackVotes.row) (now : Z) (d : DB) : DB :=
  update_feedback_counts fid
    (Some (Feedback.upvotes f + (if VoteType_eqb (vd_voteType vd) up then 1 else -1)))
    (Some (Feedback.downvotes f + (if VoteType_eqb (vd_voteType vd) down then 1 else -1)))
    now (update_vote_type (FeedbackVotes.id ev) (vd_voteType vd) d).

(** The counter write of a cast that inserted a vote. *)
Definition counted (fid : Z) (vd : Vote) (f : Feedback.row) (now : Z) (d : DB) : DB :=
  if VoteType_eqb (vd_voteType vd) up
  then update_feedback_counts fid (Some (Feedback.upvotes f + 1)) None now d
  else update_feedback_counts fid None (Some (Feedback.downvotes f + 1)) now d.

(** The fault-free run of the tail, path by path. *)
Lemma cast_tail_run fid vd f ip now d :
  try_catch (cast_tail fid vd f ip now) internal_error d []
  = match find (vote_conditions fid (vd_voterEmail vd) ip) (votes d) with
    | Some ev =>
        if VoteType_eqb (FeedbackVotes.voteType ev) (vd_voteType vd)
        then (Ok (counts_of fid d), d, [])
        else (Ok (counts_of fid (flipped fid vd f ev now d)),
              flipped fid vd f ev now d, [])
    | None =>
        match insert_vote fid (vd_voteType vd) (truthy (vd_voterEmail vd)) ip now d with
        | (Ok _, d0) =>
            (Ok (counts_of fid (counted fid vd f now d0)), counted fid vd f now d0, [])
        | (Thrown, d0) => (Ok internal_error, d0, [])
        end
    end.
Proof.
  cbv beta iota zeta delta
    [try_catch cast_tail bind query exec stmt ret counts_response].
  destruct (find _ (votes d)) as [ev|].
  - destruct (VoteType_eqb (FeedbackVotes.voteType ev) (vd_voteType vd));
      reflexivity.
  - destruct (insert_vote _ _ _ _ _ d) as [[[]|] d0]; [|reflexivity].
    unfold counted. destruct (VoteType_eqb (vd_voteType vd) up); reflexivity.
Qed.

(** ** C5: a repeated cast *)

Lemma find_map_pres {A} (p : A -> bool) (g : A -> A) l :
  (forall x, p (g x) = p x) -> find p (map g l) = option_map g (find p l).
Proof.
  intros Hp. induction l as [|x l IH]; simpl; auto.
  rewrite Hp. destruct (p x); auto.
Qed.

Lemma filter_map_pres {A} (p : A -> bool) (g : A -> A) l :
  (forall x, p (g x) = p x) -> filter p (map g l) = map g (filter p l).
Proof.
  intros Hp. induction l as [|x l IH]; simpl; auto.
  rewrite Hp. destruct (p x); simpl; congruence.
Qed.

Lemma find_none_filter {A} (p : A -> bool) l : find p l = None -> filter p l = [].
Proof.
  induction l as [|x l IH]; simpl; auto. destruct (p x); [discriminate|auto].
Qed.

Lemma find_app_none {A} (p : A -> bool) l x :
  find p l = None -> p x = true -> find p (l ++ [x]) = Some x.
Proof.
  induction l as [|y l IH]; simpl; intros Hn Hx.
  - now rewrite Hx.
  - destruct (p y); [discriminate|auto].
Qed.

(** Two rows that answer the same lookup collide on a unique index. *)
Lemma lookup_collides fid em ip v w :
  vote_conditions fid em ip v = true -> vote_conditions fid em ip w = true ->
  vote_collides v w = true.
Proof.
  unfold vote_conditions, vote_collides. intros Hv Hw.
  apply andb_prop in Hv, Hw. destruct Hv as [Hv1 Hv2], Hw as [Hw1 Hw2].
  apply Z.eqb_eq in Hv1, Hw1. rewrite Hv1, Hw1, Z.eqb_refl. cbn [andb].
  destruct (truthy em) as [e|].
  - unfold option_string_eqb in Hv2.
    destruct (FeedbackVotes.voterEmail v) as [e'|]; [|discriminate].
    apply String.eqb_eq in Hv2. subst e'. rewrite Hw2. apply orb_true_r.
  - apply String.eqb_eq in Hv2, Hw2. rewrite Hv2, Hw2, String.eqb_refl. reflexivity.
Qed.

(** Under the unique indexes a lookup matches at most one row. *)
Lemma lookup_at_most_one fid em ip vs :
  votes_unique vs = true ->
  (List.length (filter (vote_conditions fid em ip) vs) <= 1)%nat.
Proof.
  induction vs as [|v vs IH]; simpl; intros Hu; [lia|].
  apply andb_prop in Hu. destruct Hu as [Hv Hu]. specialize (IH Hu).
  destruct (vote_conditions fid em ip v) eqn:Ev; [|assumption].
  assert (Hnil : filter (vote_conditions fid em ip) vs = []).
  { destruct (filter (vote_conditions fid em ip) vs) as [|w l] eqn:Ef; auto.
    exfalso. assert (Hw : In w (filter (vote_conditions fid em ip) vs))
      by (rewrite Ef; now left).
    apply filter_In in Hw. destruct Hw as [Hin Hw].
    apply negb_true_iff in Hv.
    assert (existsb (vote_collides v) vs = true); [|congruence].
    apply existsb_exists. exists w. split; auto.
    eapply lookup_collides; eauto. }
  rewrite Hnil. simpl. lia.
Qed.

Lemma lookup_found_one fid em ip vs ev :
  votes_unique vs = true ->
  find (vote_conditions fid em ip) vs = Some ev ->
  List.length (filter (vote_conditions fid em ip) vs) = 1%nat.
Proof.
  intros Hu Hf. pose proof (lookup_at_most_one fid em ip vs Hu) as Hle.
  apply find_some in Hf. destruct Hf as [Hin Hp].
  assert (In ev (filter (vote_conditions fid em ip) vs))
    by (apply filter_In; auto).
  destruct (filter (vote_conditions fid em ip) vs); simpl in *; [tauto|lia].
Qed.

(** Writes that keep the websites and, on every item, its key and its
    website leave an admitted request admitted. *)
Lemma cast_admitted_after ze req d d1 fid vd f h :
  cast_admitted ze req d = Some (fid, vd, f) ->
  websites d1 = websites d ->
  feedback d1 = map h (feedback d) ->
  (forall g, Feedback.id (h g) = Feedback.id g
             /\ Feedback.websiteId (h g) = Feedback.websiteId g) ->
  cast_admitted ze req d1 = Some (fid, vd, h f).
Proof.
  intros H Hw Hfb Hh. unfold cast_admitted in *.
  destruct (parseInt (params_id req) None) as [fid'|]; [|discriminate].
  destruct (fid' =? 0); [discriminate|].
  destruct (vr_json req) as [b|]; [|discriminate].
  destruct (voteSchema ze b) as [vd'|]; [|discriminate].
  destruct (truthy (x_api_key (vr_headers req))) as [key|]; [|discriminate].
  unfold select_feedback in *. rewrite Hfb, Hw.
  rewrite find_map_pres by (intros x; now rewrite (proj1 (Hh x))).
  destruct (find _ (feedback d)) as [f'|]; [|discriminate].
  cbn [option_map]. rewrite (proj2 (Hh f')).
  destruct (find _ (websites d)) as [w|]; [|discriminate].
  destruct (negb (Websites.isActive w)); [discriminate|].
  inversion H; subst. reflexivity.
Qed.

Lemma update_feedback_counts_map fid u dn now d :
  feedback (update_feedback_counts fid u dn now d)
  = map (fun f =>
           if Feedback.id f =? fid
           then Feedback.set_counts
                  match u with Some x => x | None => Feedback.upvotes f end
                  match dn with Some x => x | None => Feedback.downvotes f end
                  now f
           else f) (feedback d).
Proof. reflexivity. Qed.

Lemma set_counts_keeps fid u dn now g :
  Feedback.id (if Feedback.id g =? fid
               then Feedback.set_counts
                      match u with Some x => x | None => Feedback.upvotes g end
                      match dn with Some x => x | None => Feedback.downvotes g end
                      now g
               else g) = Feedback.id g
  /\ Feedback.websiteId
       (if Feedback.id g =? fid
        then Feedback.set_counts
               match u with Some x => x | None => Feedback.upvotes g end
               match dn with Some x => x | None => Feedback.downvotes g end
               now g
        else g) = Feedback.websiteId g.
Proof. destruct (Feedback.id g =? fid); split; reflexivity. Qed.

Lemma vote_conditions_self fid vt em ip i now :
  vote_conditions fid em ip
    {| FeedbackVotes.id := i; FeedbackVotes.feedbackId := fid;
       FeedbackVotes.voterEmail := truthy em; FeedbackVotes.voterIp := ip;
       FeedbackVotes.voteType := vt; FeedbackVotes.createdAt := now |} = true.
Proof.
  unfold vote_conditions. cbn [FeedbackVotes.feedbackId FeedbackVotes.voterEmail
                                FeedbackVotes.voterIp].
  rewrite Z.eqb_refl. cbn [andb].
  destruct (truthy em) as [e|]; cbn [option_string_eqb]; apply String.eqb_refl.
Qed.

(** C5.  When a cast is admitted and answers 200, the same cast again is a
    no-op: it answers the same counters and leaves the database as the
    first cast left it, in which exactly one vote row answers the lookup of
    that voter on that item. *)
Theorem vote_idempotence (zod_email : string -> bool) (req : VoteRequest)
    (now1 now2 : Z) (d d1 : DB) (fid : Z) (vd : Vote) (f : Feedback.row)
    (r1 : Response) :
  cast_admitted zod_email req d = Some (fid, vd, f) ->
  votes_unique (votes d) = true ->
  run (vote_POST zod_email req now1) d = (Ok r1, d1) ->
  status r1 = 200 ->
  run (vote_POST zod_email req now2) d1 = (Ok r1, d1)
  /\ List.length
       (filter (vote_conditions fid (vd_voterEmail vd)
                  (fst (getClientInfo (vr_headers req)))) (votes d1)) = 1%nat.
Proof.
  intros Hadm Hu Hrun Hs. unfold run in *.
  destruct (vote_POST_admitted _ _ now1 _ _ _ _ Hadm) as [_ [H1 _]].
  rewrite H1, cast_tail_run in Hrun. clear H1.
  set (ip := fst (getClientInfo (vr_headers req))) in *.
  destruct (find (vote_conditions fid (vd_voterEmail vd) ip) (votes d))
    as [ev|] eqn:Eev.
  - destruct (VoteType_eqb (FeedbackVotes.voteType ev) (vd_voteType vd)) eqn:Et.
    + (* the same vote was already there *)
      cbn [fst] in Hrun. inversion Hrun; subst r1 d1; clear Hrun.
      destruct (vote_POST_admitted _ _ now2 _ _ _ _ Hadm) as [_ [H2 _]].
      rewrite H2, cast_tail_run. fold ip. rewrite Eev, Et. cbn [fst].
      split; [reflexivity|]. eapply lookup_found_one; eauto.
    + (* the other vote was there: the first cast flipped it *)
      cbn [fst] in Hrun. inversion Hrun; subst r1 d1; clear Hrun.
      assert (Hadm' : exists f1, cast_admitted zod_email req (flipped fid vd f ev now1 d)
                                 = Some (fid, vd, f1)).
      { eexists. eapply cast_admitted_after;
          [ exact Hadm | reflexivity | reflexivity
          | intros g; apply set_counts_keeps ]. }
      destruct Hadm' as [f1 Hadm'].
      destruct (vote_POST_admitted _ _ now2 _ _ _ _ Hadm') as [_ [H2 _]].
      rewrite H2, cast_tail_run. fold ip.
      assert (Hvotes : votes (flipped fid vd f ev now1 d)
                       = map (fun v => if FeedbackVotes.id v =? FeedbackVotes.id ev
                                       then FeedbackVotes.set_voteType (vd_voteType vd) v
                                       else v) (votes d)) by reflexivity.
      assert (Hpres : forall x,
                 vote_conditions fid (vd_voterEmail vd) ip
                   (if FeedbackVotes.id x =? FeedbackVotes.id ev
                    then FeedbackVotes.set_voteType (vd_voteType vd) x else x)
                 = vote_conditions fid (vd_voterEmail vd) ip x)
        by (intros x; destruct (_ =? _); reflexivity).
      rewrite Hvotes, find_map_pres, Eev by exact Hpres.
      cbn [option_map]. rewrite Z.eqb_refl.
      cbn [FeedbackVotes.set_voteType FeedbackVotes.voteType].
      assert (Hrefl : VoteType_eqb (vd_voteType vd) (vd_voteType vd) = true)
        by (destruct (vd_voteType vd); reflexivity).
      rewrite Hrefl. cbn [fst]. split; [reflexivity|].
      rewrite filter_map_pres, length_map by exact Hpres.
      eapply lookup_found_one; eauto.
  - (* no vote was there: the first cast inserted one *)
    destruct (insert_vote fid (vd_voteType vd) (truthy (vd_voterEmail vd)) ip now1 d)
      as [[[]|] d0] eqn:Ei; cbn [fst] in Hrun; inversion Hrun; subst r1 d1; clear Hrun;
      [|discriminate].
    unfold insert_vote in Ei. destruct (_ || _); [discriminate|].
    inversion Ei; subst d0; clear Ei.
    match goal with
    | |- context [with_votes (votes d ++ [?v]) d] => set (v0 := v) in *
    end.
    assert (Hvotes : votes (counted fid vd f now1 (with_votes (votes d ++ [v0]) d))
                     = votes d ++ [v0])
      by (unfold counted; destruct (VoteType_eqb _ up); reflexivity).
    assert (Hadm' : exists f1, cast_admitted zod_email req
                        (counted fid vd f now1 (with_votes (votes d ++ [v0]) d))
                      = Some (fid, vd, f1)).
    { unfold counted. destruct (VoteType_eqb (vd_voteType vd) up);
        eexists; (eapply cast_admitted_after;
                  [ exact Hadm | reflexivity | reflexivity
                  | intros g; apply set_counts_keeps ]). }
    destruct Hadm' as [f1 Hadm'].
    destruct (vote_POST_admitted _ _ now2 _ _ _ _ Hadm') as [_ [H2 _]].
    rewrite H2, cast_tail_run. fold ip. rewrite Hvotes.
    rewrite (find_app_none _ _ v0 Eev (vote_conditions_self _ _ _ _ _ _)).
    subst v0. cbn [FeedbackVotes.voteType].
    assert (Hrefl : VoteType_eqb (vd_voteType vd) (vd_voteType vd) = true)
      by (destruct (vd_voteType vd); reflexivity).
    rewrite Hrefl. cbn [fst]. split; [reflexivity|].
    rewrite filter_app, (find_none_filter _ _ Eev). cbn [filter app].
    rewrite vote_conditions_self. reflexivity.
Qed.

Definition sample_cast : VoteRequest := sample_vote "up" (Some "ann@example.org").

Lemma vote_idempotence_witness :
  exists r1 d1,
    run (vote_POST sample_email sample_cast 200) sample_ledger = (Ok r1, d1)
    /\ body r1 = VoteData 1 0
    /\ run (vote_POST sample_email sample_cast 300) d1 = (Ok r1, d1)
    /\ List.length
         (filter (vote_conditions 1 (Some "ann@example.org") "203.0.113.7")
            (votes d1)) = 1%nat.
Proof.
  eexists. eexists. split; [vm_compute; reflexivity|]. split; [reflexivity|].
  apply (vote_idempotence sample_email sample_cast 200 300 sample_ledger _ 1
           {| vd_voteType := up; vd_voterEmail := Some "ann@example.org" |}
           (sample_feedback 1 medium 0 100));
    reflexivity.
Defined.

(** ** C2: the two writes of a cast *)

(** The tail under a fault at its first, second or third statement. *)
Lemma cast_tail_faults fid vd f ip now d fs :
  try_catch (cast_tail fid vd f ip now) internal_error d (true :: fs)
    = (Ok internal_error, d, fs)
  /\ try_catch (cast_tail fid vd f ip now) internal_error d (false :: true :: fs)
    = (Ok internal_error, d, fs)
  /\ try_catch (cast_tail fid vd f ip now) internal_error d
       (false :: false :: true :: fs)
     = match find (vote_conditions fid (vd_voterEmail vd) ip) (votes d) with
       | Some ev =>
           if VoteType_eqb (FeedbackVotes.voteType ev) (vd_voteType vd)
           then (Ok (counts_of fid d), d, true :: fs)
           else (Ok internal_error,
                 update_vote_type (FeedbackVotes.id ev) (vd_voteType vd) d, fs)
       | None =>
           match insert_vote fid (vd_voteType vd) (truthy (vd_voterEmail vd))
                   ip now d with
           | (Ok _, d0) => (Ok internal_error, d0, fs)
           | (Thrown, d0) => (Ok internal_error, d0, true :: fs)
           end
       end.
Proof.
  repeat split;
    cbv beta iota zeta delta
      [try_catch cast_tail bind query exec stmt ret counts_response];
    try reflexivity.
  - destruct (find _ (votes d)) as [ev|]; [|reflexivity].
    destruct (VoteType_eqb (FeedbackVotes.voteType ev) (vd_voteType vd));
      reflexivity.
  - destruct (find _ (votes d)) as [ev|].
    + destruct (VoteType_eqb (FeedbackVotes.voteType ev) (vd_voteType vd));
        reflexivity.
    + destruct (insert_vote _ _ _ _ _ d) as [[[]|] d0]; [|reflexivity].
      destruct (VoteType_eqb (vd_voteType vd) up); reflexivity.
Qed.

(** C2, as the code has it.  A cast writes the vote row and the counters in
    two separate statements with no transaction around them.  For an
    admitted cast that changes the ledger: when the counter write fails
    after the vote-row write, the answer is 500 and the database keeps the
    inserted or flipped vote row with every counter as it was; a failure at
    one of the four statements up to the vote-row write is answered 500 and
    leaves the database as it was. *)
Theorem cast_writes_not_atomic (zod_email : string -> bool) (req : VoteRequest)
    (now : Z) (d d1 : DB) (fid : Z) (vd : Vote) (f : Feedback.row)
    (r1 : Response) (fs : Faults) :
  cast_admitted zod_email req d = Some (fid, vd, f) ->
  run (vote_POST zod_email req now) d = (Ok r1, d1) ->
  votes d1 <> votes d ->
  (exists d',
      vote_POST zod_email req now d
        (false :: false :: false :: false :: true :: fs)
      = (Ok internal_error, d', fs)
      /\ votes d' = votes d1 /\ feedback d' = feedback d)
  /\ (forall n, (n <= 3)%nat ->
        vote_POST zod_email req now d (repeat false n ++ true :: fs)
        = (Ok internal_error, d, fs)).
Proof.
  intros Hadm Hrun Hch. unfold run in Hrun.
  destruct (vote_POST_admitted _ _ now _ _ _ _ Hadm) as [Hff [H0 [Ht Hft]]].
  rewrite H0, cast_tail_run in Hrun.
  set (ip := fst (getClientInfo (vr_headers req))) in *.
  destruct (cast_tail_faults fid vd f ip now d fs) as [Ht1 [Ht2 Ht3]].
  split.
  - rewrite Hff, Ht3.
    destruct (find (vote_conditions fid (vd_voterEmail vd) ip) (votes d)) as [ev|].
    + destruct (VoteType_eqb (FeedbackVotes.voteType ev) (vd_voteType vd)).
      * cbn [fst] in Hrun. inversion Hrun; subst. congruence.
      * cbn [fst] in Hrun. inversion Hrun; subst. eexists. split; [reflexivity|].
        split; reflexivity.
    + destruct (insert_vote fid (vd_voteType vd) (truthy (vd_voterEmail vd)) ip now d)
        as [[[]|] d0] eqn:Ei; cbn [fst] in Hrun; inversion Hrun; subst.
      * eexists. split; [reflexivity|]. unfold insert_vote in Ei.
        destruct (_ || _); [discriminate|]. inversion Ei; subst.
        unfold counted. destruct (VoteType_eqb (vd_voteType vd) up);
          split; reflexivity.
      * unfold insert_vote in Ei. destruct (_ || _); inversion Ei; subst.
        congruence.
  - intros n Hn.
    destruct n as [|[|[|[|n]]]]; cbn [repeat app]; try lia.
    + apply Ht.
    + apply Hft.
    + rewrite Hff. apply Ht1.
    + rewrite Hff. apply Ht2.
Qed.

Lemma cast_writes_not_atomic_witness :
  exists d',
    vote_POST sample_email sample_cast 200 sample_ledger
      [false; false; false; false; true]
    = (Ok internal_error, d', [])
    /\ votes d' = votes (snd (run (vote_POST sample_email sample_cast 200) sample_ledger))
    /\ feedback d' = feedback sample_ledger.
Proof.
  refine (proj1 (cast_writes_not_atomic sample_email sample_cast 200 sample_ledger
           (snd (run (vote_POST sample_email sample_cast 200) sample_ledger)) 1
           {| vd_voteType := up; vd_voterEmail := Some "ann@example.org" |}
           (sample_feedback 1 medium 0 100)
           {| status := 200; body := VoteData 1 0 |} [] eq_refl eq_refl _)).
  vm_compute. discriminate.
Defined.

(** C2, as the spec has it, fails: the counter write of a cast fails after
    its vote row is stored; the answer is 500, the row stays, the counter
    stays at 0 and no longer agrees with the ledger. *)
Lemma cast_not_atomic :
  exists r d',
    vote_POST sample_email sample_cast 200 sample_ledger
      [false; false; false; false; true] = (Ok r, d', [])
    /\ status r = 500
    /\ map FeedbackVotes.voteType (votes d') = [up]
    /\ map Feedback.upvotes (feedback d') = [0]
    /\ map (fun f => count_votes (Feedback.id f) up (votes d')) (feedback d') = [1].
Proof.
  eexists. eexists. split; [vm_compute; reflexivity|].
  repeat split.
Qed.

(** ** C3: the identity a vote row records *)

(** C3, as the code has it.  The row an admitted cast inserts always
    records the caller's address in [voterIp] and, besides, the email in
    [voterEmail] when the body gives a non-empty one; it is inserted only
    when the lookup found nothing, and the lookup is by one key: the email
    when one is given, otherwise the address. *)
Theorem vote_row_identity (zod_email : string -> bool) (req : VoteRequest)
    (now : Z) (d d1 : DB) (fid : Z) (vd : Vote) (f : Feedback.row)
    (r1 : Response) (v : FeedbackVotes.row) :
  cast_admitted zod_email req d = Some (fid, vd, f) ->
  run (vote_POST zod_email req now) d = (Ok r1, d1) ->
  votes d1 = votes d ++ [v] ->
  FeedbackVotes.feedbackId v = fid
  /\ FeedbackVotes.voteType v = vd_voteType vd
  /\ FeedbackVotes.voterIp v = fst (getClientInfo (vr_headers req))
  /\ FeedbackVotes.voterEmail v = truthy (vd_voterEmail vd)
  /\ forall w, In w (votes d) -> FeedbackVotes.feedbackId w = fid ->
       match truthy (vd_voterEmail vd) with
       | Some e => FeedbackVotes.voterEmail w <> Some e
       | None => FeedbackVotes.voterIp w <> fst (getClientInfo (vr_headers req))
       end.
Proof.
  intros Hadm Hrun Hv. unfold run in Hrun.
  destruct (vote_POST_admitted _ _ now _ _ _ _ Hadm) as [_ [H0 _]].
  rewrite H0, cast_tail_run in Hrun.
  set (ip := fst (getClientInfo (vr_headers req))) in *.
  destruct (find (vote_conditions fid (vd_voterEmail vd) ip) (votes d))
    as [ev|] eqn:Eev.
  - exfalso.
    destruct (VoteType_eqb (FeedbackVotes.voteType ev) (vd_voteType vd));
      cbn [fst] in Hrun; inversion Hrun; subst;
      apply (f_equal (@List.length _)) in Hv;
      cbn [flipped update_feedback_counts update_vote_type votes with_votes
           with_feedback] in Hv;
      rewrite ?length_map, length_app in Hv; simpl in Hv; lia.
  - destruct (insert_vote fid (vd_voteType vd) (truthy (vd_voterEmail vd)) ip now d)
      as [[[]|] d0] eqn:Ei; cbn [fst] in Hrun; inversion Hrun; subst; clear Hrun.
    + unfold insert_vote in Ei. destruct (_ || _); [discriminate|].
      inversion Ei; subst d0; clear Ei.
      assert (Hvotes : forall x, votes (counted fid vd f now (with_votes x d)) = x)
        by (intros x; unfold counted; destruct (VoteType_eqb _ up); reflexivity).
      rewrite Hvotes in Hv. apply app_inv_head in Hv. inversion Hv; subst v.
      cbn [FeedbackVotes.feedbackId FeedbackVotes.voteType FeedbackVotes.voterIp
           FeedbackVotes.voterEmail].
      repeat split.
      intros w Hw Hfid.
      pose proof (find_none _ _ Eev w Hw) as Hn. unfold vote_conditions in Hn.
      rewrite Hfid, Z.eqb_refl in Hn. cbn [andb] in Hn.
      destruct (truthy (vd_voterEmail vd)) as [e|].
      * intros He. rewrite He in Hn. cbn [option_string_eqb] in Hn.
        rewrite String.eqb_refl in Hn. discriminate.
      * intros He. rewrite He, String.eqb_refl in Hn. discriminate.
    + exfalso. unfold insert_vote in Ei. destruct (_ || _); inversion Ei; subst.
      apply (f_equal (@List.length _)) in Hv. rewrite length_app in Hv.
      simpl in Hv. lia.
Qed.

Lemma vote_row_identity_witness :
  FeedbackVotes.feedbackId
    {| FeedbackVotes.id := 1; FeedbackVotes.feedbackId := 1;
       FeedbackVotes.voterEmail := Some "ann@example.org";
       FeedbackVotes.voterIp := "203.0.113.7"; FeedbackVotes.voteType := up;
       FeedbackVotes.createdAt := 200 |} = 1
  /\ up = up
  /\ "203.0.113.7" = fst (getClientInfo (vr_headers sample_cast))
  /\ Some "ann@example.org" = truthy (Some "ann@example.org")
  /\ forall w, In w (votes sample_ledger) -> FeedbackVotes.feedbackId w = 1 ->
       FeedbackVotes.voterEmail w <> Some "ann@example.org".
Proof.
  exact (vote_row_identity sample_email sample_cast 200 sample_ledger
           (snd (run (vote_POST sample_email sample_cast 200) sample_ledger)) 1
           {| vd_voteType := up; vd_voterEmail := Some "ann@example.org" |}
           (sample_feedback 1 medium 0 100)
           {| status := 200; body := VoteData 1 0 |}
           {| FeedbackVotes.id := 1; FeedbackVotes.feedbackId := 1;
              FeedbackVotes.voterEmail := Some "ann@example.org";
              FeedbackVotes.voterIp := "203.0.113.7"; FeedbackVotes.voteType := up;
              FeedbackVotes.createdAt := 200 |}
           eq_refl eq_refl eq_refl).
Defined.

(** C3, as the spec has it, fails: the row stored for a cast that gives an
    email holds the email and the caller's address, both. *)
Lemma vote_row_holds_both_identities :
  exists r d',
    run (vote_POST sample_email sample_cast 200) sample_ledger = (Ok r, d')
    /\ status r = 200
    /\ map (fun v => (FeedbackVotes.voterEmail v, FeedbackVotes.voterIp v))
         (votes d')
       = [(Some "ann@example.org", "203.0.113.7")].
Proof.
  eexists. eexists. split; [vm_compute; reflexivity|].
  split; reflexivity.
Qed.

(** ** The path of a submission through the handler *)

(** The guards of [POST] /api/feedback in order: the validated body and the
    website a request is admitted with, if it passes them all. *)
Definition submission_admitted (zod_email zod_url : string -> bool)
    (req : SubmitRequest) (d : DB) : option (FeedbackSubmission * Websites.row) :=
  match sr_json req with
  | None => None
  | Some b =>
      match feedbackSubmissionSchema zod_email zod_url b with
      | None => None
      | Some data =>
          match truthy (x_api_key (sr_headers req)) with
          | None => None
          | Some key =>
              match find (fun w => (Websites.id w =? fs_websiteId data)
                                   && (Websites.apiKey w =? key)%string)
                         (websites d) with
              | None => None
              | Some w =>
                  if negb (Websites.isActive w) then None else Some (data, w)
              end
          end
      end
  end.

(** [settings?.rateLimit] of a website. *)
Definition rate_limit_of (w : Websites.row) : option RateLimit :=
  match Websites.settings w with
  | Some s => rateLimit s
  | None => None
  end.

(** The number of rows the rate-limit query counts for a submission at
    [now]. *)
Definition recent_count (sql_date_gt : Z -> Z -> bool)
    (data : FeedbackSubmission) (ip : string)
    (rl : RateLimit) (now : Z) (d : DB) : Z :=
  Z.of_nat (List.length (filter
    (recent_submission sql_date_gt (fs_websiteId data) ip
       (now - windowMinutes rl * 60 * 1000))
    (feedback d))).

(** The references of the row a submission inserts hold: its category, when
    it names one, exists. *)
Definition category_ok (data : FeedbackSubmission) (d : DB) : bool :=
  match fs_categoryId data with
  | Some c => (c =? 0) || existsb (fun k => FeedbackCategories.id k =? c) (categories d)
  | None => true
  end.

(** A submission was accepted: the answer is 201 with the key, the status
    and the creation time of one new row, stored last, from this caller. *)
Definition accepted (data : FeedbackSubmission) (ip : string) (now : Z)
    (d d' : DB) (r : Response) : Prop :=
  exists row,
    r = {| status := 201; body := SubmitData (Feedback.id row) new now |}
    /\ feedback d' = feedback d ++ [row]
    /\ Feedback.websiteId row = fs_websiteId data
    /\ Feedback.ipAddress row = Some ip
    /\ Feedback.createdAt row = now
    /\ Feedback.title row = fs_title data.

(** The schedule whose only fault is at the analytics insert. *)
Definition analytics_fault (w : Websites.row) : Faults :=
  match rate_limit_of w with
  | Some _ => [false; false; false; true]
  | None => [false; false; true]
  end.

Definition rate_limited : Response :=
  error_response 429 "Rate limit exceeded. Please try again later.".

Ltac post_step :=
  cbv beta iota zeta delta
    [feedback_POST try_catch bind query exec stmt ret verifyApiKey
     request_json throw].

(** The runs of an admitted submission: without faults, and with the one
    fault at the analytics insert. *)
Lemma feedback_POST_admitted ze zu gt req now d data w :
  submission_admitted ze zu req d = Some (data, w) ->
  let ip := fst (getClientInfo (sr_headers req)) in
  let limited :=
    match rate_limit_of w with
    | Some rl => maxSubmissions rl <=? recent_count gt data ip rl now d
    | None => false
    end in
  (limited = true ->
     feedback_POST ze zu gt req now d [] = (Ok rate_limited, d, []))
  /\ (limited = false -> category_ok data d = true ->
      exists d1 d2 r,
        feedback_POST ze zu gt req now d [] = (Ok r, d2, [])
        /\ feedback_POST ze zu gt req now d (analytics_fault w)
           = (Ok internal_error, d1, [])
        /\ accepted data ip now d d1 r
        /\ feedback d2 = feedback d1
        /\ events d1 = events d)
  /\ (limited = false -> category_ok data d = false ->
      feedback_POST ze zu gt req now d [] = (Ok internal_error, d, [])).
Proof.
  intros H ip limited. unfold submission_admitted in H. subst limited.
  unfold analytics_fault, rate_limit_of, recent_count, rate_limited, category_ok.
  post_step.
  destruct (sr_json req) as [b|]; [|discriminate].
  destruct (feedbackSubmissionSchema ze zu b) as [data'|] eqn:Es; [|discriminate].
  destruct (truthy (x_api_key (sr_headers req))) as [key|]; [|discriminate].
  destruct (find _ (websites d)) as [w'|] eqn:Ew; [|discriminate].
  destruct (negb (Websites.isActive w')) eqn:Ea; [discriminate|].
  inversion H; subst data' w'; clear H.
  assert (Hsite : existsb (fun x => Websites.id x =? fs_websiteId data) (websites d)
                  = true).
  { apply find_some in Ew. destruct Ew as [Hin Hw]. apply andb_prop in Hw.
    apply existsb_exists. exists w. tauto. }
  destruct (Websites.settings w) as [st|] eqn:Est;
    [destruct (rateLimit st) as [rl|] eqn:Erl|];
    (split; [try discriminate|split]); intros Hl; try intros Hcat; post_step;
    rewrite ?Ew; post_step; rewrite ?Ea; post_step;
    rewrite ?Est; post_step; rewrite ?Erl; post_step;
    try (fold ip; rewrite Hl; reflexivity);
    try (fold ip; rewrite Hl);
    unfold insert_feedback, feedback_references_ok, insert_event;
    cbn [Feedback.websiteId Feedback.categoryId feedback websites with_feedback
         categories];
    rewrite Hsite; cbn [andb];
    (destruct (fs_categoryId data) as [c|];
     [destruct (c =? 0) eqn:Ec; cbn [orb] in Hcat; [|rewrite Hcat]|]);
    cbv beta iota zeta; cbn [websites with_feedback]; rewrite ?Hsite;
    cbv beta iota zeta;
    try discriminate; try reflexivity;
    (do 3 eexists; split; [reflexivity|]; split; [reflexivity|];
     split; [eexists; repeat split|split; reflexivity]).
Qed.

(** ** C6: the rate limit *)







(** Three submissions stored 10, 20 and 30 minutes before [t = 6000000]. *)
Definition sample_limit : RateLimit := {| maxSubmissions := 3; windowMinutes := 60 |}.

Definition sample_limited_db : DB :=
  sample_db (Some sample_limit)
    [sample_feedback 1 medium 0 4200000; sample_feedback 2 medium 0 4800000;
     sample_feedback 3 medium 0 5400000].

Definition sample_submission_data : FeedbackSubmission :=
  {| fs_websiteId := 1; fs_categoryId := None; fs_type := bug;
     fs_title := "Broken link"; fs_description := "The link is dead";
     fs_email := None; fs_name := None; fs_url := None; fs_metadata := None |}.


(** ** C4: the analytics insert of a submission *)

(** C4 fails on the code.  For every submission that is accepted with 201
    when the storage does not fail: when only the analytics insert fails,
    the answer is 500, although the feedback row is stored as in the
    accepted run and no event is stored. *)
Theorem analytics_failure_fails_submission (zod_email zod_url : string -> bool)
    (sql_date_gt : Z -> Z -> bool)
    (req : SubmitRequest) (now : Z) (d d1 : DB) (data : FeedbackSubmission)
    (w : Websites.row) (r1 : Response) :
  submission_admitted zod_email zod_url req d = Some (data, w) ->
  run (feedback_POST zod_email zod_url sql_date_gt req now) d = (Ok r1, d1) ->
  status r1 = 201 ->
  exists d',
    feedback_POST zod_email zod_url sql_date_gt req now d (analytics_fault w)
      = (Ok internal_error, d', [])
    /\ feedback d' = feedback d1
    /\ List.length (feedback d') = S (List.length (feedback d))
    /\ events d' = events d.
Proof.
  intros Hadm Hrun Hs. unfold run in Hrun.
  destruct (feedback_POST_admitted _ _ sql_date_gt _ now _ _ _ Hadm) as [Hlim [Hacc Hrej]].
  cbv zeta in Hlim, Hacc, Hrej.
  destruct (match rate_limit_of w with
            | Some rl => _
            | None => false
            end) eqn:El.
  - rewrite (Hlim eq_refl) in Hrun. cbn [fst] in Hrun. inversion Hrun; subst.
    discriminate.
  - destruct (category_ok data d) eqn:Ec.
    + destruct (Hacc eq_refl eq_refl)
        as [da [db [r [Hr [Hf [[row [_ [Hrow _]]] [Hfb Hev]]]]]]].
      rewrite Hr in Hrun. cbn [fst] in Hrun. inversion Hrun; subst.
      exists da. repeat split; auto.
      rewrite Hrow, length_app. simpl. lia.
    + rewrite (Hrej eq_refl eq_refl) in Hrun. cbn [fst] in Hrun.
      inversion Hrun; subst. discriminate.
Qed.

Lemma analytics_failure_fails_submission_witness :
  exists d',
    feedback_POST sample_email sample_url chronological sample_submission 100
      (sample_db None []) [false; false; true]
      = (Ok internal_error, d', [])
    /\ feedback d'
       = feedback (snd (run (feedback_POST sample_email sample_url chronological
                               sample_submission 100) (sample_db None [])))
    /\ List.length (feedback d') = 1%nat
    /\ events d' = [].
Proof.
  exact (analytics_failure_fails_submission sample_email sample_url chronological
           sample_submission 100 (sample_db None [])
           (snd (run (feedback_POST sample_email sample_url chronological sample_submission 100)
                   (sample_db None [])))
           sample_submission_data (sample_site None)
           {| status := 201; body := SubmitData 1 new 100 |}
           eq_refl eq_refl eq_refl).
Defined.

(** ** The path of a listing through the handler *)

(** The object the listing hands to [feedbackQuerySchema]. *)
Definition query_input (sp : SearchParams) : QueryInput :=
  {| qi_status := truthy (sp_status sp);
     qi_type := truthy (sp_type sp);
     qi_category := truthy (sp_category sp);
     qi_limit := or_else (sp_limit sp) "10";
     qi_offset := or_else (sp_offset sp) "0";
     qi_sort := or_else (sp_sort sp) "newest";
     qi_public := truthy (sp_public sp) |}.

(** The guards of [GET] /api/feedback in order: the website id and the
    validated query a request is admitted with, if it passes them all. *)
Definition list_admitted (req : ListRequest) (d : DB) : option (Z * FeedbackQuery) :=
  match parseInt (or_else (sp_websiteId (searchParams req)) "0") (Some 10) with
  | None => None
  | Some wid =>
      if wid =? 0 then None else
      match truthy (x_api_key (lr_headers req)) with
      | None => None
      | Some key =>
          match find (fun w => (Websites.id w =? wid)
                               && (Websites.apiKey w =? key)%string)
                     (websites d) with
          | None => None
          | Some w =>
              if negb (Websites.isActive w) then None
              else match feedbackQuerySchema (query_input (searchParams req)) with
                   | None => None
                   | Some q => Some (wid, q)
                   end
          end
      end
  end.

(** The category a listing filters by: the one its slug resolves to. *)
Definition resolved_category (wid : Z) (q : FeedbackQuery) (d : DB)
  : option FeedbackCategories.row :=
  match truthy (fq_category q) with
  | Some slug => select_category wid slug d
  | None => None
  end.

(** The conditions of a listing once its category is resolved. *)
Definition resolved_conditions (wid : Z) (q : FeedbackQuery) (d : DB)
  : list (Feedback.row -> bool) :=
  match resolved_category wid q d with
  | Some c =>
      list_conditions wid q
      ++ [fun f => option_Z_eqb (Feedback.categoryId f) (FeedbackCategories.id c)]
  | None => list_conditions wid q
  end.

(** The rows a listing matches, in storage order. *)
Definition list_matches (wid : Z) (q : FeedbackQuery) (d : DB) : list Feedback.row :=
  filter (and_all (resolved_conditions wid q d)) (feedback d).

(** The answer of an admitted listing. *)
Definition list_response (wid : Z) (q : FeedbackQuery) (d : DB) : Response :=
  {| status := 200;
     body :=
       ListData
         (map (to_item d)
            (sql_limit (fq_limit q)
               (sql_offset (fq_offset q)
                  (order_by (list_orderBy (fq_sort q)) (list_matches wid q d)))))
         {| total := Z.of_nat (List.length (list_matches wid q d));
            page := Math_floor_div (fq_offset q) (fq_limit q) + 1;
            limit := fq_limit q;
            totalPages :=
              Math_ceil_div (Z.of_nat (List.length (list_matches wid q d)))
                (fq_limit q) |} |}.

Ltac get_step :=
  cbv beta iota zeta delta
    [feedback_GET try_catch bind query exec stmt ret verifyApiKey throw].

Lemma feedback_GET_admitted req d wid q :
  list_admitted req d = Some (wid, q) ->
  feedback_GET req d [] = (Ok (list_response wid q d), d, []).
Proof.
  intros H. unfold list_admitted, query_input in H.
  unfold list_response, list_matches, resolved_conditions, resolved_category.
  get_step.
  destruct (parseInt _ (Some 10)) as [wid'|]; [|discriminate].
  destruct (wid' =? 0); [discriminate|].
  destruct (truthy (x_api_key (lr_headers req))) as [key|]; [|discriminate].
  get_step.
  destruct (find _ (websites d)) as [w|]; [|discriminate].
  destruct (negb (Websites.isActive w)); [discriminate|].
  get_step.
  destruct (feedbackQuerySchema _) as [q'|]; [|discriminate].
  inversion H; subst wid' q'; clear H.
  destruct (truthy (fq_category q)) as [slug|]; get_step; [|reflexivity].
  destruct (select_category wid slug d); reflexivity.
Qed.

(** A listing that is not admitted answers an error and nothing else. *)
Lemma feedback_GET_rejected req d :
  list_admitted req d = None ->
  exists r, feedback_GET req d [] = (Ok r, d, []) /\ status r <> 200.
Proof.
  intros H. unfold list_admitted, query_input in H. get_step.
  destruct (parseInt _ (Some 10)) as [wid'|];
    [|eexists; split; [reflexivity|discriminate]].
  destruct (wid' =? 0); [eexists; split; [reflexivity|discriminate]|].
  destruct (truthy (x_api_key (lr_headers req))) as [key|];
    [|eexists; split; [reflexivity|discriminate]].
  get_step.
  destruct (find _ (websites d)) as [w|];
    [|eexists; split; [reflexivity|discriminate]].
  destruct (negb (Websites.isActive w));
    [eexists; split; [reflexivity|discriminate]|].
  get_step.
  destruct (feedbackQuerySchema _) as [q'|]; [discriminate|].
  eexists; split; [reflexivity|discriminate].
Qed.

(** The listing reads the request through the website id, the headers and
    the validated query only. *)
Lemma feedback_GET_ext req1 req2 d :
  lr_headers req1 = lr_headers req2 ->
  sp_websiteId (searchParams req1) = sp_websiteId (searchParams req2) ->
  feedbackQuerySchema (query_input (searchParams req1))
    = feedbackQuerySchema (query_input (searchParams req2)) ->
  feedback_GET req1 d = feedback_GET req2 d.
Proof.
  intros Hh Hw Hq. unfold feedback_GET. unfold query_input in Hq.
  rewrite Hh, Hw, Hq. reflexivity.
Qed.

(** ** Ordering, limit and offset *)

Section Ordering.

Context {A : Type} (le : A -> A -> bool).
Hypothesis le_total : forall a b, le a b = true \/ le b a = true.
Hypothesis le_trans : forall a b c, le a b = true -> le b c = true -> le a c = true.

Lemma insert_sorted_In x l y : In y (insert_sorted le x l) <-> y = x \/ In y l.
Proof.
  induction l as [|z l IH]; simpl.
  - intuition.
  - destruct (le x z); simpl; rewrite ?IH; intuition.
Qed.

Lemma insert_sorted_sorted x l :
  StronglySorted (fun a b => le a b = true) l ->
  StronglySorted (fun a b => le a b = true) (insert_sorted le x l).
Proof.
  induction 1 as [|z l Hs IH Hz]; simpl.
  - repeat constructor.
  - destruct (le x z) eqn:E.
    + constructor; [constructor; assumption|].
      constructor; [assumption|].
      rewrite Forall_forall in *. intros y Hy. eauto.
    + constructor; [assumption|].
      rewrite Forall_forall in *. intros y Hy.
      apply insert_sorted_In in Hy. destruct Hy as [->|Hy]; [|auto].
      destruct (le_total x z); congruence.
Qed.

Lemma order_by_sorted l : StronglySorted (fun a b => le a b = true) (order_by le l).
Proof.
  unfold order_by. induction l as [|x l IH]; simpl; [constructor|].
  now apply insert_sorted_sorted.
Qed.

End Ordering.

Lemma insert_sorted_length {A} (le : A -> A -> bool) x l :
  List.length (insert_sorted le x l) = S (List.length l).
Proof.
  induction l as [|y l IH]; simpl; [reflexivity|].
  destruct (le x y); simpl; congruence.
Qed.

Lemma order_by_length {A} (le : A -> A -> bool) l :
  List.length (order_by le l) = List.length l.
Proof.
  unfold order_by. induction l as [|x l IH]; simpl; [reflexivity|].
  rewrite insert_sorted_length. congruence.
Qed.

Lemma order_by_In {A} (le : A -> A -> bool) l y : In y (order_by le l) <-> In y l.
Proof.
  unfold order_by. induction l as [|x l IH]; simpl; [tauto|].
  rewrite insert_sorted_In, IH. intuition.
Qed.

Lemma StronglySorted_skipn {A} (R : A -> A -> Prop) n l :
  StronglySorted R l -> StronglySorted R (skipn n l).
Proof.
  revert l. induction n as [|n IH]; intros l H; simpl; [assumption|].
  destruct l; [constructor|]. inversion H; subst. auto.
Qed.

Lemma In_firstn {A} (y : A) n l : In y (firstn n l) -> In y l.
Proof.
  revert l. induction n as [|n IH]; simpl; [tauto|].
  destruct l; simpl; [tauto|]. intuition.
Qed.

Lemma StronglySorted_firstn {A} (R : A -> A -> Prop) n l :
  StronglySorted R l -> StronglySorted R (firstn n l).
Proof.
  revert l. induction n as [|n IH]; intros l H; simpl; [constructor|].
  destruct l; [constructor|]. inversion H; subst.
  constructor; [auto|]. rewrite Forall_forall in *. intros y Hy.
  apply H3. eapply In_firstn; eassumption.
Qed.

Lemma StronglySorted_map {A B} (R : A -> A -> Prop) (R' : B -> B -> Prop)
    (g : A -> B) l :
  (forall a b, R a b -> R' (g a) (g b)) ->
  StronglySorted R l -> StronglySorted R' (map g l).
Proof.
  intros Hg. induction 1 as [|x l Hs IH Hx]; simpl; constructor; auto.
  rewrite Forall_forall in *. intros y Hy. apply in_map_iff in Hy.
  destruct Hy as [z [<- Hz]]. auto.
Qed.

Lemma sorted_page {A B} (le : A -> A -> bool) (R' : B -> B -> Prop)
    (g : A -> B) lim off l :
  (forall a b, le a b = true \/ le b a = true) ->
  (forall a b c, le a b = true -> le b c = true -> le a c = true) ->
  (forall a b, le a b = true -> R' (g a) (g b)) ->
  StronglySorted R' (map g (sql_limit lim (sql_offset off (order_by le l)))).
Proof.
  intros Ht Htr Hg. eapply StronglySorted_map; [exact Hg|].
  unfold sql_limit, sql_offset.
  destruct (lim <? 0); [|apply StronglySorted_firstn];
    apply StronglySorted_skipn; apply order_by_sorted; assumption.
Qed.

(** ** C7: the order of a listing *)

(** The storage order of the priority texts, as numbers. *)
Definition Priority_text_rank (p : Priority) : Z :=
  match p with
  | high => 0
  | low => 1
  | medium => 2
  | urgent => 3
  end.

Lemma Priority_text_order p q :
  String.leb (Priority_text p) (Priority_text q) = true
  <-> Priority_text_rank p <= Priority_text_rank q.
Proof.
  destruct p, q; vm_compute; split; intros H; try reflexivity; try discriminate;
    exfalso; apply H; reflexivity.
Qed.

(** C7, as the code has it.  The page of an admitted listing is ordered by
    creation time ascending for 'oldest', by creation time descending for
    'newest' (the default), by upvotes descending for 'upvotes', and for
    'priority' by the stored priority text descending, which puts
    'urgent' first, then 'medium', 'low' and 'high'. *)
Theorem listing_order (req : ListRequest) (d : DB) (wid : Z) (q : FeedbackQuery)
    (r : Response) (d' : DB) (data : list Item) (pg : Pagination) :
  list_admitted req d = Some (wid, q) ->
  run (feedback_GET req) d = (Ok r, d') ->
  body r = ListData data pg ->
  parse_SortKey (or_else (sp_sort (searchParams req)) "newest") = Some (fq_sort q)
  /\ match fq_sort q with
     | SortOldest =>
         StronglySorted (fun a b => it_createdAt a <= it_createdAt b) data
     | SortNewest =>
         StronglySorted (fun a b => it_createdAt b <= it_createdAt a) data
     | SortUpvotes =>
         StronglySorted (fun a b => it_upvotes b <= it_upvotes a) data
     | SortPriority =>
         StronglySorted
           (fun a b => Priority_text_rank (it_priority b)
                       <= Priority_text_rank (it_priority a)) data
     end
  /\ order_by (desc_text Priority_text) [low; medium; high; urgent]
     = [urgent; medium; low; high].
Proof.
  intros Hadm Hrun Hb. unfold run in Hrun.
  rewrite (feedback_GET_admitted _ _ _ _ Hadm) in Hrun. cbn [fst] in Hrun.
  inversion Hrun; subst r d'; clear Hrun.
  cbn [list_response body] in Hb. inversion Hb; subst data pg; clear Hb.
  split; [|split; [|reflexivity]].
  - unfold list_admitted in Hadm.
    destruct (parseInt _ (Some 10)) as [wid'|]; [|discriminate].
    destruct (wid' =? 0); [discriminate|].
    destruct (truthy _) as [key|]; [|discriminate].
    destruct (find _ _) as [w|]; [|discriminate].
    destruct (negb _); [discriminate|].
    destruct (feedbackQuerySchema _) as [q'|] eqn:Eq; [|discriminate].
    inversion Hadm; subst wid' q'. unfold feedbackQuerySchema in Eq.
    cbn [query_input qi_status qi_type qi_sort] in Eq.
    destruct (optional_enum _ _); [|discriminate].
    destruct (optional_enum _ _); [|discriminate].
    destruct (parse_SortKey _) as [so|]; [|discriminate].
    destruct (_ && _); [|discriminate]. inversion Eq; subst q. reflexivity.
  - destruct (fq_sort q); cbn [list_orderBy]; apply sorted_page;
      unfold asc, desc, desc_text; intros;
      rewrite ?Z.leb_le, ?Priority_text_order in *; cbn [to_item it_createdAt
        it_upvotes it_priority]; try lia.
Qed.

Definition sample_priorities : DB :=
  sample_db None
    [sample_feedback 1 low 0 100; sample_feedback 2 high 5 200;
     sample_feedback 3 urgent 2 300].

Lemma listing_order_witness :
  parse_SortKey "priority" = Some SortPriority
  /\ StronglySorted
       (fun a b => Priority_text_rank (it_priority b)
                   <= Priority_text_rank (it_priority a))
       (map (to_item sample_priorities)
          [sample_feedback 3 urgent 2 300; sample_feedback 1 low 0 100;
           sample_feedback 2 high 5 200])
  /\ order_by (desc_text Priority_text) [low; medium; high; urgent]
     = [urgent; medium; low; high].
Proof.
  exact (listing_order (sample_list None None (Some "priority")) sample_priorities
           1
           {| fq_status := None; fq_type := None; fq_category := None;
              fq_limit := 10; fq_offset := 0; fq_sort := SortPriority;
              fq_public := None |}
           _ _ _ _ eq_refl eq_refl eq_refl).
Defined.

(** C7, as the spec has it, fails for 'priority': the listing puts a 'low'
    item before a 'high' one, against the rank of the enum. *)
Lemma priority_sort_is_not_by_rank :
  exists r d' data pg,
    run (feedback_GET (sample_list None None (Some "priority"))) sample_priorities
      = (Ok r, d')
    /\ body r = ListData data pg
    /\ map it_priority data = [urgent; low; high]
    /\ map (fun i => Priority_rank (it_priority i)) data = [3; 0; 2].
Proof.
  do 4 eexists. split; [vm_compute; reflexivity|].
  split; [reflexivity|]. split; reflexivity.
Qed.

(** ** C8: the pagination block *)

(** The filter set of a listing read as one predicate: the website, and
    every filter the query gives, all of them at once. *)
Definition matches_filters (wid : Z) (q : FeedbackQuery)
    (cat : option FeedbackCategories.row) (f : Feedback.row) : bool :=
  (Feedback.websiteId f =? wid)
  && match fq_status q with
     | Some s => FeedbackStatus_eqb (Feedback.status f) s
     | None => true
     end
  && match fq_type q with
     | Some t => FeedbackType_eqb (Feedback.type f) t
     | None => true
     end
  && match fq_public q with
     | Some true => Feedback.isPublic f
     | _ => true
     end
  && match cat with
     | Some c => option_Z_eqb (Feedback.categoryId f) (FeedbackCategories.id c)
     | None => true
     end.

Lemma and_all_app {A} (c1 c2 : list (A -> bool)) x :
  and_all (c1 ++ c2) x = and_all c1 x && and_all c2 x.
Proof. unfold and_all. apply forallb_app. Qed.

Lemma list_conditions_matches wid q f :
  and_all (list_conditions wid q) f = matches_filters wid q None f.
Proof.
  unfold list_conditions, matches_filters. rewrite !and_all_app.
  unfold and_all.
  destruct (fq_status q), (fq_type q), (fq_public q) as [[|]|];
    cbn [forallb app]; destruct (Feedback.isPublic f); cbn [Bool.eqb];
    rewrite ?andb_true_r, ?andb_assoc, ?andb_true_r; reflexivity.
Qed.

Lemma resolved_conditions_matches wid q d f :
  and_all (resolved_conditions wid q d) f
  = matches_filters wid q (resolved_category wid q d) f.
Proof.
  unfold resolved_conditions. destruct (resolved_category wid q d) as [c|].
  - rewrite and_all_app, list_conditions_matches. unfold matches_filters, and_all.
    cbn [forallb]. rewrite ?andb_true_r, ?andb_assoc, ?andb_true_r. reflexivity.
  - apply list_conditions_matches.
Qed.

Lemma feedbackQuerySchema_bounds i q :
  feedbackQuerySchema i = Some q ->
  1 <= fq_limit q <= 100 /\ 0 <= fq_offset q.
Proof.
  unfold feedbackQuerySchema. intros H.
  destruct (optional_enum _ _); [|discriminate].
  destruct (optional_enum _ _); [|discriminate].
  destruct (parse_SortKey _); [|discriminate].
  destruct (_ && _) eqn:E; [|discriminate]. inversion H; subst q; clear H.
  cbn [fq_limit fq_offset].
  apply andb_prop in E. destruct E as [E E3].
  apply andb_prop in E. destruct E as [E1 E2]. lia.
Qed.

Lemma list_admitted_bounds req d wid q :
  list_admitted req d = Some (wid, q) ->
  1 <= fq_limit q <= 100 /\ 0 <= fq_offset q.
Proof.
  unfold list_admitted. intros H.
  destruct (parseInt _ (Some 10)) as [wid'|]; [|discriminate].
  destruct (wid' =? 0); [discriminate|].
  destruct (truthy _) as [key|]; [|discriminate].
  destruct (find _ _) as [w|]; [|discriminate].
  destruct (negb _); [discriminate|].
  destruct (feedbackQuerySchema _) as [q'|] eqn:Eq; [|discriminate].
  inversion H; subst. eapply feedbackQuerySchema_bounds; eauto.
Qed.

Lemma page_length {A} (lim off : Z) (l : list A) :
  0 <= lim -> 0 <= off ->
  Z.of_nat (List.length (sql_limit lim (sql_offset off l)))
  = Z.min lim (Z.max 0 (Z.of_nat (List.length l) - off)).
Proof.
  intros Hl Ho. unfold sql_limit, sql_offset.
  destruct (lim <? 0) eqn:E; [apply Z.ltb_lt in E; lia|].
  rewrite length_firstn, length_skipn. lia.
Qed.

Lemma floor_div_bounds a b :
  0 < b -> Math_floor_div a b * b <= a < (Math_floor_div a b + 1) * b.
Proof.
  intros Hb. unfold Math_floor_div.
  pose proof (Z.div_mod a b ltac:(lia)). pose proof (Z.mod_pos_bound a b Hb). nia.
Qed.

Lemma ceil_div_bounds a b :
  0 < b -> (Math_ceil_div a b - 1) * b < a <= Math_ceil_div a b * b.
Proof.
  intros Hb. unfold Math_ceil_div.
  pose proof (Z.div_mod (- a) b ltac:(lia)).
  pose proof (Z.mod_pos_bound (- a) b Hb). nia.
Qed.

(** C8.  In the answer of an admitted listing, [total] is the number of
    stored rows that match the whole filter set, whatever the page;
    [page] is the quotient of offset by limit, plus one; [totalPages] is the
    least number of pages of [limit] rows that hold [total] rows; and the
    page holds the rows left after the offset, up to [limit].  With 25
    matching rows, limit 10 and offset 20: 5 items, 3 pages, page 3. *)
Theorem pagination_exactness (req : ListRequest) (d : DB) (wid : Z)
    (q : FeedbackQuery) (r : Response) (d' : DB) (data : list Item)
    (pg : Pagination) :
  list_admitted req d = Some (wid, q) ->
  run (feedback_GET req) d = (Ok r, d') ->
  body r = ListData data pg ->
  total pg
    = Z.of_nat (List.length
        (filter (matches_filters wid q (resolved_category wid q d)) (feedback d)))
  /\ limit pg = fq_limit q
  /\ (page pg - 1) * limit pg <= fq_offset q < page pg * limit pg
  /\ (totalPages pg - 1) * limit pg < total pg <= totalPages pg * limit pg
  /\ Z.of_nat (List.length data)
     = Z.min (limit pg) (Z.max 0 (total pg - fq_offset q))
  /\ (total pg = 25 -> limit pg = 10 -> fq_offset q = 20 ->
      List.length data = 5%nat /\ totalPages pg = 3 /\ page pg = 3).
Proof.
  intros Hadm Hrun Hb. unfold run in Hrun.
  rewrite (feedback_GET_admitted _ _ _ _ Hadm) in Hrun. cbn [fst] in Hrun.
  inversion Hrun; subst r d'; clear Hrun.
  cbn [list_response body] in Hb. inversion Hb; subst data pg; clear Hb.
  cbn [total page limit totalPages].
  destruct (list_admitted_bounds _ _ _ _ Hadm) as [Hl Ho].
  pose proof (floor_div_bounds (fq_offset q) (fq_limit q) ltac:(lia)) as Hf.
  pose proof (ceil_div_bounds (Z.of_nat (List.length (list_matches wid q d)))
                (fq_limit q) ltac:(lia)) as Hc.
  assert (Hlen : Z.of_nat (List.length
            (map (to_item d)
               (sql_limit (fq_limit q)
                  (sql_offset (fq_offset q)
                     (order_by (list_orderBy (fq_sort q)) (list_matches wid q d))))))
          = Z.min (fq_limit q)
              (Z.max 0 (Z.of_nat (List.length (list_matches wid q d)) - fq_offset q))).
  { rewrite length_map, page_length, order_by_length by lia. reflexivity. }
  assert (Hm : list_matches wid q d
               = filter (matches_filters wid q (resolved_category wid q d))
                   (feedback d)).
  { unfold list_matches. apply filter_ext. intros f.
    apply resolved_conditions_matches. }
  rewrite <- Hm.
  repeat split; try lia; try exact Hlen.
  all: intros Ht Hlim Hoff; rewrite Ht, Hlim, Hoff in *; try lia; nia.
Qed.

Lemma pagination_exactness_witness :
  exists r data pg,
    run (feedback_GET (sample_list (Some "10") (Some "20") None))
        (sample_db None (sample_rows 25))
      = (Ok r, sample_db None (sample_rows 25))
    /\ body r = ListData data pg
    /\ total pg = 25 /\ limit pg = 10
    /\ List.length data = 5%nat /\ totalPages pg = 3 /\ page pg = 3.
Proof.
  do 3 eexists. split; [vm_compute; reflexivity|]. split; [reflexivity|].
  split; [reflexivity|]. split; [reflexivity|].
  refine (proj2 (proj2 (proj2 (proj2 (proj2
    (pagination_exactness (sample_list (Some "10") (Some "20") None)
       (sample_db None (sample_rows 25)) 1
       {| fq_status := None; fq_type := None; fq_category := None;
          fq_limit := 10; fq_offset := 20; fq_sort := SortNewest;
          fq_public := None |}
       _ _ _ _ eq_refl eq_refl eq_refl))))) eq_refl eq_refl eq_refl).
Defined.

(** ** C9: the category filter *)

(** The answer of a listing when the storage does not fail, guard by
    guard. *)
Definition list_outcome (req : ListRequest) (d : DB) : Response :=
  match parseInt (or_else (sp_websiteId (searchParams req)) "0") (Some 10) with
  | None => error_response 400 "Website ID required"
  | Some wid =>
      if wid =? 0 then error_response 400 "Website ID required" else
      match truthy (x_api_key (lr_headers req)) with
      | None => error_response 401 "API key required"
      | Some key =>
          match find (fun w => (Websites.id w =? wid)
                               && (Websites.apiKey w =? key)%string)
                     (websites d) with
          | None => error_response 403 "Invalid API key or inactive website"
          | Some w =>
              if negb (Websites.isActive w)
              then error_response 403 "Invalid API key or inactive website"
              else match feedbackQuerySchema (query_input (searchParams req)) with
                   | None => error_response 400 "Invalid query parameters"
                   | Some q => list_response wid q d
                   end
          end
      end
  end.

Lemma feedback_GET_run req d :
  feedback_GET req d [] = (Ok (list_outcome req d), d, []).
Proof.
  unfold list_outcome, query_input.
  unfold list_response, list_matches, resolved_conditions, resolved_category.
  get_step.
  destruct (parseInt _ (Some 10)) as [wid|]; [|reflexivity].
  destruct (wid =? 0); [reflexivity|].
  destruct (truthy (x_api_key (lr_headers req))) as [key|]; [|reflexivity].
  get_step.
  destruct (find _ (websites d)) as [w|]; [|reflexivity].
  destruct (negb (Websites.isActive w)); [reflexivity|].
  get_step.
  destruct (feedbackQuerySchema _) as [q|]; [|reflexivity].
  destruct (truthy (fq_category q)) as [slug|]; get_step; [|reflexivity].
  destruct (select_category wid slug d); reflexivity.
Qed.


Definition set_limit (l : option string) (req : ListRequest) : ListRequest :=
  {| lr_headers := lr_headers req;
     searchParams :=
       {| sp_websiteId := sp_websiteId (searchParams req);
          sp_status := sp_status (searchParams req);
          sp_type := sp_type (searchParams req);
          sp_category := sp_category (searchParams req);
          sp_limit := l;
          sp_offset := sp_offset (searchParams req);
          sp_sort := sp_sort (searchParams req);
          sp_public := sp_public (searchParams req) |} |}.

Definition set_offset (o : option string) (req : ListRequest) : ListRequest :=
  {| lr_headers := lr_headers req;
     searchParams :=
       {| sp_websiteId := sp_websiteId (searchParams req);
          sp_status := sp_status (searchParams req);
          sp_type := sp_type (searchParams req);
          sp_category := sp_category (searchParams req);
          sp_limit := sp_limit (searchParams req);
          sp_offset := o;
          sp_sort := sp_sort (searchParams req);
          sp_public := sp_public (searchParams req) |} |}.




Lemma truthy_idem x s : truthy x = Some s -> truthy (Some s) = Some s.
Proof.
  unfold truthy. destruct x as [t|]; [|discriminate].
  destruct (t =? "")%string eqn:E; [discriminate|].
  intros H. inversion H; subst. now rewrite E.
Qed.






Lemma In_sql_page {A} (lim off : Z) (l : list A) x :
  In x (sql_limit lim (sql_offset off l)) -> In x l.
Proof.
  unfold sql_limit, sql_offset. intros H.
  destruct (lim <? 0); [|apply In_firstn in H];
    revert H; generalize (Z.to_nat off); intros n; revert l;
    induction n; destruct l; simpl; auto.
Qed.


Definition sample_category : FeedbackCategories.row :=
  {| FeedbackCategories.id := 7; FeedbackCategories.websiteId := 1;
     FeedbackCategories.name := "Interface"; FeedbackCategories.slug := "ui";
     FeedbackCategories.color := Some "#336699";
     FeedbackCategories.isActive := true; FeedbackCategories.sortOrder := 0 |}.




(** ** C10: the defaults of limit and offset *)

Lemma or_else_some s dflt :
  or_else (Some s) dflt = if (s =? "")%string then dflt else s.
Proof. unfold or_else, truthy. destruct (s =? "")%string; reflexivity. Qed.

Lemma parseInt_10 : parseInt "10" None = Some 10.
Proof. reflexivity. Qed.

Lemma parseInt_0 : parseInt "0" None = Some 0.
Proof. reflexivity. Qed.

Lemma parseInt_empty : parseInt "" None = None.
Proof. reflexivity. Qed.

Lemma schema_limit_default req s :
  parseInt s None = None \/ parseInt s None = Some 0 ->
  feedbackQuerySchema (query_input (searchParams (set_limit (Some s) req)))
  = feedbackQuerySchema (query_input (searchParams (set_limit (Some "10") req))).
Proof.
  intros Hs. unfold feedbackQuerySchema, query_input, set_limit.
  cbn [searchParams sp_status sp_type sp_category sp_limit sp_offset sp_sort
       sp_public qi_status qi_type qi_category qi_limit qi_offset qi_sort qi_public].
  rewrite !or_else_some.
  replace (num_or (parseInt (if (s =? "")%string then "10" else s) None) 10)
    with 10; [reflexivity|].
  destruct (s =? "")%string; [reflexivity|].
  destruct Hs as [-> | ->]; reflexivity.
Qed.

Lemma schema_offset_default req s :
  parseInt s None = None ->
  feedbackQuerySchema (query_input (searchParams (set_offset (Some s) req)))
  = feedbackQuerySchema (query_input (searchParams (set_offset (Some "0") req))).
Proof.
  intros Hs. unfold feedbackQuerySchema, query_input, set_offset.
  cbn [searchParams sp_status sp_type sp_category sp_limit sp_offset sp_sort
       sp_public qi_status qi_type qi_category qi_limit qi_offset qi_sort qi_public].
  rewrite !or_else_some.
  replace (num_or (parseInt (if (s =? "")%string then "0" else s) None) 0)
    with 0; [reflexivity|].
  destruct (s =? "")%string; [reflexivity|]. rewrite Hs. reflexivity.
Qed.

(** C10.  A [limit] whose text parses to no number or to 0 is replaced by
    10 before the bounds are checked, and an [offset] that parses to no
    number by 0: the listing behaves as for [limit=10], as for [offset=0].
    So a request with [limit=0] is answered as the same request with
    [limit=10]: when that one is admitted, with 200, a limit of 10 and at
    most 10 items. *)
Theorem limit_and_offset_defaults (req : ListRequest) (d : DB) :
  (forall s, parseInt s None = None \/ parseInt s None = Some 0 ->
     feedback_GET (set_limit (Some s) req) d
     = feedback_GET (set_limit (Some "10") req) d)
  /\ (forall s, parseInt s None = None ->
        feedback_GET (set_offset (Some s) req) d
        = feedback_GET (set_offset (Some "0") req) d)
  /\ (forall wid q, list_admitted (set_limit (Some "10") req) d = Some (wid, q) ->
        exists r data pg,
          run (feedback_GET (set_limit (Some "0") req)) d = (Ok r, d)
          /\ status r = 200
          /\ body r = ListData data pg
          /\ limit pg = 10
          /\ (List.length data <= 10)%nat).
Proof.
  split; [|split].
  - intros s Hs. apply feedback_GET_ext; try reflexivity.
    now apply schema_limit_default.
  - intros s Hs. apply feedback_GET_ext; try reflexivity.
    now apply schema_offset_default.
  - intros wid q Hadm.
    assert (Heq : feedback_GET (set_limit (Some "0") req) d
                  = feedback_GET (set_limit (Some "10") req) d).
    { apply feedback_GET_ext; [reflexivity|reflexivity|].
      apply schema_limit_default. right. reflexivity. }
    unfold run. rewrite Heq, (feedback_GET_admitted _ _ _ _ Hadm). cbn [fst].
    assert (Hlim : fq_limit q = 10).
    { unfold list_admitted in Hadm.
      destruct (parseInt _ (Some 10)) as [wid'|]; [|discriminate].
      destruct (wid' =? 0); [discriminate|].
      destruct (truthy _) as [key|]; [|discriminate].
      destruct (find _ _) as [w|]; [|discriminate].
      destruct (negb _); [discriminate|].
      destruct (feedbackQuerySchema _) as [q'|] eqn:Eq; [|discriminate].
      inversion Hadm; subst wid' q'. unfold feedbackQuerySchema in Eq.
      cbn [query_input set_limit searchParams sp_limit qi_limit] in Eq.
      destruct (optional_enum _ _); [|discriminate].
      destruct (optional_enum _ _); [|discriminate].
      destruct (parse_SortKey _); [|discriminate].
      destruct (_ && _); [|discriminate]. inversion Eq; subst q. reflexivity. }
    do 3 eexists. split; [reflexivity|]. split; [reflexivity|].
    split; [reflexivity|]. cbn [limit]. split; [exact Hlim|].
    rewrite length_map. unfold sql_limit. rewrite Hlim. cbn [Z.ltb Z.compare].
    rewrite length_firstn. 
    change (Z.to_nat 10) with 10%nat. lia.
Qed.

Lemma limit_and_offset_defaults_witness :
  feedback_GET (set_limit (Some "abc") (sample_list None None None))
    (sample_db None (sample_rows 25))
  = feedback_GET (set_limit (Some "10") (sample_list None None None))
      (sample_db None (sample_rows 25))
  /\ exists r data pg,
       run (feedback_GET (set_limit (Some "0") (sample_list None None None)))
           (sample_db None (sample_rows 25))
         = (Ok r, sample_db None (sample_rows 25))
       /\ status r = 200
       /\ body r = ListData data pg
       /\ limit pg = 10
       /\ (List.length data <= 10)%nat.
Proof.
  destruct (limit_and_offset_defaults (sample_list None None None)
              (sample_db None (sample_rows 25))) as [Hl [_ Hz]].
  split.
  - apply Hl. left. reflexivity.
  - eapply Hz. reflexivity.
Defined.

(* ------------------------------------------------------------------ *)
(** * Further properties of the vote route *)

(** The guards of [DELETE] in order, up to the lookup of the vote. *)
Definition remove_admitted (req : VoteRequest) (d : DB)
  : option (Z * Feedback.row) :=
  match parseInt (params_id req) None with
  | None => None
  | Some fid =>
      if fid =? 0 then None else
      match truthy (x_api_key (vr_headers req)) with
      | None => None
      | Some key =>
          match select_feedback fid d with
          | None => None
          | Some f =>
              match find (fun w => (Websites.id w =? Feedback.websiteId f)
                                   && (Websites.apiKey w =? key)%string)
                         (websites d) with
              | None => None
              | Some w =>
                  if negb (Websites.isActive w) then None else Some (fid, f)
              end
          end
      end
  end.

(** What [DELETE] does once a request is admitted. *)
Definition remove_tail (fid : Z) (f : Feedback.row) (em : option string)
    (ip : string) (now : Z) : M Response :=
  existingVote <- query (fun d => find (vote_conditions fid em ip) (votes d)) ;;
  match existingVote with
  | None => ret (error_response 404 "Vote not found")
  | Some existingVote =>
      exec (delete_vote (FeedbackVotes.id existingVote)) ;;;
      (if VoteType_eqb (FeedbackVotes.voteType existingVote) up
       then exec (update_feedback_counts fid
                    (Some (Feedback.upvotes f - 1)) None now)
       else exec (update_feedback_counts fid
                    None (Some (Feedback.downvotes f - 1)) now)) ;;;
      counts_response fid
  end.

(** The counter write of a removal. *)
Definition uncounted (fid : Z) (f : Feedback.row) (ev : FeedbackVotes.row)
    (now : Z) (d : DB) : DB :=
  if VoteType_eqb (FeedbackVotes.voteType ev) up
  then update_feedback_counts fid (Some (Feedback.upvotes f - 1)) None now d
  else update_feedback_counts fid None (Some (Feedback.downvotes f - 1)) now d.

Lemma vote_DELETE_admitted req now d fid f :
  remove_admitted req d = Some (fid, f) ->
  (forall fs, vote_DELETE req now d (false :: false :: fs)
     = try_catch (remove_tail fid f (x_voter_email (vr_headers req))
                    (fst (getClientInfo (vr_headers req))) now)
         internal_error d fs)
  /\ vote_DELETE req now d []
     = try_catch (remove_tail fid f (x_voter_email (vr_headers req))
                    (fst (getClientInfo (vr_headers req))) now)
         internal_error d [].
Proof.
  intros H. unfold remove_admitted in H. unfold vote_DELETE, internal_error.
  destruct (parseInt (params_id req) None) as [fid'|]; [|discriminate].
  destruct (fid' =? 0); [discriminate|].
  destruct (truthy (x_api_key (vr_headers req))) as [key|]; [|discriminate].
  destruct (select_feedback fid' d) as [f'|] eqn:Ef; [|discriminate].
  destruct (find _ (websites d)) as [w|] eqn:Ew; [|discriminate].
  destruct (negb (Websites.isActive w)) eqn:Ea; [discriminate|].
  inversion H; subst fid' f'; clear H.
  split; [intros fs|];
    cbv beta iota zeta delta
      [try_catch bind query stmt ret verifyApiKey remove_tail];
    rewrite ?Ef; cbv beta iota zeta; rewrite ?Ew; cbv beta iota zeta;
    rewrite ?Ea; reflexivity.
Qed.

Lemma remove_tail_run fid f em ip now d :
  try_catch (remove_tail fid f em ip now) internal_error d []
  = match find (vote_conditions fid em ip) (votes d) with
    | Some ev =>
        (Ok (counts_of fid (uncounted fid f ev now (delete_vote (FeedbackVotes.id ev) d))),
         uncounted fid f ev now (delete_vote (FeedbackVotes.id ev) d), [])
    | None => (Ok (error_response 404 "Vote not found"), d, [])
    end.
Proof.
  cbv beta iota zeta delta
    [try_catch remove_tail bind query exec stmt ret counts_response].
  destruct (find _ (votes d)) as [ev|]; [|reflexivity].
  unfold uncounted. destruct (VoteType_eqb (FeedbackVotes.voteType ev) up);
    reflexivity.
Qed.

Lemma remove_tail_faults fid f em ip now d fs :
  try_catch (remove_tail fid f em ip now) internal_error d
    (false :: false :: true :: fs)
  = match find (vote_conditions fid em ip) (votes d) with
    | Some ev => (Ok internal_error, delete_vote (FeedbackVotes.id ev) d, fs)
    | None => (Ok (error_response 404 "Vote not found"), d, false :: true :: fs)
    end.
Proof.
  cbv beta iota zeta delta
    [try_catch remove_tail bind query exec stmt ret counts_response].
  destruct (find _ (votes d)) as [ev|]; [|reflexivity].
  destruct (VoteType_eqb (FeedbackVotes.voteType ev) up); reflexivity.
Qed.

(** Without storage faults a vote route changes the database only when it
    answers 200. *)
Lemma vote_POST_unchanged ze req now d r d' fs' :
  vote_POST ze req now d [] = (Ok r, d', fs') -> status r <> 200 -> d' = d.
Proof.
  intros H Hs. run_step H.
  destruct (parseInt (params_id req) None) as [fid|];
    [|inversion H; reflexivity].
  destruct (fid =? 0); [inversion H; reflexivity|].
  destruct (vr_json req) as [b|]; run_step H; [|inversion H; reflexivity].
  destruct (voteSchema ze b) as [vd|]; [|inversion H; reflexivity].
  destruct (truthy (x_api_key (vr_headers req))) as [key|];
    [|inversion H; reflexivity].
  run_step H.
  destruct (select_feedback fid d) as [f|]; run_step H; [|inversion H; reflexivity].
  destruct (find _ (websites d)) as [w|]; [|inversion H; reflexivity].
  destruct (negb (Websites.isActive w)); [inversion H; reflexivity|].
  run_step H.
  destruct (find _ (votes d)) as [ev|].
  - destruct (VoteType_eqb (FeedbackVotes.voteType ev) (vd_voteType vd));
      cbn [negb] in H; run_step H; inversion H; subst; [reflexivity|].
    exfalso. apply Hs. reflexivity.
  - run_step H.
    destruct (insert_vote _ _ _ _ _ d) as [[[]|] d1] eqn:Ei; run_step H.
    + destruct (VoteType_eqb (vd_voteType vd) up); run_step H;
        inversion H; subst; exfalso; apply Hs; reflexivity.
    + unfold insert_vote in Ei. destruct (_ || _); inversion Ei; subst.
      inversion H; reflexivity.
Qed.

Lemma vote_DELETE_unchanged req now d r d' fs' :
  vote_DELETE req now d [] = (Ok r, d', fs') -> status r <> 200 -> d' = d.
Proof.
  intros H Hs. run_step H.
  destruct (parseInt (params_id req) None) as [fid|];
    [|inversion H; reflexivity].
  destruct (fid =? 0); [inversion H; reflexivity|].
  destruct (truthy (x_api_key (vr_headers req))) as [key|];
    [|inversion H; reflexivity].
  run_step H.
  destruct (select_feedback fid d) as [f|]; run_step H; [|inversion H; reflexivity].
  destruct (find _ (websites d)) as [w|]; [|inversion H; reflexivity].
  destruct (negb (Websites.isActive w)); [inversion H; reflexivity|].
  run_step H.
  destruct (find _ (votes d)) as [ev|]; run_step H; [|inversion H; reflexivity].
  destruct (VoteType_eqb (FeedbackVotes.voteType ev) up); run_step H;
    inversion H; subst; exfalso; apply Hs; reflexivity.
Qed.

(** X1.  Whatever the storage faults, a cast or a removal that answers a
    refusal (neither 200 nor 500) has changed nothing in the database: all
    the checks of the vote route come before its first write. *)
Theorem vote_refusal_keeps_database (zod_email : string -> bool) (op : VoteOp)
    (d d' : DB) (fs fs' : Faults) (r : Response) :
  vote_op zod_email op d fs = (Ok r, d', fs') ->
  status r <> 200 -> status r <> 500 ->
  d' = d.
Proof.
  intros H H2 H5. destruct op as [req now|req now]; cbn [vote_op] in H.
  - destruct (vote_POST_completed _ _ _ _ _ _ _ _ H) as [->|H'].
    + exfalso. apply H5. reflexivity.
    + eapply vote_POST_unchanged; eauto.
  - destruct (vote_DELETE_completed _ _ _ _ _ _ _ H) as [->|H'].
    + exfalso. apply H5. reflexivity.
    + eapply vote_DELETE_unchanged; eauto.
Qed.

Lemma vote_refusal_keeps_database_witness :
  snd (fst (vote_DELETE (sample_vote "up" None) 200 sample_ledger [false; false]))
  = sample_ledger.
Proof.
  apply (vote_refusal_keeps_database sample_email
           (removeVote (sample_vote "up" None) 200) sample_ledger _
           [false; false] []
           (error_response 404 "Vote not found"));
    [reflexivity | discriminate | discriminate].
Defined.

Lemma num_or_zero z : num_or (Some z) 0 = z.
Proof. unfold num_or. destruct (z =? 0) eqn:E; [apply Z.eqb_eq in E; lia|reflexivity]. Qed.

Lemma select_feedback_updated fid u dn now d f :
  select_feedback fid d = Some f ->
  select_feedback fid (update_feedback_counts fid u dn now d)
  = Some (Feedback.set_counts
            match u with Some x => x | None => Feedback.upvotes f end
            match dn with Some x => x | None => Feedback.downvotes f end
            now f).
Proof.
  intros Hf. unfold select_feedback in *. rewrite update_feedback_counts_map.
  rewrite find_map_pres.
  - rewrite Hf. cbn [option_map]. apply find_some in Hf. destruct Hf as [_ Hf].
    rewrite Hf. reflexivity.
  - intros x. destruct (Feedback.id x =? fid) eqn:E; [|assumption].
    cbn [Feedback.set_counts Feedback.id]. assumption.
Qed.

Lemma cast_admitted_item ze req d fid vd f :
  cast_admitted ze req d = Some (fid, vd, f) -> select_feedback fid d = Some f.
Proof.
  unfold cast_admitted. intros Hadm.
  destruct (parseInt (params_id req) None) as [fid'|]; [|discriminate].
  destruct (fid' =? 0); [discriminate|].
  destruct (vr_json req) as [b|]; [|discriminate].
  destruct (voteSchema ze b) as [vd'|]; [|discriminate].
  destruct (truthy _) as [key|]; [|discriminate].
  destruct (select_feedback fid' d) as [f'|] eqn:Ef; [|discriminate].
  destruct (find _ (websites d)) as [w|]; [|discriminate].
  destruct (negb _); [discriminate|]. inversion Hadm; subst. exact Ef.
Qed.

(** X2.  When the voter already holds the other vote on the item, an
    admitted cast answers 200 with one counter raised by one and the other
    lowered by one, rewrites that voter's row to the new type and adds no
    row. *)
Theorem vote_flip_moves_one_count (zod_email : string -> bool)
    (req : VoteRequest) (now : Z) (d d1 : DB) (fid : Z) (vd : Vote)
    (f : Feedback.row) (ev : FeedbackVotes.row) (r1 : Response) :
  cast_admitted zod_email req d = Some (fid, vd, f) ->
  find (vote_conditions fid (vd_voterEmail vd)
          (fst (getClientInfo (vr_headers req)))) (votes d) = Some ev ->
  FeedbackVotes.voteType ev <> vd_voteType vd ->
  run (vote_POST zod_email req now) d = (Ok r1, d1) ->
  r1 = {| status := 200;
          body := if VoteType_eqb (vd_voteType vd) up
                  then VoteData (Feedback.upvotes f + 1) (Feedback.downvotes f - 1)
                  else VoteData (Feedback.upvotes f - 1) (Feedback.downvotes f + 1) |}
  /\ List.length (votes d1) = List.length (votes d)
  /\ find (vote_conditions fid (vd_voterEmail vd)
             (fst (getClientInfo (vr_headers req)))) (votes d1)
     = Some (FeedbackVotes.set_voteType (vd_voteType vd) ev).
Proof.
  intros Hadm Hev Hne Hrun. unfold run in Hrun.
  destruct (vote_POST_admitted _ _ now _ _ _ _ Hadm) as [_ [H0 _]].
  rewrite H0, cast_tail_run, Hev in Hrun.
  assert (Et : VoteType_eqb (FeedbackVotes.voteType ev) (vd_voteType vd) = false).
  { destruct (VoteType_eqb _ _) eqn:E; [|reflexivity].
    apply VoteType_eqb_eq in E. contradiction. }
  rewrite Et in Hrun. cbn [fst] in Hrun. inversion Hrun; subst r1 d1; clear Hrun.
  pose proof (cast_admitted_item _ _ _ _ _ _ Hadm) as Hf.
  split; [|split].
  - unfold counts_of, flipped. f_equal.
    rewrite (select_feedback_updated fid _ _ now
               (update_vote_type (FeedbackVotes.id ev) (vd_voteType vd) d) f Hf).
    cbn [option_map Feedback.set_counts Feedback.upvotes Feedback.downvotes].
    rewrite !num_or_zero.
    destruct (vd_voteType vd); cbn [VoteType_eqb]; f_equal; lia.
  - cbn [flipped update_feedback_counts update_vote_type votes with_votes
         with_feedback]. apply length_map.
  - cbn [flipped update_feedback_counts update_vote_type votes with_votes
         with_feedback].
    rewrite find_map_pres by (intros x; destruct (_ =? _); reflexivity).
    rewrite Hev. cbn [option_map]. rewrite Z.eqb_refl. reflexivity.
Qed.

(** One 'up' vote of the sample caller on the sample item. *)
Definition sample_voted : DB :=
  snd (run (vote_POST sample_email (sample_vote "up" None) 200) sample_ledger).

Lemma vote_flip_moves_one_count_witness :
  {| status := 200; body := VoteData 0 1 |}
  = {| status := 200; body := VoteData (1 - 1) (0 + 1) |}
  /\ List.length
       (votes (snd (run (vote_POST sample_email (sample_vote "down" None) 300)
                      sample_voted))) = 1%nat
  /\ find (vote_conditions 1 None "203.0.113.7")
       (votes (snd (run (vote_POST sample_email (sample_vote "down" None) 300)
                      sample_voted)))
     = Some {| FeedbackVotes.id := 1; FeedbackVotes.feedbackId := 1;
               FeedbackVotes.voterEmail := None;
               FeedbackVotes.voterIp := "203.0.113.7";
               FeedbackVotes.voteType := down; FeedbackVotes.createdAt := 200 |}.
Proof.
  refine (vote_flip_moves_one_count sample_email (sample_vote "down" None) 300
            sample_voted _ 1 {| vd_voteType := down; vd_voterEmail := None |}
            (Feedback.set_counts 1 0 200 (sample_feedback 1 medium 0 100))
            {| FeedbackVotes.id := 1; FeedbackVotes.feedbackId := 1;
               FeedbackVotes.voterEmail := None;
               FeedbackVotes.voterIp := "203.0.113.7";
               FeedbackVotes.voteType := up; FeedbackVotes.createdAt := 200 |}
            _ eq_refl eq_refl _ eq_refl).
  discriminate.
Defined.

Lemma remove_admitted_after req d d1 fid f h :
  remove_admitted req d = Some (fid, f) ->
  websites d1 = websites d ->
  feedback d1 = map h (feedback d) ->
  (forall g, Feedback.id (h g) = Feedback.id g
             /\ Feedback.websiteId (h g) = Feedback.websiteId g) ->
  remove_admitted req d1 = Some (fid, h f).
Proof.
  intros H Hw Hfb Hh. unfold remove_admitted in *.
  destruct (parseInt (params_id req) None) as [fid'|]; [|discriminate].
  destruct (fid' =? 0); [discriminate|].
  destruct (truthy (x_api_key (vr_headers req))) as [key|]; [|discriminate].
  unfold select_feedback in *. rewrite Hfb, Hw.
  rewrite find_map_pres by (intros x; now rewrite (proj1 (Hh x))).
  destruct (find _ (feedback d)) as [f'|]; [|discriminate].
  cbn [option_map]. rewrite (proj2 (Hh f')).
  destruct (find _ (websites d)) as [w|]; [|discriminate].
  destruct (negb (Websites.isActive w)); [discriminate|].
  inversion H; subst. reflexivity.
Qed.

Lemma cast_admitted_remove ze req d fid vd f :
  cast_admitted ze req d = Some (fid, vd, f) ->
  remove_admitted req d = Some (fid, f).
Proof.
  unfold cast_admitted, remove_admitted. intros H.
  destruct (parseInt (params_id req) None) as [fid'|]; [|discriminate].
  destruct (fid' =? 0); [discriminate|].
  destruct (vr_json req) as [b|]; [|discriminate].
  destruct (voteSchema ze b) as [vd'|]; [|discriminate].
  destruct (truthy _) as [key|]; [|discriminate].
  destruct (select_feedback fid' d) as [f'|]; [|discriminate].
  destruct (find _ (websites d)) as [w|]; [|discriminate].
  destruct (negb _); [discriminate|]. inversion H; subst. reflexivity.
Qed.

Lemma remove_admitted_item req d fid f :
  remove_admitted req d = Some (fid, f) -> select_feedback fid d = Some f.
Proof.
  unfold remove_admitted. intros H.
  destruct (parseInt (params_id req) None) as [fid'|]; [|discriminate].
  destruct (fid' =? 0); [discriminate|].
  destruct (truthy _) as [key|]; [|discriminate].
  destruct (select_feedback fid' d) as [f'|] eqn:Ef; [|discriminate].
  destruct (find _ (websites d)) as [w|]; [|discriminate].
  destruct (negb _); [discriminate|]. inversion H; subst. exact Ef.
Qed.

Lemma delete_fresh_vote vs v :
  ~ In (FeedbackVotes.id v) (map FeedbackVotes.id vs) ->
  filter (fun x => negb (FeedbackVotes.id x =? FeedbackVotes.id v)) (vs ++ [v]) = vs.
Proof.
  intros Hfresh. rewrite filter_app. cbn [filter]. rewrite Z.eqb_refl. cbn [negb].
  rewrite app_nil_r. apply forallb_filter_id. apply forallb_forall. intros x Hx.
  destruct (FeedbackVotes.id x =? FeedbackVotes.id v) eqn:E; [|reflexivity].
  apply Z.eqb_eq in E. exfalso. apply Hfresh. rewrite <- E. now apply in_map.
Qed.

Lemma set_counts_twice u1 d1 t1 u2 d2 t2 f :
  Feedback.set_counts u2 d2 t2 (Feedback.set_counts u1 d1 t1 f)
  = Feedback.set_counts u2 d2 t2 f.
Proof. reflexivity. Qed.

Lemma upvotes_set_counts u d t f : Feedback.upvotes (Feedback.set_counts u d t f) = u.
Proof. reflexivity. Qed.

Lemma downvotes_set_counts u d t f :
  Feedback.downvotes (Feedback.set_counts u d t f) = d.
Proof. reflexivity. Qed.

(** X3.  A cast that inserts a vote, followed by the removal by the same
    voter, is a round trip on the ledger: the removal answers 200 with the
    counters the item had before the cast, and the vote table is as it was
    before the cast. *)
Theorem cast_then_remove_restores (zod_email : string -> bool)
    (req : VoteRequest) (now1 now2 : Z) (d d1 : DB) (fid : Z) (vd : Vote)
    (f : Feedback.row) (r1 : Response) :
  cast_admitted zod_email req d = Some (fid, vd, f) ->
  find (vote_conditions fid (vd_voterEmail vd)
          (fst (getClientInfo (vr_headers req)))) (votes d) = None ->
  truthy (x_voter_email (vr_headers req)) = truthy (vd_voterEmail vd) ->
  run (vote_POST zod_email req now1) d = (Ok r1, d1) ->
  status r1 = 200 ->
  exists d2,
    run (vote_DELETE req now2) d1
    = (Ok {| status := 200;
             body := VoteData (Feedback.upvotes f) (Feedback.downvotes f) |}, d2)
    /\ votes d2 = votes d
    /\ select_feedback fid d2
       = Some (Feedback.set_counts (Feedback.upvotes f) (Feedback.downvotes f)
                 now2 f).
Proof.
  intros Hadm Hnone Hem Hrun Hs. unfold run in *.
  destruct (vote_POST_admitted _ _ now1 _ _ _ _ Hadm) as [_ [H0 _]].
  rewrite H0, cast_tail_run, Hnone in Hrun. clear H0.
  set (ip := fst (getClientInfo (vr_headers req))) in *.
  destruct (insert_vote fid (vd_voteType vd) (truthy (vd_voterEmail vd)) ip now1 d)
    as [[[]|] d0] eqn:Ei; cbn [fst] in Hrun; inversion Hrun; subst r1 d1; clear Hrun;
    [|discriminate].
  unfold insert_vote in Ei. destruct (_ || _); [discriminate|].
  inversion Ei; subst d0; clear Ei.
  match goal with
  | |- context [with_votes (votes d ++ [?v]) d] => set (v0 := v) in *
  end.
  set (d1 := counted fid vd f now1 (with_votes (votes d ++ [v0]) d)).
  pose proof (cast_admitted_item _ _ _ _ _ _ Hadm) as Hf.
  assert (Hvotes : votes d1 = votes d ++ [v0])
    by (unfold d1, counted; destruct (VoteType_eqb _ up); reflexivity).
  set (f1 := Feedback.set_counts
               (if VoteType_eqb (vd_voteType vd) up
                then Feedback.upvotes f + 1 else Feedback.upvotes f)
               (if VoteType_eqb (vd_voteType vd) up
                then Feedback.downvotes f else Feedback.downvotes f + 1)
               now1 f).
  assert (Hsel1 : select_feedback fid d1 = Some f1).
  { assert (Hf' : select_feedback fid (with_votes (votes d ++ [v0]) d) = Some f)
      by exact Hf.
    unfold d1, counted, f1. destruct (VoteType_eqb (vd_voteType vd) up);
      rewrite (select_feedback_updated fid _ _ now1 _ f Hf'); reflexivity. }
  assert (Hadm1 : remove_admitted req d1 = Some (fid, f1)).
  { pose proof (cast_admitted_remove _ _ _ _ _ _ Hadm) as Hr.
    unfold remove_admitted in *.
    destruct (parseInt (params_id req) None) as [fid'|]; [|discriminate].
    destruct (fid' =? 0); [discriminate|].
    destruct (truthy (x_api_key (vr_headers req))) as [key|]; [|discriminate].
    destruct (select_feedback fid' d) as [f'|]; [|discriminate].
    assert (Hw : websites d1 = websites d)
      by (unfold d1, counted; destruct (VoteType_eqb _ up); reflexivity).
    destruct (find _ (websites d)) as [w|] eqn:Ew; [|discriminate].
    destruct (negb (Websites.isActive w)) eqn:Ea; [discriminate|].
    inversion Hr; subst fid' f'. rewrite Hsel1, Hw.
    change (Feedback.websiteId f1) with (Feedback.websiteId f).
    rewrite Ew, Ea. reflexivity. }
  destruct (vote_DELETE_admitted _ now2 _ _ _ Hadm1) as [_ H2].
  rewrite H2, remove_tail_run. fold ip.
  assert (Hfind : find (vote_conditions fid (x_voter_email (vr_headers req)) ip)
                    (votes d1) = Some v0).
  { rewrite Hvotes. unfold vote_conditions in *. rewrite Hem.
    apply find_app_none; [exact Hnone|].
    pose proof (vote_conditions_self fid (vd_voteType vd) (vd_voterEmail vd) ip
                  (next_id (map FeedbackVotes.id (votes d))) now1) as Hself.
    unfold vote_conditions in Hself. exact Hself. }
  rewrite Hfind. cbn [fst].
  assert (Hdel : votes (uncounted fid f1 v0 now2
                          (delete_vote (FeedbackVotes.id v0) d1)) = votes d).
  { unfold uncounted. 
    assert (Hd : votes (delete_vote (FeedbackVotes.id v0) d1) = votes d).
    { unfold delete_vote. cbn [votes with_votes]. rewrite Hvotes.
      apply delete_fresh_vote. subst v0. cbn [FeedbackVotes.id].
      apply next_id_fresh. }
    destruct (VoteType_eqb _ up); exact Hd. }
  assert (Hsel2 : select_feedback fid
                    (uncounted fid f1 v0 now2 (delete_vote (FeedbackVotes.id v0) d1))
                  = Some (Feedback.set_counts (Feedback.upvotes f)
                            (Feedback.downvotes f) now2 f)).
  { assert (Hsel1' : select_feedback fid (delete_vote (FeedbackVotes.id v0) d1)
                     = Some f1) by exact Hsel1.
    assert (Hty : FeedbackVotes.voteType v0 = vd_voteType vd) by reflexivity.
    unfold uncounted. rewrite Hty.
    destruct (VoteType_eqb (vd_voteType vd) up) eqn:Eu.
    - rewrite (select_feedback_updated fid _ _ now2 _ f1 Hsel1').
      replace (Feedback.upvotes f1 - 1) with (Feedback.upvotes f)
        by (unfold f1; rewrite ?Eu; rewrite upvotes_set_counts; lia).
      replace (Feedback.downvotes f1) with (Feedback.downvotes f)
        by (unfold f1; rewrite ?Eu; rewrite downvotes_set_counts; reflexivity).
      unfold f1. rewrite set_counts_twice. reflexivity.
    - rewrite (select_feedback_updated fid _ _ now2 _ f1 Hsel1').
      replace (Feedback.upvotes f1) with (Feedback.upvotes f)
        by (unfold f1; rewrite ?Eu; rewrite upvotes_set_counts; reflexivity).
      replace (Feedback.downvotes f1 - 1) with (Feedback.downvotes f)
        by (unfold f1; rewrite ?Eu; rewrite downvotes_set_counts; lia).
      unfold f1. rewrite set_counts_twice. reflexivity. }
  eexists. split; [|split; [exact Hdel|exact Hsel2]].
  f_equal. unfold counts_of. rewrite Hsel2.
  cbn [option_map Feedback.set_counts Feedback.upvotes Feedback.downvotes].
  rewrite !num_or_zero. reflexivity.
Qed.

Lemma cast_then_remove_restores_witness :
  exists d2,
    run (vote_DELETE (sample_vote "up" None) 300) sample_voted
    = (Ok {| status := 200; body := VoteData 0 0 |}, d2)
    /\ votes d2 = []
    /\ select_feedback 1 d2
       = Some (Feedback.set_counts 0 0 300 (sample_feedback 1 medium 0 100)).
Proof.
  exact (cast_then_remove_restores sample_email (sample_vote "up" None) 200 300
           sample_ledger sample_voted 1
           {| vd_voteType := up; vd_voterEmail := None |}
           (sample_feedback 1 medium 0 100)
           {| status := 200; body := VoteData 1 0 |}
           eq_refl eq_refl eq_refl eq_refl eq_refl).
Defined.

(** X4.  The unique index on (item, address) refuses a second voter from an
    address that already holds a vote on the item: an admitted cast whose
    lookup finds no vote, while a row of that item carries the caller's
    address, answers 500 and stores nothing. *)
Theorem cast_from_used_address_fails (zod_email : string -> bool)
    (req : VoteRequest) (now : Z) (d : DB) (fid : Z) (vd : Vote)
    (f : Feedback.row) (w : FeedbackVotes.row) :
  cast_admitted zod_email req d = Some (fid, vd, f) ->
  find (vote_conditions fid (vd_voterEmail vd)
          (fst (getClientInfo (vr_headers req)))) (votes d) = None ->
  In w (votes d) ->
  FeedbackVotes.feedbackId w = fid ->
  FeedbackVotes.voterIp w = fst (getClientInfo (vr_headers req)) ->
  run (vote_POST zod_email req now) d = (Ok internal_error, d).
Proof.
  intros Hadm Hnone Hin Hfid Hip. unfold run.
  destruct (vote_POST_admitted _ _ now _ _ _ _ Hadm) as [_ [H0 _]].
  rewrite H0, cast_tail_run, Hnone. unfold insert_vote.
  match goal with
  | |- context [existsb (vote_collides ?v) (votes d)] =>
      assert (E : existsb (vote_collides v) (votes d) = true)
  end.
  { apply existsb_exists. exists w. split; [assumption|].
    unfold vote_collides.
    cbn [FeedbackVotes.feedbackId FeedbackVotes.voterIp FeedbackVotes.voterEmail].
    rewrite Hfid, Hip, Z.eqb_refl, String.eqb_refl. reflexivity. }
  rewrite E. reflexivity.
Qed.

Lemma cast_from_used_address_fails_witness :
  run (vote_POST sample_email (sample_vote "up" (Some "bob@example.org")) 300)
      sample_voted
  = (Ok internal_error, sample_voted).
Proof.
  apply (cast_from_used_address_fails sample_email
           (sample_vote "up" (Some "bob@example.org")) 300 sample_voted 1
           {| vd_voteType := up; vd_voterEmail := Some "bob@example.org" |}
           (Feedback.set_counts 1 0 200 (sample_feedback 1 medium 0 100))
           {| FeedbackVotes.id := 1; FeedbackVotes.feedbackId := 1;
              FeedbackVotes.voterEmail := None;
              FeedbackVotes.voterIp := "203.0.113.7";
              FeedbackVotes.voteType := up; FeedbackVotes.createdAt := 200 |});
    [reflexivity | reflexivity | left; reflexivity | reflexivity | reflexivity].
Defined.

(** X5.  A removal is two writes as well: for an admitted removal that
    finds the voter's row, when the counter write fails after the delete,
    the answer is 500, the row is gone and every counter is as it was, so
    that from a consistent ledger the item's counters no longer agree with
    its votes. *)
Theorem removal_not_atomic (req : VoteRequest) (now : Z) (d : DB) (fid : Z)
    (f : Feedback.row) (ev : FeedbackVotes.row) (fs : Faults) :
  remove_admitted req d = Some (fid, f) ->
  find (vote_conditions fid (x_voter_email (vr_headers req))
          (fst (getClientInfo (vr_headers req)))) (votes d) = Some ev ->
  ledger_ok d ->
  exists d',
    vote_DELETE req now d (false :: false :: false :: false :: true :: fs)
    = (Ok internal_error, d', fs)
    /\ votes d'
       = filter (fun v => negb (FeedbackVotes.id v =? FeedbackVotes.id ev)) (votes d)
    /\ feedback d' = feedback d
    /\ (Feedback.upvotes f <> count_votes fid up (votes d')
        \/ Feedback.downvotes f <> count_votes fid down (votes d')).
Proof.
  intros Hadm Hev [Hnd Hc].
  destruct (vote_DELETE_admitted _ now _ _ _ Hadm) as [Hff _].
  rewrite Hff, remove_tail_faults, Hev.
  eexists. split; [reflexivity|]. split; [reflexivity|]. split; [reflexivity|].
  cbn [delete_vote votes with_votes].
  pose proof (remove_admitted_item _ _ _ _ Hadm) as Hf.
  apply select_feedback_some in Hf. destruct Hf as [Hfin Hfid].
  apply existing_vote_some in Hev. destruct Hev as [Hevin Hevfid].
  destruct (Hc f Hfin) as [Hu Hd]. rewrite Hfid in Hu, Hd.
  rewrite !count_votes_cnt in *. rewrite !cnt_delete by assumption.
  rewrite Hevfid, Z.eqb_refl. cbn [andb].
  destruct (FeedbackVotes.voteType ev); cbn [VoteType_eqb]; [left|right]; lia.
Qed.

Lemma removal_not_atomic_witness :
  exists d',
    vote_DELETE (sample_vote "up" None) 300 sample_voted
      [false; false; false; false; true]
    = (Ok internal_error, d', [])
    /\ votes d' = []
    /\ feedback d' = feedback sample_voted
    /\ (1 <> count_votes 1 up (votes d') \/ 0 <> count_votes 1 down (votes d')).
Proof.
  refine (removal_not_atomic (sample_vote "up" None) 300 sample_voted 1
            (Feedback.set_counts 1 0 200 (sample_feedback 1 medium 0 100))
            {| FeedbackVotes.id := 1; FeedbackVotes.feedbackId := 1;
               FeedbackVotes.voterEmail := None;
               FeedbackVotes.voterIp := "203.0.113.7";
               FeedbackVotes.voteType := up; FeedbackVotes.createdAt := 200 |}
            [] eq_refl eq_refl _).
  split.
  - repeat constructor. simpl. tauto.
  - intros g [<-|[]]. split; reflexivity.
Defined.

(** X6.  Under the unique indexes a removal is not repeatable: after a
    removal that answered 200, the same removal again answers 404 'Vote not
    found' and changes nothing. *)
Theorem remove_twice_is_not_found (req : VoteRequest) (now1 now2 : Z)
    (d d1 : DB) (fid : Z) (f : Feedback.row) (r1 : Response) :
  remove_admitted req d = Some (fid, f) ->
  votes_unique (votes d) = true ->
  run (vote_DELETE req now1) d = (Ok r1, d1) ->
  status r1 = 200 ->
  run (vote_DELETE req now2) d1 = (Ok (error_response 404 "Vote not found"), d1).
Proof.
  intros Hadm Hu Hrun Hs. unfold run in *.
  destruct (vote_DELETE_admitted _ now1 _ _ _ Hadm) as [_ H1].
  rewrite H1, remove_tail_run in Hrun. clear H1.
  set (ip := fst (getClientInfo (vr_headers req))) in *.
  set (em := x_voter_email (vr_headers req)) in *.
  destruct (find (vote_conditions fid em ip) (votes d)) as [ev|] eqn:Eev;
    cbn [fst] in Hrun; inversion Hrun; subst r1 d1; clear Hrun; [|discriminate].
  assert (Hadm1 : exists f1, remove_admitted req
                    (uncounted fid f ev now1 (delete_vote (FeedbackVotes.id ev) d))
                  = Some (fid, f1)).
  { unfold uncounted. destruct (VoteType_eqb _ up); eexists;
      (eapply remove_admitted_after;
       [ exact Hadm | reflexivity | reflexivity
       | intros g; apply set_counts_keeps ]). }
  destruct Hadm1 as [f1 Hadm1].
  destruct (vote_DELETE_admitted _ now2 _ _ _ Hadm1) as [_ H2].
  rewrite H2, remove_tail_run. fold ip em.
  assert (Hvotes : votes (uncounted fid f ev now1
                            (delete_vote (FeedbackVotes.id ev) d))
                   = filter (fun v => negb (FeedbackVotes.id v =? FeedbackVotes.id ev))
                       (votes d))
    by (unfold uncounted; destruct (VoteType_eqb _ up); reflexivity).
  rewrite Hvotes.
  assert (Hnone : find (vote_conditions fid em ip)
                    (filter (fun v => negb (FeedbackVotes.id v =? FeedbackVotes.id ev))
                       (votes d)) = None).
  { destruct (find _ (filter _ (votes d))) as [w|] eqn:Ew; [|reflexivity].
    exfalso. apply find_some in Ew. destruct Ew as [Hw Hp].
    apply filter_In in Hw. destruct Hw as [Hwin Hwid].
    pose proof (lookup_found_one fid em ip (votes d) ev Hu Eev) as Hone.
    apply find_some in Eev. destruct Eev as [Hevin Hevp].
    assert (Hw' : In w (filter (vote_conditions fid em ip) (votes d)))
      by (apply filter_In; auto).
    assert (He' : In ev (filter (vote_conditions fid em ip) (votes d)))
      by (apply filter_In; auto).
    destruct (filter (vote_conditions fid em ip) (votes d)) as [|x [|y l]];
      simpl in Hone; try discriminate.
    destruct Hw' as [<-|[]]. destruct He' as [<-|[]].
    rewrite Z.eqb_refl in Hwid. discriminate. }
  rewrite Hnone. reflexivity.
Qed.

Lemma remove_twice_is_not_found_witness :
  run (vote_DELETE (sample_vote "up" None) 400)
      (snd (run (vote_DELETE (sample_vote "up" None) 300) sample_voted))
  = (Ok (error_response 404 "Vote not found"),
     snd (run (vote_DELETE (sample_vote "up" None) 300) sample_voted)).
Proof.
  exact (remove_twice_is_not_found (sample_vote "up" None) 300 400 sample_voted _ 1
           (Feedback.set_counts 1 0 200 (sample_feedback 1 medium 0 100))
           {| status := 200; body := VoteData 0 0 |}
           eq_refl eq_refl eq_refl eq_refl).
Defined.

(* ------------------------------------------------------------------ *)
(** * Further properties of the submission route *)

(** The fault-free run of an admitted submission that is neither limited
    nor refused by a reference, table by table. *)
Lemma feedback_POST_stored ze zu gt req now d data w :
  submission_admitted ze zu req d = Some (data, w) ->
  match rate_limit_of w with
  | Some rl =>
      maxSubmissions rl
        <=? recent_count gt data (fst (getClientInfo (sr_headers req))) rl now d
  | None => false
  end = false ->
  category_ok data d = true ->
  exists row e,
    feedback_POST ze zu gt req now d []
    = (Ok {| status := 201; body := SubmitData (Feedback.id row) new now |},
       with_events (events d ++ [e]) (with_feedback (feedback d ++ [row]) d), [])
    /\ Feedback.id row = next_id (map Feedback.id (feedback d))
    /\ (Feedback.status row = new /\ Feedback.priority row = medium
        /\ Feedback.isPublic row = false
        /\ Feedback.upvotes row = 0 /\ Feedback.downvotes row = 0)
    /\ (Feedback.websiteId row = fs_websiteId data
        /\ Feedback.title row = fs_title data
        /\ Feedback.description row = fs_description data
        /\ Feedback.type row = fs_type data
        /\ Feedback.ipAddress row = Some (fst (getClientInfo (sr_headers req)))
        /\ Feedback.createdAt row = now)
    /\ AnalyticsEvents.eventType e = "feedback_submitted"
    /\ AnalyticsEvents.websiteId e = fs_websiteId data
    /\ option_map ev_feedbackId (AnalyticsEvents.eventData e) = Some (Feedback.id row)
    /\ option_map hasEmail (AnalyticsEvents.eventData e)
       = Some (match truthy (fs_email data) with Some _ => true | None => false end).
Proof.
  intros H Hl Hcat. unfold submission_admitted in H.
  unfold rate_limit_of, recent_count, category_ok in *.
  post_step.
  destruct (sr_json req) as [b|]; [|discriminate].
  destruct (feedbackSubmissionSchema ze zu b) as [data'|] eqn:Es; [|discriminate].
  destruct (truthy (x_api_key (sr_headers req))) as [key|]; [|discriminate].
  destruct (find _ (websites d)) as [w'|] eqn:Ew; [|discriminate].
  destruct (negb (Websites.isActive w')) eqn:Ea; [discriminate|].
  inversion H; subst data' w'; clear H.
  assert (Hsite : existsb (fun x => Websites.id x =? fs_websiteId data) (websites d)
                  = true).
  { apply find_some in Ew. destruct Ew as [Hin Hw]. apply andb_prop in Hw.
    apply existsb_exists. exists w. tauto. }
  destruct (Websites.settings w) as [st|] eqn:Est;
    [destruct (rateLimit st) as [rl|] eqn:Erl|];
    post_step; rewrite ?Hl;
    unfold insert_feedback, feedback_references_ok, insert_event;
    cbn [Feedback.websiteId Feedback.categoryId feedback websites with_feedback
         categories];
    rewrite Hsite; cbn [andb];
    (destruct (fs_categoryId data) as [c|];
     [destruct (c =? 0) eqn:Ec; cbn [orb] in Hcat; [|rewrite Hcat]|]);
    cbv beta iota zeta; cbn [websites with_feedback]; rewrite ?Hsite;
    cbv beta iota zeta;
    (do 2 eexists; split; [reflexivity|]; repeat split).
Qed.

Lemma feedback_POST_rejected ze zu gt req now d :
  submission_admitted ze zu req d = None ->
  exists r, feedback_POST ze zu gt req now d [] = (Ok r, d, []) /\ status r <> 201.
Proof.
  intros H. unfold submission_admitted in H. post_step.
  destruct (sr_json req) as [b|];
    [|eexists; split; [reflexivity|discriminate]].
  post_step.
  destruct (feedbackSubmissionSchema ze zu b) as [data|];
    [|eexists; split; [reflexivity|discriminate]].
  destruct (truthy (x_api_key (sr_headers req))) as [key|];
    [|eexists; split; [reflexivity|discriminate]].
  post_step.
  destruct (find _ (websites d)) as [w|];
    [|eexists; split; [reflexivity|discriminate]].
  destruct (negb (Websites.isActive w)); [|discriminate].
  eexists; split; [reflexivity|discriminate].
Qed.

Lemma feedback_POST_unchanged ze zu gt req now d r d' fs' :
  feedback_POST ze zu gt req now d [] = (Ok r, d', fs') -> status r <> 201 -> d' = d.
Proof.
  intros H Hs.
  destruct (submission_admitted ze zu req d) as [[data w]|] eqn:Hadm.
  - destruct (feedback_POST_admitted _ _ gt _ now _ _ _ Hadm) as [Hlim [Hacc Hrej]].
    cbv zeta in Hlim, Hacc, Hrej.
    destruct (match rate_limit_of w with Some rl => _ | None => false end) eqn:El.
    + rewrite (Hlim eq_refl) in H. inversion H; reflexivity.
    + destruct (category_ok data d) eqn:Ec.
      * destruct (Hacc eq_refl eq_refl)
          as [da [db [r0 [Hr [_ [[row [Hrow _]] _]]]]]].
        rewrite Hr in H. inversion H; subst. exfalso. apply Hs. reflexivity.
      * rewrite (Hrej eq_refl eq_refl) in H. inversion H; reflexivity.
  - destruct (feedback_POST_rejected _ _ gt _ now _ Hadm) as [r0 [Hr _]].
    rewrite Hr in H. inversion H; reflexivity.
Qed.

Lemma feedback_POST_completed ze zu gt req now d fs r d' fs' :
  feedback_POST ze zu gt req now d fs = (Ok r, d', fs') ->
  r = internal_error \/ feedback_POST ze zu gt req now d [] = (Ok r, d', []).
Proof.
  unfold feedback_POST, internal_error. apply try_catch_completed.
  regular_tac; first [ apply regular_verifyApiKey | apply regular_request_json ].
Qed.

(** X7.  An accepted submission stores exactly one feedback row and one
    analytics event and touches nothing else: the row takes a key no stored
    row has, which is the id of the answer, and starts as 'new', 'medium',
    not public, with both counters at 0, whatever the body says; the event
    is a 'feedback_submitted' of that website that carries the new key. *)
Theorem submission_stores_row_and_event (zod_email zod_url : string -> bool)
    (sql_date_gt : Z -> Z -> bool)
    (req : SubmitRequest) (now : Z) (d d1 : DB) (data : FeedbackSubmission)
    (w : Websites.row) (r1 : Response) :
  submission_admitted zod_email zod_url req d = Some (data, w) ->
  run (feedback_POST zod_email zod_url sql_date_gt req now) d = (Ok r1, d1) ->
  status r1 = 201 ->
  exists row e,
    feedback d1 = feedback d ++ [row]
    /\ events d1 = events d ++ [e]
    /\ (votes d1 = votes d /\ websites d1 = websites d
        /\ categories d1 = categories d)
    /\ body r1 = SubmitData (Feedback.id row) new now
    /\ ~ In (Feedback.id row) (map Feedback.id (feedback d))
    /\ (Feedback.status row = new /\ Feedback.priority row = medium
        /\ Feedback.isPublic row = false
        /\ Feedback.upvotes row = 0 /\ Feedback.downvotes row = 0)
    /\ AnalyticsEvents.eventType e = "feedback_submitted"
    /\ AnalyticsEvents.websiteId e = fs_websiteId data
    /\ option_map ev_feedbackId (AnalyticsEvents.eventData e)
       = Some (Feedback.id row).
Proof.
  intros Hadm Hrun Hs. unfold run in Hrun.
  destruct (feedback_POST_admitted _ _ sql_date_gt _ now _ _ _ Hadm) as [Hlim [_ Hrej]].
  cbv zeta in Hlim, Hrej.
  destruct (match rate_limit_of w with Some rl => _ | None => false end) eqn:El.
  { rewrite (Hlim eq_refl) in Hrun. cbn [fst] in Hrun. inversion Hrun; subst.
    discriminate. }
  destruct (category_ok data d) eqn:Ec.
  2:{ rewrite (Hrej eq_refl eq_refl) in Hrun. cbn [fst] in Hrun.
      inversion Hrun; subst. discriminate. }
  destruct (feedback_POST_stored _ _ sql_date_gt _ now _ _ _ Hadm El Ec)
    as [row [e [Hr [Hid [Hdef [_ [Het [Hew [Hef _]]]]]]]]].
  rewrite Hr in Hrun. cbn [fst] in Hrun. inversion Hrun; subst r1 d1; clear Hrun.
  exists row, e. repeat split; try tauto.
  rewrite Hid. apply next_id_fresh.
Qed.

Lemma submission_stores_row_and_event_witness :
  exists row e,
    feedback (snd (run (feedback_POST sample_email sample_url chronological sample_submission 100)
                     (sample_db None (sample_rows 3))))
    = feedback (sample_db None (sample_rows 3)) ++ [row]
    /\ events (snd (run (feedback_POST sample_email sample_url chronological sample_submission 100)
                      (sample_db None (sample_rows 3)))) = [] ++ [e]
    /\ (votes (snd (run (feedback_POST sample_email sample_url chronological sample_submission 100)
                      (sample_db None (sample_rows 3)))) = []
        /\ websites (snd (run (feedback_POST sample_email sample_url chronological
                                 sample_submission 100)
                            (sample_db None (sample_rows 3)))) = [sample_site None]
        /\ categories (snd (run (feedback_POST sample_email sample_url chronological
                                   sample_submission 100)
                              (sample_db None (sample_rows 3)))) = [])
    /\ SubmitData 4 new 100 = SubmitData (Feedback.id row) new 100
    /\ ~ In (Feedback.id row) (map Feedback.id (feedback (sample_db None (sample_rows 3))))
    /\ (Feedback.status row = new /\ Feedback.priority row = medium
        /\ Feedback.isPublic row = false
        /\ Feedback.upvotes row = 0 /\ Feedback.downvotes row = 0)
    /\ AnalyticsEvents.eventType e = "feedback_submitted"
    /\ AnalyticsEvents.websiteId e = 1
    /\ option_map ev_feedbackId (AnalyticsEvents.eventData e)
       = Some (Feedback.id row).
Proof.
  exact (submission_stores_row_and_event sample_email sample_url chronological sample_submission
           100 (sample_db None (sample_rows 3)) _ sample_submission_data
           (sample_site None) {| status := 201; body := SubmitData 4 new 100 |}
           eq_refl eq_refl eq_refl).
Defined.

(** X8.  Whatever the storage faults, a submission that is refused (answers
    neither 201 nor 500: a 400, 401, 403 or 429) has stored nothing. *)
Theorem submission_refusal_keeps_database (zod_email zod_url : string -> bool)
    (sql_date_gt : Z -> Z -> bool)
    (req : SubmitRequest) (now : Z) (d d' : DB) (fs fs' : Faults) (r : Response) :
  feedback_POST zod_email zod_url sql_date_gt req now d fs = (Ok r, d', fs') ->
  status r <> 201 -> status r <> 500 ->
  d' = d.
Proof.
  intros H H2 H5.
  destruct (feedback_POST_completed _ _ _ _ _ _ _ _ _ _ H) as [->|H'].
  - exfalso. apply H5. reflexivity.
  - eapply feedback_POST_unchanged; eauto.
Qed.

Lemma submission_refusal_keeps_database_witness :
  snd (fst (feedback_POST sample_email sample_url chronological sample_submission 6000000
              sample_limited_db [false; false; true]))
  = sample_limited_db.
Proof.
  apply (submission_refusal_keeps_database sample_email sample_url chronological
           sample_submission 6000000 sample_limited_db _ [false; false; true]
           [true] rate_limited);
    [reflexivity | discriminate | discriminate].
Defined.

(** X9.  The rate limit is keyed on the [x-forwarded-for] header the caller
    sends: an admitted submission to a website with a positive limit, sent
    with a non-empty [x-forwarded-for] value that no stored row carries as
    its address, is never answered 429; it is accepted with 201 however
    many rows other addresses have stored. *)
Theorem fresh_forwarded_address_is_not_limited (zod_email zod_url : string -> bool)
    (sql_date_gt : Z -> Z -> bool)
    (req : SubmitRequest) (now : Z) (d : DB) (data : FeedbackSubmission)
    (w : Websites.row) (rl : RateLimit) (a : string) :
  submission_admitted zod_email zod_url req d = Some (data, w) ->
  rate_limit_of w = Some rl ->
  0 < maxSubmissions rl ->
  x_forwarded_for (sr_headers req) = Some a ->
  a <> "" ->
  (forall g, In g (feedback d) -> Feedback.ipAddress g <> Some a) ->
  category_ok data d = true ->
  exists r d',
    run (feedback_POST zod_email zod_url sql_date_gt req now) d = (Ok r, d')
    /\ status r = 201
    /\ List.length (feedback d') = S (List.length (feedback d)).
Proof.
  intros Hadm Hrl Hpos Hx Ha Hfresh Hcat.
  assert (Hip : fst (getClientInfo (sr_headers req)) = a).
  { unfold getClientInfo. cbn [fst]. rewrite Hx. unfold truthy.
    destruct (a =? "")%string eqn:E; [|reflexivity].
    apply String.eqb_eq in E. contradiction. }
  destruct (feedback_POST_admitted _ _ sql_date_gt _ now _ _ _ Hadm) as [_ [Hacc _]].
  rewrite Hrl in Hacc. cbv zeta in Hacc. rewrite Hip in Hacc.
  assert (Hz : recent_count sql_date_gt data a rl now d = 0).
  { unfold recent_count.
    replace (filter _ (feedback d)) with (@nil Feedback.row); [reflexivity|].
    symmetry. apply find_none_filter.
    destruct (find _ (feedback d)) as [g|] eqn:Eg; [|reflexivity].
    exfalso. apply find_some in Eg. destruct Eg as [Hin Hg].
    unfold recent_submission in Hg.
    apply andb_prop in Hg. destruct Hg as [Hg _].
    apply andb_prop in Hg. destruct Hg as [_ Hi].
    unfold option_string_eqb in Hi.
    destruct (Feedback.ipAddress g) as [i|] eqn:Ei; [|discriminate].
    apply String.eqb_eq in Hi. subst i. exact (Hfresh g Hin Ei). }
  rewrite Hz in Hacc.
  destruct (Hacc (proj2 (Z.leb_gt _ _) Hpos) Hcat)
    as [d1 [d2 [r [Hrun [_ [[row [Hr [Hrow _]]] [Hfb _]]]]]]].
  exists r, d2. unfold run. rewrite Hrun. cbn [fst].
  split; [reflexivity|]. split; [rewrite Hr; reflexivity|].
  rewrite Hfb, Hrow, length_app. simpl. lia.
Qed.

Definition sample_forwarded (a : string) : SubmitRequest :=
  {| sr_headers := {| x_api_key := Some "key-1"; x_forwarded_for := Some a;
                      x_real_ip := Some "203.0.113.7"; user_agent := Some "ua";
                      x_voter_email := None |};
     sr_json := sr_json sample_submission |}.

Lemma fresh_forwarded_address_is_not_limited_witness :
  exists r d',
    run (feedback_POST sample_email sample_url chronological (sample_forwarded "198.51.100.9")
           6000000) sample_limited_db = (Ok r, d')
    /\ status r = 201
    /\ List.length (feedback d') = 4%nat.
Proof.
  apply (fresh_forwarded_address_is_not_limited sample_email sample_url chronological
           (sample_forwarded "198.51.100.9") 6000000 sample_limited_db
           sample_submission_data (sample_site (Some sample_limit)) sample_limit
           "198.51.100.9");
    try reflexivity; try discriminate.
  intros g Hg.
  repeat (destruct Hg as [<-|Hg]; [discriminate|]). destruct Hg.
Defined.

(* ------------------------------------------------------------------ *)
(** * Further properties of the listing and of src/lib/utils.ts *)

(** A computation that never writes: whatever the faults, the database
    comes back as it was. *)
Definition readonly {A} (m : M A) : Prop :=
  forall d fs, snd (fst (m d fs)) = d.

Lemma readonly_ret {A} (a : A) : readonly (ret a).
Proof. intros d fs. reflexivity. Qed.

Lemma readonly_throw {A} : readonly (@throw A).
Proof. intros d fs. reflexivity. Qed.

Lemma readonly_query {A} (q : DB -> A) : readonly (query q).
Proof. intros d fs. unfold query, stmt. destruct fs as [|[|] fs]; reflexivity. Qed.

Lemma readonly_bind {A B} (m : M A) (k : A -> M B) :
  readonly m -> (forall a, readonly (k a)) -> readonly (bind m k).
Proof.
  intros Hm Hk d fs. unfold bind. specialize (Hm d fs).
  destruct (m d fs) as [[[a|] d1] fs1]; cbn [fst snd] in *; subst d1;
    [apply Hk|reflexivity].
Qed.

Lemma readonly_try_catch {A} (body : M A) (h : A) :
  readonly body -> readonly (try_catch body h).
Proof.
  intros Hb d fs. unfold try_catch. specialize (Hb d fs).
  destruct (body d fs) as [[[a|] d1] fs1]; cbn [fst snd] in *; assumption.
Qed.

Ltac readonly_step :=
  first
    [ apply readonly_ret
    | apply readonly_throw
    | apply readonly_query
    | apply readonly_try_catch
    | apply readonly_bind; [ | intros ]
    | match goal with
      | |- readonly (match ?x with _ => _ end) => destruct x
      | |- readonly (if ?x then _ else _) => destruct x
      end ].

Ltac readonly_tac := repeat readonly_step.

Lemma readonly_verifyApiKey websiteId key : readonly (verifyApiKey websiteId key).
Proof. unfold verifyApiKey. readonly_tac. Qed.

Lemma try_catch_answers {A} (body : M A) (h : A) d fs :
  readonly body -> exists r fs', try_catch body h d fs = (Ok r, d, fs').
Proof.
  intros Hb. specialize (Hb d fs). unfold try_catch.
  destruct (body d fs) as [[[a|] d1] fs1]; cbn [fst snd] in Hb; subst d1; eauto.
Qed.

(** X10.  The listing never writes and never throws: under every fault
    schedule it answers, and the database is as it was. *)
Theorem listing_is_read_only (req : ListRequest) (d : DB) (fs : Faults) :
  exists r fs', feedback_GET req d fs = (Ok r, d, fs').
Proof.
  unfold feedback_GET. apply try_catch_answers.
  readonly_tac; apply readonly_verifyApiKey.
Qed.

Lemma FeedbackStatus_eqb_eq a b : FeedbackStatus_eqb a b = true -> a = b.
Proof. destruct a, b; simpl; congruence. Qed.

Lemma FeedbackType_eqb_eq a b : FeedbackType_eqb a b = true -> a = b.
Proof. destruct a, b; simpl; congruence. Qed.

Lemma matches_filters_sound wid q cat f :
  matches_filters wid q cat f = true ->
  Feedback.websiteId f = wid
  /\ (forall s, fq_status q = Some s -> Feedback.status f = s)
  /\ (forall t, fq_type q = Some t -> Feedback.type f = t)
  /\ (fq_public q = Some true -> Feedback.isPublic f = true)
  /\ (forall c, cat = Some c ->
        Feedback.categoryId f = Some (FeedbackCategories.id c)).
Proof.
  unfold matches_filters. intros H.
  apply andb_prop in H. destruct H as [H Hc].
  apply andb_prop in H. destruct H as [H Hp].
  apply andb_prop in H. destruct H as [H Ht].
  apply andb_prop in H. destruct H as [Hw Hs].
  apply Z.eqb_eq in Hw. repeat split; auto.
  - intros s E. rewrite E in Hs. now apply FeedbackStatus_eqb_eq.
  - intros t E. rewrite E in Ht. now apply FeedbackType_eqb_eq.
  - intros E. rewrite E in Hp. exact Hp.
  - intros c E. rewrite E in Hc. unfold option_Z_eqb in Hc.
    destruct (Feedback.categoryId f); [|discriminate].
    apply Z.eqb_eq in Hc. congruence.
Qed.

(** X11.  Every item of an admitted listing is a stored feedback row that
    passes all the filters of the query at once: it belongs to the
    requesting website, has the status and the type asked for, and is
    public when [public=true] is asked. *)
Theorem listing_items_pass_all_filters (req : ListRequest) (d : DB) (wid : Z)
    (q : FeedbackQuery) (r : Response) (d' : DB) (data : list Item)
    (pg : Pagination) :
  list_admitted req d = Some (wid, q) ->
  run (feedback_GET req) d = (Ok r, d') ->
  body r = ListData data pg ->
  Forall (fun it =>
            (exists f, In f (feedback d) /\ it = to_item d f)
            /\ it_websiteId it = wid
            /\ (forall s, fq_status q = Some s -> it_status it = s)
            /\ (forall t, fq_type q = Some t -> it_type it = t)
            /\ (fq_public q = Some true -> it_isPublic it = true)) data.
Proof.
  intros Hadm Hrun Hb. unfold run in Hrun.
  rewrite (feedback_GET_admitted _ _ _ _ Hadm) in Hrun. cbn [fst] in Hrun.
  inversion Hrun; subst r d'; clear Hrun.
  cbn [list_response body] in Hb. inversion Hb; subst data pg; clear Hb.
  apply Forall_forall. intros it Hit. apply in_map_iff in Hit.
  destruct Hit as [f [<- Hf]].
  apply In_sql_page, order_by_In in Hf. unfold list_matches in Hf.
  apply filter_In in Hf. destruct Hf as [Hin Hm].
  rewrite resolved_conditions_matches in Hm.
  apply matches_filters_sound in Hm. destruct Hm as [Hw [Hs [Ht [Hp _]]]].
  cbn [to_item it_websiteId it_status it_type it_isPublic].
  repeat split; eauto.
Qed.

Lemma listing_items_pass_all_filters_witness :
  Forall (fun it =>
            (exists f, In f (feedback sample_priorities)
                       /\ it = to_item sample_priorities f)
            /\ it_websiteId it = 1
            /\ (forall s, None = Some s -> it_status it = s)
            /\ (forall t, None = Some t -> it_type it = t)
            /\ (None = Some true -> it_isPublic it = true))
    (map (to_item sample_priorities)
       [sample_feedback 3 urgent 2 300; sample_feedback 1 low 0 100;
        sample_feedback 2 high 5 200]).
Proof.
  exact (listing_items_pass_all_filters
           (sample_list None None (Some "priority")) sample_priorities 1
           {| fq_status := None; fq_type := None; fq_category := None;
              fq_limit := 10; fq_offset := 0; fq_sort := SortPriority;
              fq_public := None |}
           _ _ _ _ eq_refl eq_refl eq_refl).
Defined.

(** A request with its [limit], [offset] and [sort] parameters replaced. *)
Definition set_paging (l o s : option string) (req : ListRequest) : ListRequest :=
  {| lr_headers := lr_headers req;
     searchParams :=
       {| sp_websiteId := sp_websiteId (searchParams req);
          sp_status := sp_status (searchParams req);
          sp_type := sp_type (searchParams req);
          sp_category := sp_category (searchParams req);
          sp_limit := l;
          sp_offset := o;
          sp_sort := s;
          sp_public := sp_public (searchParams req) |} |}.

Lemma list_admitted_filters req d wid q :
  list_admitted req d = Some (wid, q) ->
  parseInt (or_else (sp_websiteId (searchParams req)) "0") (Some 10) = Some wid
  /\ optional_enum parse_FeedbackStatus (truthy (sp_status (searchParams req)))
     = Some (fq_status q)
  /\ optional_enum parse_FeedbackType (truthy (sp_type (searchParams req)))
     = Some (fq_type q)
  /\ fq_category q = truthy (sp_category (searchParams req))
  /\ fq_public q
     = option_map (fun val => (val =? "true")%string)
         (truthy (sp_public (searchParams req))).
Proof.
  unfold list_admitted. intros H.
  destruct (parseInt _ (Some 10)) as [wid'|]; [|discriminate].
  destruct (wid' =? 0); [discriminate|].
  destruct (truthy _) as [key|]; [|discriminate].
  destruct (find _ _) as [w|]; [|discriminate].
  destruct (negb _); [discriminate|].
  destruct (feedbackQuerySchema _) as [q'|] eqn:Eq; [|discriminate].
  inversion H; subst wid' q'. unfold feedbackQuerySchema in Eq.
  cbn [query_input qi_status qi_type qi_category qi_public] in Eq.
  destruct (optional_enum parse_FeedbackStatus _); [|discriminate].
  destruct (optional_enum parse_FeedbackType _); [|discriminate].
  destruct (parse_SortKey _); [|discriminate].
  destruct (_ && _); [|discriminate]. inversion Eq; subst q. repeat split.
Qed.

(** X12.  The total a listing reports does not depend on its page or its
    order: two admitted listings that differ in [limit], [offset] and
    [sort] only report the same total. *)
Theorem listing_total_ignores_paging (req : ListRequest) (d : DB)
    (l o s : option string) (wid wid' : Z) (q q' : FeedbackQuery)
    (r r' : Response) (d1 d2 : DB) (data data' : list Item)
    (pg pg' : Pagination) :
  list_admitted req d = Some (wid, q) ->
  list_admitted (set_paging l o s req) d = Some (wid', q') ->
  run (feedback_GET req) d = (Ok r, d1) ->
  body r = ListData data pg ->
  run (feedback_GET (set_paging l o s req)) d = (Ok r', d2) ->
  body r' = ListData data' pg' ->
  total pg = total pg'.
Proof.
  intros Hadm Hadm' Hrun Hb Hrun' Hb'. unfold run in *.
  rewrite (feedback_GET_admitted _ _ _ _ Hadm) in Hrun.
  rewrite (feedback_GET_admitted _ _ _ _ Hadm') in Hrun'.
  cbn [fst] in *. inversion Hrun; subst r d1. inversion Hrun'; subst r' d2.
  cbn [list_response body] in Hb, Hb'. inversion Hb; subst. inversion Hb'; subst.
  cbn [total].
  destruct (list_admitted_filters _ _ _ _ Hadm) as [Hw [Hs [Ht [Hc Hp]]]].
  destruct (list_admitted_filters _ _ _ _ Hadm') as [Hw' [Hs' [Ht' [Hc' Hp']]]].
  cbn [set_paging searchParams sp_websiteId sp_status sp_type sp_category
       sp_public] in *.
  assert (wid' = wid) by congruence. subst wid'.
  assert (Es : fq_status q' = fq_status q) by congruence.
  assert (Et : fq_type q' = fq_type q) by congruence.
  assert (Ec : fq_category q' = fq_category q) by congruence.
  assert (Ep : fq_public q' = fq_public q) by congruence.
  f_equal. f_equal. unfold list_matches. apply filter_ext. intros f.
  rewrite !resolved_conditions_matches.
  unfold resolved_category, matches_filters. rewrite Es, Et, Ec, Ep. reflexivity.
Qed.

Lemma listing_total_ignores_paging_witness :
  total {| total := 25; page := 1; limit := 10; totalPages := 3 |}
  = total {| total := 25; page := 5; limit := 3; totalPages := 9 |}.
Proof.
  exact (listing_total_ignores_paging (sample_list None None None)
           (sample_db None (sample_rows 25)) (Some "3") (Some "12") (Some "oldest")
           1 1
           {| fq_status := None; fq_type := None; fq_category := None;
              fq_limit := 10; fq_offset := 0; fq_sort := SortNewest;
              fq_public := None |}
           {| fq_status := None; fq_type := None; fq_category := None;
              fq_limit := 3; fq_offset := 12; fq_sort := SortOldest;
              fq_public := None |}
           _ _ _ _ _ _ _ _ eq_refl eq_refl eq_refl eq_refl eq_refl eq_refl).
Defined.

Lemma schema_limit_out_of_range req s n :
  parseInt s None = Some n -> n < 0 \/ 100 < n ->
  feedbackQuerySchema (query_input (searchParams (set_limit (Some s) req))) = None.
Proof.
  intros Hs Hn.
  assert (Hne : (s =? "")%string = false).
  { destruct (s =? "")%string eqn:E; [|reflexivity].
    apply String.eqb_eq in E. subst s. rewrite parseInt_empty in Hs. discriminate. }
  unfold feedbackQuerySchema, query_input, set_limit.
  cbn [searchParams sp_status sp_type sp_category sp_limit sp_offset sp_sort
       sp_public qi_status qi_type qi_category qi_limit qi_offset qi_sort qi_public].
  rewrite or_else_some, Hne, Hs.
  destruct (optional_enum _ _); [|reflexivity].
  destruct (optional_enum _ _); [|reflexivity].
  destruct (parse_SortKey _); [|reflexivity].
  replace ((1 <=? num_or (Some n) 10) && (num_or (Some n) 10 <=? 100)) with false;
    [reflexivity|].
  unfold num_or. destruct (n =? 0) eqn:E; [apply Z.eqb_eq in E; lia|].
  symmetry. apply andb_false_iff. destruct Hn; [left; apply Z.leb_gt|right; apply Z.leb_gt]; lia.
Qed.

Lemma schema_offset_negative req s n :
  parseInt s None = Some n -> n < 0 ->
  feedbackQuerySchema (query_input (searchParams (set_offset (Some s) req))) = None.
Proof.
  intros Hs Hn.
  assert (Hne : (s =? "")%string = false).
  { destruct (s =? "")%string eqn:E; [|reflexivity].
    apply String.eqb_eq in E. subst s. rewrite parseInt_empty in Hs. discriminate. }
  unfold feedbackQuerySchema, query_input, set_offset.
  cbn [searchParams sp_status sp_type sp_category sp_limit sp_offset sp_sort
       sp_public qi_status qi_type qi_category qi_limit qi_offset qi_sort qi_public].
  rewrite (or_else_some s), Hne, Hs.
  destruct (optional_enum _ _); [|reflexivity].
  destruct (optional_enum _ _); [|reflexivity].
  destruct (parse_SortKey _); [|reflexivity].
  replace (0 <=? num_or (Some n) 0) with false;
    [rewrite andb_false_r; reflexivity|].
  unfold num_or. destruct (n =? 0) eqn:E; [apply Z.eqb_eq in E; lia|].
  symmetry. apply Z.leb_gt. lia.
Qed.

Lemma list_outcome_schema_none req d :
  feedbackQuerySchema (query_input (searchParams req)) = None ->
  status (list_outcome req d) <> 200.
Proof.
  intros H. unfold list_outcome. rewrite H.
  destruct (parseInt _ (Some 10)) as [wid|]; [|discriminate].
  destruct (wid =? 0); [discriminate|].
  destruct (truthy _); [|discriminate].
  destruct (find _ _) as [w|]; [|discriminate].
  destruct (negb _); discriminate.
Qed.

(** X13.  The bounds of the listing are enforced on what the text parses
    to: a [limit] that parses to a negative number or to more than 100, or
    an [offset] that parses to a negative number, is never answered 200. *)
Theorem listing_bounds_are_enforced (req : ListRequest) (d : DB) (s : string)
    (n : Z) :
  parseInt s None = Some n ->
  (n < 0 \/ 100 < n ->
   forall r d', run (feedback_GET (set_limit (Some s) req)) d = (Ok r, d') ->
                status r <> 200)
  /\ (n < 0 ->
      forall r d', run (feedback_GET (set_offset (Some s) req)) d = (Ok r, d') ->
                   status r <> 200).
Proof.
  intros Hs. split.
  - intros Hn r d' Hrun. unfold run in Hrun. rewrite feedback_GET_run in Hrun.
    cbn [fst] in Hrun. inversion Hrun; subst.
    apply list_outcome_schema_none. eapply schema_limit_out_of_range; eauto.
  - intros Hn r d' Hrun. unfold run in Hrun. rewrite feedback_GET_run in Hrun.
    cbn [fst] in Hrun. inversion Hrun; subst.
    apply list_outcome_schema_none. eapply schema_offset_negative; eauto.
Qed.

Lemma listing_bounds_are_enforced_witness :
  (status (match fst (run (feedback_GET (set_limit (Some "101")
                                           (sample_list None None None)))
                        (sample_db None (sample_rows 3))) with
           | Ok r => r
           | Thrown => internal_error
           end) =? 200) = false.
Proof.
  apply Z.eqb_neq.
  refine (proj1 (listing_bounds_are_enforced (sample_list None None None)
                   (sample_db None (sample_rows 3)) "101" 101 eq_refl)
            _ _ (sample_db None (sample_rows 3)) eq_refl).
  right. reflexivity.
Defined.

(** X14.  [logAnalyticsEvent] is best effort: under every fault schedule it
    returns normally and leaves every table but the events as it was; when
    its insert fails nothing is stored, and when it does not and the website
    exists, exactly one event of the given type and website is appended. *)
Theorem logAnalyticsEvent_never_throws (websiteId : Z) (eventType : string)
    (eventData : option SubmittedEvent) (h : Headers) (now : Z) (d : DB)
    (fs : Faults) :
  exists d' fs',
    logAnalyticsEvent websiteId eventType eventData h now d fs = (Ok tt, d', fs')
    /\ (websites d' = websites d /\ categories d' = categories d
        /\ feedback d' = feedback d /\ votes d' = votes d)
    /\ (hd false fs = true -> d' = d)
    /\ (hd false fs = false ->
        existsb (fun w => Websites.id w =? websiteId) (websites d) = true ->
        exists e,
          events d' = events d ++ [e]
          /\ AnalyticsEvents.eventType e = eventType
          /\ AnalyticsEvents.websiteId e = websiteId
          /\ AnalyticsEvents.eventData e = eventData
          /\ AnalyticsEvents.ipAddress e = Some (fst (getClientInfo h))).
Proof.
  unfold logAnalyticsEvent, try_log, try_catch, stmt, insert_event.
  destruct fs as [|[|] fs]; cbn [hd];
    destruct (existsb _ (websites d)) eqn:E;
    do 2 eexists; (split; [reflexivity|]);
    (split; [repeat split|]); (split; [try discriminate; reflexivity|]);
    intros; try discriminate;
    eexists; repeat split.
Qed.

Lemma regular_getPublicFeedback wid options : regular (getPublicFeedback wid options).
Proof. unfold getPublicFeedback. regular_tac. Qed.

(** The rows [getPublicFeedback] matches. *)
Definition public_matches (wid : Z) (options : PublicOptions) (d : DB)
  : list Feedback.row :=
  filter (fun f =>
            (Feedback.websiteId f =? wid) && Feedback.isPublic f
            && match truthy (po_type options) with
               | Some t => type_is t f
               | None => true
               end
            && match truthy (po_category options) with
               | Some slug =>
                   match select_category wid slug d with
                   | Some c => option_Z_eqb (Feedback.categoryId f)
                                 (FeedbackCategories.id c)
                   | None => true
                   end
               | None => true
               end) (feedback d).

Lemma eqb_true_r b : Bool.eqb b true = b.
Proof. destruct b; reflexivity. Qed.

Lemma getPublicFeedback_run wid options d :
  getPublicFeedback wid options d []
  = (Ok (map (to_public_item d)
           (sql_limit match po_limit options with Some l => l | None => 10 end
              (sql_offset match po_offset options with Some o => o | None => 0 end
                 (order_by
                    (public_orderBy
                       match po_sort options with Some s => s | None => PublicNewest end)
                    (public_matches wid options d))))), d, []).
Proof.
  unfold getPublicFeedback, public_matches.
  cbv beta iota zeta delta [bind query stmt ret].
  destruct (truthy (po_category options)) as [slug|];
    cbv beta iota zeta delta [bind query stmt ret];
    [destruct (select_category wid slug d) as [c|]|];
    cbv beta iota zeta; do 7 f_equal; apply filter_ext; intros f;
    rewrite ?and_all_app; unfold and_all;
    destruct (truthy (po_type options)); cbn [forallb app];
    rewrite ?eqb_true_r, ?andb_true_r, ?andb_assoc, ?andb_true_r; reflexivity.
Qed.

(** X15.  [getPublicFeedback] never returns private feedback or another
    website's: whatever the faults, when it returns, the database is as it
    was and every item comes from a stored row of the given website that is
    public (and of the type asked for, when one is given); with no [limit]
    it returns at most 10 items, with a [limit] of [l >= 0] at most [l]. *)
Theorem public_feedback_is_public (wid : Z) (options : PublicOptions) (d d' : DB)
    (fs fs' : Faults) (items : list PublicItem) :
  getPublicFeedback wid options d fs = (Ok items, d', fs') ->
  d' = d
  /\ Forall (fun it =>
       exists f, In f (feedback d) /\ it = to_public_item d f
                 /\ Feedback.websiteId f = wid /\ Feedback.isPublic f = true
                 /\ forall t, truthy (po_type options) = Some t ->
                      parse_FeedbackType t = Some (Feedback.type f)) items
  /\ (po_limit options = None -> (List.length items <= 10)%nat)
  /\ (forall l, po_limit options = Some l -> 0 <= l ->
        Z.of_nat (List.length items) <= l).
Proof.
  intros H. apply regular_getPublicFeedback in H.
  rewrite getPublicFeedback_run in H. inversion H; subst items d'; clear H.
  split; [reflexivity|]. split; [|split].
  - apply Forall_forall. intros it Hit. apply in_map_iff in Hit.
    destruct Hit as [f [<- Hf]]. apply In_sql_page, order_by_In in Hf.
    unfold public_matches in Hf. apply filter_In in Hf. destruct Hf as [Hin Hm].
    apply andb_prop in Hm. destruct Hm as [Hm _].
    apply andb_prop in Hm. destruct Hm as [Hm Ht].
    apply andb_prop in Hm. destruct Hm as [Hw Hp]. apply Z.eqb_eq in Hw.
    exists f. repeat split; auto.
    intros t Et. rewrite Et in Ht. unfold type_is in Ht.
    destruct (parse_FeedbackType t) as [ty|]; [|discriminate].
    apply FeedbackType_eqb_eq in Ht. congruence.
  - intros Hl. rewrite Hl, length_map. unfold sql_limit. cbn [Z.ltb Z.compare].
    rewrite length_firstn. change (Z.to_nat 10) with 10%nat. lia.
  - intros l Hl Hpos. rewrite Hl, length_map. unfold sql_limit.
    destruct (l <? 0) eqn:E; [apply Z.ltb_lt in E; lia|].
    rewrite length_firstn. lia.
Qed.

Definition sample_mixed : DB :=
  {| websites := [sample_site None]; categories := [sample_category];
     feedback := [sample_feedback 1 low 0 100;
                  Feedback.set_counts 0 0 200
                    {| Feedback.id := 2; Feedback.websiteId := 1;
                       Feedback.categoryId := None; Feedback.type := feature;
                       Feedback.status := new; Feedback.priority := medium;
                       Feedback.title := "private"; Feedback.description := "d";
                       Feedback.email := None; Feedback.name := None;
                       Feedback.userAgent := None; Feedback.url := None;
                       Feedback.ipAddress := None; Feedback.metadata := None;
                       Feedback.isPublic := false; Feedback.upvotes := 0;
                       Feedback.downvotes := 0; Feedback.createdAt := 200;
                       Feedback.updatedAt := 200 |};
                  sample_feedback 3 urgent 2 300];
     votes := []; events := [] |}.

Definition sample_options (s : option PublicSort) : PublicOptions :=
  {| po_limit := None; po_offset := None; po_type := None; po_category := None;
     po_sort := s |}.

Lemma public_feedback_is_public_witness :
  sample_mixed = sample_mixed
  /\ Forall (fun it =>
       exists f, In f (feedback sample_mixed) /\ it = to_public_item sample_mixed f
                 /\ Feedback.websiteId f = 1 /\ Feedback.isPublic f = true
                 /\ forall t, @None string = Some t ->
                      parse_FeedbackType t = Some (Feedback.type f))
       (map (to_public_item sample_mixed)
          [sample_feedback 3 urgent 2 300; sample_feedback 1 low 0 100])
  /\ (@None Z = None ->
      (List.length (map (to_public_item sample_mixed)
          [sample_feedback 3 urgent 2 300; sample_feedback 1 low 0 100]) <= 10)%nat)
  /\ (forall l, @None Z = Some l -> 0 <= l ->
        Z.of_nat (List.length (map (to_public_item sample_mixed)
          [sample_feedback 3 urgent 2 300; sample_feedback 1 low 0 100])) <= l).
Proof.
  exact (public_feedback_is_public 1 (sample_options None) sample_mixed
           sample_mixed [false; false] [false] _ eq_refl).
Defined.

(** X16.  In [getPublicFeedback] the sort 'oldest' orders like 'newest':
    its items come newest first (creation time descending), and for every
    option set the call with 'oldest' is the call with 'newest'. *)
Theorem public_oldest_is_newest_first (wid : Z) (options : PublicOptions)
    (d d' : DB) (fs fs' : Faults) (items : list PublicItem) :
  po_sort options = Some PublicOldest ->
  getPublicFeedback wid options d fs = (Ok items, d', fs') ->
  StronglySorted (fun a b => pi_createdAt b <= pi_createdAt a) items
  /\ getPublicFeedback wid options
     = getPublicFeedback wid
         {| po_limit := po_limit options; po_offset := po_offset options;
            po_type := po_type options; po_category := po_category options;
            po_sort := Some PublicNewest |}.
Proof.
  intros Hs H. split.
  - apply regular_getPublicFeedback in H.
    rewrite getPublicFeedback_run in H. inversion H; subst items d'; clear H.
    rewrite Hs. cbn [public_orderBy]. apply sorted_page; unfold desc; intros;
      rewrite ?Z.leb_le in *; cbn [to_public_item pi_createdAt]; lia.
  - unfold getPublicFeedback. cbn [po_limit po_offset po_type po_category po_sort].
    rewrite Hs. reflexivity.
Qed.

Lemma public_oldest_is_newest_first_witness :
  StronglySorted (fun a b => pi_createdAt b <= pi_createdAt a)
    (map (to_public_item sample_mixed)
       [sample_feedback 3 urgent 2 300; sample_feedback 1 low 0 100])
  /\ getPublicFeedback 1 (sample_options (Some PublicOldest))
     = getPublicFeedback 1
         {| po_limit := None; po_offset := None; po_type := None;
            po_category := None; po_sort := Some PublicNewest |}.
Proof.
  exact (public_oldest_is_newest_first 1 (sample_options (Some PublicOldest))
           sample_mixed sample_mixed [] [] _ eq_refl eq_refl).
Defined.

(** X17.  [verifyApiKey] gives a website only when a stored website has
    that id and that key and is active, and it never writes; without
    faults, when every stored website with that id and key is inactive (or
    there is none), it gives [null]. *)
Theorem verifyApiKey_sound (websiteId : Z) (key : string) (d : DB) (fs : Faults) :
  (forall w d' fs',
      verifyApiKey websiteId key d fs = (Ok (Some w), d', fs') ->
      d' = d /\ In w (websites d) /\ Websites.id w = websiteId
      /\ Websites.apiKey w = key /\ Websites.isActive w = true)
  /\ ((forall w, In w (websites d) -> Websites.id w = websiteId ->
         Websites.apiKey w = key -> Websites.isActive w = false) ->
      run (verifyApiKey websiteId key) d = (Ok None, d)).
Proof.
  split.
  - intros w d' fs' H. unfold verifyApiKey, bind, query, stmt, ret in H.
    destruct fs as [|[|] fs]; try discriminate;
      (destruct (find _ (websites d)) as [w0|] eqn:E; [|discriminate]);
      (destruct (negb (Websites.isActive w0)) eqn:Ea; [discriminate|]);
      inversion H; subst; apply find_some in E; destruct E as [Hin Hw];
      apply andb_prop in Hw; destruct Hw as [Hi Hk];
      apply Z.eqb_eq in Hi; apply String.eqb_eq in Hk;
      apply negb_false_iff in Ea; auto.
  - intros Hall. unfold run, verifyApiKey, bind, query, stmt, ret.
    destruct (find _ (websites d)) as [w0|] eqn:E; [|reflexivity].
    apply find_some in E. destruct E as [Hin Hw].
    apply andb_prop in Hw. destruct Hw as [Hi Hk].
    apply Z.eqb_eq in Hi. apply String.eqb_eq in Hk.
    rewrite (Hall w0 Hin Hi Hk). reflexivity.
Qed.

(** X18.  [getClientInfo] never yields an empty address or user agent: the
    address is the [x-forwarded-for] header when it is not empty, else the
    [x-real-ip] header when it is not empty, else 'unknown'; the user agent
    is the header when it is not empty, else 'unknown'. *)
Theorem getClientInfo_fallbacks (h : Headers) :
  fst (getClientInfo h) <> "" /\ snd (getClientInfo h) <> ""
  /\ (forall a, truthy (x_forwarded_for h) = Some a -> fst (getClientInfo h) = a)
  /\ (forall a, truthy (x_forwarded_for h) = None ->
                truthy (x_real_ip h) = Some a -> fst (getClientInfo h) = a)
  /\ (truthy (x_forwarded_for h) = None -> truthy (x_real_ip h) = None ->
      fst (getClientInfo h) = "unknown")
  /\ (truthy (user_agent h) = None -> snd (getClientInfo h) = "unknown").
Proof.
  assert (Ht : forall x s, truthy x = Some s -> s <> "").
  { intros x s H. unfold truthy in H. destruct x as [t|]; [|discriminate].
    destruct (t =? "")%string eqn:E; [discriminate|].
    inversion H; subst. now apply String.eqb_neq. }
  unfold getClientInfo, or_else. cbn [fst snd].
  destruct (truthy (x_forwarded_for h)) as [a|] eqn:Ea;
    destruct (truthy (x_real_ip h)) as [b|] eqn:Eb;
    destruct (truthy (user_agent h)) as [u|] eqn:Eu;
    repeat split; intros; try congruence; try discriminate; eauto.
Qed.

Lemma filter_length_le {A} (p q : A -> bool) l :
  (forall x, p x = true -> q x = true) ->
  (List.length (filter p l) <= List.length (filter q l))%nat.
Proof.
  intros Hpq. induction l as [|x l IH]; simpl; [lia|].
  destruct (p x) eqn:Ep; [rewrite (Hpq x Ep)|destruct (q x)]; simpl; lia.
Qed.

(** X19.  [checkRateLimit] counts every row of the address, whatever its
    age: its answer does not depend on the window or on the time of the
    call, and whenever it allows a request, the count the submission route
    makes for the same address within any window is below the same maximum
    too. *)
Theorem checkRateLimit_ignores_window (websiteId : Z) (ipAddress : string)
    (maxRequests windowMinutes now : Z) (d : DB) :
  (forall w' now',
      checkRateLimit websiteId ipAddress maxRequests w' now' d
      = checkRateLimit websiteId ipAddress maxRequests windowMinutes now d)
  /\ (run (checkRateLimit websiteId ipAddress maxRequests windowMinutes now) d
        = (Ok true, d) ->
      forall sql_date_gt data rl t,
        fs_websiteId data = websiteId ->
        recent_count sql_date_gt data ipAddress rl t d < maxRequests).
Proof.
  split; [reflexivity|].
  unfold run, checkRateLimit, bind, query, stmt, ret. cbn [fst].
  intros H gt data rl t Hw. inversion H as [Hlt]. apply Z.ltb_lt in Hlt.
  unfold recent_count. rewrite Hw.
  eapply Z.le_lt_trans; [|exact Hlt]. apply Nat2Z.inj_le.
  apply filter_length_le. intros f Hf. unfold recent_submission in Hf.
  apply andb_prop in Hf. tauto.
Qed.

(** X20.  The body of a submission is validated before anything else: a
    body with an empty title or a title of more than 200 characters is
    answered 400 'Invalid request data' whatever the API key, the database
    and the faults, and no storage statement runs. *)
Theorem submission_title_is_validated_first (zod_email zod_url : string -> bool)
    (sql_date_gt : Z -> Z -> bool)
    (req : SubmitRequest) (b : SubmissionJson) (now : Z) (d : DB) (fs : Faults) :
  sr_json req = Some b ->
  String.length (js_title b) = 0%nat \/ (200 < String.length (js_title b))%nat ->
  feedback_POST zod_email zod_url sql_date_gt req now d fs
  = (Ok (error_response 400 "Invalid request data"), d, fs).
Proof.
  intros Hb Ht.
  assert (Hs : feedbackSubmissionSchema zod_email zod_url b = None).
  { unfold feedbackSubmissionSchema.
    destruct (parse_FeedbackType (js_type b)); [|reflexivity].
    destruct (0 <? js_websiteId b);
      destruct (match js_categoryId b with Some c => 0 <? c | None => true end);
      destruct (1 <=? Z.of_nat (String.length (js_title b))) eqn:E1;
      destruct (Z.of_nat (String.length (js_title b)) <=? 200) eqn:E2;
      try reflexivity;
      exfalso; apply Z.leb_le in E1, E2; lia. }
  unfold feedback_POST, try_catch, bind, request_json, ret.
  rewrite Hb, Hs. reflexivity.
Qed.

Lemma submission_title_is_validated_first_witness :
  feedback_POST sample_email sample_url chronological
    {| sr_headers := sample_headers None;
       sr_json := Some {| js_websiteId := 1; js_categoryId := None;
                          js_type := "bug"; js_title := "";
                          js_description := "x"; js_email := None;
                          js_name := None; js_url := None;
                          js_metadata := None |} |}
    100 (sample_db None []) [true]
  = (Ok (error_response 400 "Invalid request data"), sample_db None [], [true]).
Proof.
  apply submission_title_is_validated_first with
    (b := {| js_websiteId := 1; js_categoryId := None;
             js_type := "bug"; js_title := "";
             js_description := "x"; js_email := None;
             js_name := None; js_url := None; js_metadata := None |});
    [reflexivity | left; reflexivity].
Defined.

Lemma remove_admitted_counted ze req req' now d fid vd f vs :
  cast_admitted ze req d = Some (fid, vd, f) ->
  remove_admitted req' d = Some (fid, f) ->
  exists f1,
    remove_admitted req' (counted fid vd f now (with_votes vs d)) = Some (fid, f1)
    /\ select_feedback fid (counted fid vd f now (with_votes vs d)) = Some f1
    /\ (if VoteType_eqb (vd_voteType vd) up
        then Feedback.upvotes f1 - 1 = Feedback.upvotes f
             /\ Feedback.downvotes f1 = Feedback.downvotes f
        else Feedback.upvotes f1 = Feedback.upvotes f
             /\ Feedback.downvotes f1 - 1 = Feedback.downvotes f)
    /\ forall u dn t, Feedback.set_counts u dn t f1 = Feedback.set_counts u dn t f.
Proof.
  intros Hadm Hrem.
  pose proof (cast_admitted_item _ _ _ _ _ _ Hadm) as Hf.
  assert (Hf' : select_feedback fid (with_votes vs d) = Some f) by exact Hf.
  unfold counted. destruct (VoteType_eqb (vd_voteType vd) up).
  - exists (Feedback.set_counts (Feedback.upvotes f + 1) (Feedback.downvotes f) now f).
    pose proof (select_feedback_updated fid (Some (Feedback.upvotes f + 1)) None
                  now _ f Hf') as Hsel.
    split; [|split; [exact Hsel|split; [|intros; reflexivity]]].
    + unfold remove_admitted in *.
      destruct (parseInt (params_id req') None) as [fid'|]; [|discriminate].
      destruct (fid' =? 0); [discriminate|].
      destruct (truthy (x_api_key (vr_headers req'))) as [key|]; [|discriminate].
      destruct (select_feedback fid' d) as [f'|]; [|discriminate].
      destruct (find _ (websites d)) as [w|] eqn:Ew; [|discriminate].
      destruct (negb (Websites.isActive w)) eqn:Ea; [discriminate|].
      inversion Hrem; subst fid' f'. rewrite Hsel.
      cbn [Feedback.websiteId Feedback.set_counts websites update_feedback_counts
           with_feedback with_votes].
      rewrite Ew, Ea. reflexivity.
    + rewrite upvotes_set_counts, downvotes_set_counts. split; [lia|reflexivity].
  - exists (Feedback.set_counts (Feedback.upvotes f) (Feedback.downvotes f + 1) now f).
    pose proof (select_feedback_updated fid None (Some (Feedback.downvotes f + 1))
                  now _ f Hf') as Hsel.
    split; [|split; [exact Hsel|split; [|intros; reflexivity]]].
    + unfold remove_admitted in *.
      destruct (parseInt (params_id req') None) as [fid'|]; [|discriminate].
      destruct (fid' =? 0); [discriminate|].
      destruct (truthy (x_api_key (vr_headers req'))) as [key|]; [|discriminate].
      destruct (select_feedback fid' d) as [f'|]; [|discriminate].
      destruct (find _ (websites d)) as [w|] eqn:Ew; [|discriminate].
      destruct (negb (Websites.isActive w)) eqn:Ea; [discriminate|].
      inversion Hrem; subst fid' f'. rewrite Hsel.
      cbn [Feedback.websiteId Feedback.set_counts websites update_feedback_counts
           with_feedback with_votes].
      rewrite Ew, Ea. reflexivity.
    + rewrite upvotes_set_counts, downvotes_set_counts. split; [reflexivity|lia].
Qed.

Lemma vote_conditions_by_ip fid em ip v :
  truthy em = None ->
  vote_conditions fid em ip v
  = (FeedbackVotes.feedbackId v =? fid) && (FeedbackVotes.voterIp v =? ip)%string.
Proof. intros H. unfold vote_conditions. rewrite H. reflexivity. Qed.

(** X21.  A vote cast with an email can be removed from the caller's
    address without the email: the row stores the address besides the
    email, so after a cast that inserted a vote, a removal from the same
    address that sends no [x-voter-email] header finds that row, answers 200
    with the counters the item had before the cast, and leaves the vote
    table as it was before the cast. *)
Theorem email_vote_is_removable_by_address (zod_email : string -> bool)
    (req req' : VoteRequest) (now1 now2 : Z) (d d1 : DB) (fid : Z) (vd : Vote)
    (f : Feedback.row) (r1 : Response) :
  cast_admitted zod_email req d = Some (fid, vd, f) ->
  remove_admitted req' d = Some (fid, f) ->
  fst (getClientInfo (vr_headers req')) = fst (getClientInfo (vr_headers req)) ->
  truthy (x_voter_email (vr_headers req')) = None ->
  run (vote_POST zod_email req now1) d = (Ok r1, d1) ->
  List.length (votes d1) = S (List.length (votes d)) ->
  exists d2,
    run (vote_DELETE req' now2) d1
    = (Ok {| status := 200;
             body := VoteData (Feedback.upvotes f) (Feedback.downvotes f) |}, d2)
    /\ votes d2 = votes d.
Proof.
  intros Hadm Hrem Hip Hem Hrun Hlen. unfold run in *.
  destruct (vote_POST_admitted _ _ now1 _ _ _ _ Hadm) as [_ [H0 _]].
  rewrite H0, cast_tail_run in Hrun. clear H0.
  set (ip := fst (getClientInfo (vr_headers req))) in *.
  destruct (find (vote_conditions fid (vd_voterEmail vd) ip) (votes d))
    as [ev|] eqn:Eev.
  { exfalso.
    destruct (VoteType_eqb (FeedbackVotes.voteType ev) (vd_voteType vd));
      cbn [fst] in Hrun; inversion Hrun; subst;
      cbn [flipped update_feedback_counts update_vote_type votes with_votes
           with_feedback] in Hlen;
      rewrite ?length_map in Hlen; lia. }
  destruct (insert_vote fid (vd_voteType vd) (truthy (vd_voterEmail vd)) ip now1 d)
    as [[[]|] d0] eqn:Ei; cbn [fst] in Hrun; inversion Hrun; subst r1 d1; clear Hrun.
  2:{ exfalso. unfold insert_vote in Ei. destruct (_ || _); inversion Ei; subst.
      lia. }
  unfold insert_vote in Ei.
  destruct (existsb _ (votes d)) eqn:Ecol; [discriminate|].
  destruct (negb _); [discriminate|]. cbn [orb] in Ei.
  inversion Ei; subst d0; clear Ei.
  match goal with
  | |- context [with_votes (votes d ++ [?v]) d] => set (v0 := v) in *
  end.
  destruct (remove_admitted_counted _ _ _ now1 _ _ _ _ (votes d ++ [v0]) Hadm Hrem)
    as [f1 [Hadm1 [Hsel1 [Hcnt Hset]]]].
  set (d1 := counted fid vd f now1 (with_votes (votes d ++ [v0]) d)) in *.
  assert (Hvotes : votes d1 = votes d ++ [v0])
    by (unfold d1, counted; destruct (VoteType_eqb _ up); reflexivity).
  destruct (vote_DELETE_admitted _ now2 _ _ _ Hadm1) as [_ H2].
  rewrite H2, remove_tail_run, Hip. fold ip.
  assert (Hfind : find (vote_conditions fid (x_voter_email (vr_headers req')) ip)
                    (votes d1) = Some v0).
  { rewrite Hvotes. apply find_app_none.
    - destruct (find (vote_conditions fid (x_voter_email (vr_headers req')) ip)
                  (votes d)) as [x|] eqn:Ex; [|reflexivity].
      exfalso. apply find_some in Ex. destruct Ex as [Hin Hx].
      rewrite (vote_conditions_by_ip _ _ _ _ Hem) in Hx.
      apply andb_prop in Hx. destruct Hx as [Hx1 Hx2].
      assert (existsb (vote_collides v0) (votes d) = true); [|congruence].
      apply existsb_exists. exists x. split; [assumption|].
      unfold vote_collides. subst v0.
      cbn [FeedbackVotes.feedbackId FeedbackVotes.voterIp].
      apply Z.eqb_eq in Hx1. apply String.eqb_eq in Hx2.
      rewrite Hx1, Hx2, Z.eqb_refl, String.eqb_refl. reflexivity.
    - rewrite (vote_conditions_by_ip _ _ _ _ Hem). subst v0.
      cbn [FeedbackVotes.feedbackId FeedbackVotes.voterIp].
      rewrite Z.eqb_refl, String.eqb_refl. reflexivity. }
  rewrite Hfind. cbn [fst].
  assert (Hty : FeedbackVotes.voteType v0 = vd_voteType vd) by reflexivity.
  assert (Hdel : votes (delete_vote (FeedbackVotes.id v0) d1) = votes d).
  { unfold delete_vote. cbn [votes with_votes]. rewrite Hvotes.
    apply delete_fresh_vote. subst v0. cbn [FeedbackVotes.id].
    apply next_id_fresh. }
  assert (Hsel1' : select_feedback fid (delete_vote (FeedbackVotes.id v0) d1)
                   = Some f1) by exact Hsel1.
  eexists. split.
  - f_equal. unfold counts_of, uncounted. rewrite Hty.
    destruct (VoteType_eqb (vd_voteType vd) up);
      rewrite (select_feedback_updated fid _ _ now2 _ f1 Hsel1');
      cbn [option_map]; rewrite upvotes_set_counts, downvotes_set_counts,
        !num_or_zero; destruct Hcnt as [Hu Hd]; rewrite ?Hu, ?Hd; reflexivity.
  - unfold uncounted. destruct (VoteType_eqb _ up); exact Hdel.
Qed.

Lemma email_vote_is_removable_by_address_witness :
  exists d2,
    run (vote_DELETE (sample_vote "up" None) 300)
        (snd (run (vote_POST sample_email sample_cast 200) sample_ledger))
    = (Ok {| status := 200; body := VoteData 0 0 |}, d2)
    /\ votes d2 = [].
Proof.
  exact (email_vote_is_removable_by_address sample_email sample_cast
           (sample_vote "up" None) 200 300 sample_ledger _ 1
           {| vd_voteType := up; vd_voterEmail := Some "ann@example.org" |}
           (sample_feedback 1 medium 0 100)
           {| status := 200; body := VoteData 1 0 |}
           eq_refl eq_refl eq_refl eq_refl eq_refl eq_refl).
Defined.
